(** * Email processing pipeline: a shallow embedding of [email_processing.py]

    The Python module is embedded function by function.  Python values are
    terms of [pyval]; dictionaries are insertion-ordered association lists
    with string keys, as every dictionary of the module is.  A function that
    logs, touches the database or may raise is a computation in the monad
    [M]: it threads a [World] (the logger, the [emails] table, the files the
    module writes) and returns [None] when an exception escapes it.

    Text is modelled by [string]: a Python [str] whose code points lie below
    U+0100, one [ascii] per code point. *)

From Stdlib Require Import List String Ascii Bool Arith ZArith NArith QArith Lia.
Import ListNotations.
Close Scope Q_scope.
Open Scope nat_scope.
Open Scope string_scope.
Open Scope list_scope.

Set Implicit Arguments.
Set Warnings "-register-all".

(** ** Text primitives of Python's [str] *)

Module Str.

Definition LF : ascii := ascii_of_nat 10.

(** [c.isspace()] for a code point below U+0100. *)
Definition isspace (c : ascii) : bool :=
  let n := nat_of_ascii c in
  (((9 <=? n) && (n <=? 13)) || ((28 <=? n) && (n <=? 32))
   || (n =? 133) || (n =? 160))%nat.

(** [c.lower()] for a code point below U+0100: the ASCII capitals and the
    Latin-1 capitals (U+00D7, the multiplication sign, is not a letter). *)
Definition lower_char (c : ascii) : ascii :=
  let n := nat_of_ascii c in
  if (((65 <=? n) && (n <=? 90))
      || ((192 <=? n) && (n <=? 214))
      || ((216 <=? n) && (n <=? 222)))%nat
  then ascii_of_nat (n + 32) else c.

Fixpoint lower (s : string) : string :=
  match s with
  | EmptyString => EmptyString
  | String c t => String (lower_char c) (lower t)
  end.

(** [needle in hay] *)
Fixpoint contains (needle hay : string) : bool :=
  if String.prefix needle hay then true
  else match hay with
       | EmptyString => false
       | String _ t => contains needle t
       end.

Fixpoint lstrip (s : string) : string :=
  match s with
  | EmptyString => EmptyString
  | String c t => if isspace c then lstrip t else s
  end.

Fixpoint rstrip (s : string) : string :=
  match s with
  | EmptyString => EmptyString
  | String c t =>
      match rstrip t with
      | EmptyString => if isspace c then EmptyString else String c EmptyString
      | t' => String c t'
      end
  end.

Definition strip (s : string) : string := rstrip (lstrip s).

Definition is_empty (s : string) : bool :=
  match s with EmptyString => true | _ => false end.

Definition cons_head (c : ascii) (l : list string) : list string :=
  match l with
  | [] => [String c EmptyString]
  | h :: tl => String c h :: tl
  end.

(** [s.split("\n\n")]: the separator is searched from the left, and the
    scan resumes after each occurrence. *)
Fixpoint split_blank (s : string) : list string :=
  match s with
  | EmptyString => [EmptyString]
  | String c t =>
      match t with
      | String c' t' =>
          if Ascii.eqb c LF && Ascii.eqb c' LF
          then EmptyString :: split_blank t'
          else cons_head c (split_blank t)
      | EmptyString => cons_head c (split_blank t)
      end
  end.

(** ["\n\n".join(l)] *)
Fixpoint join_blank (l : list string) : string :=
  match l with
  | [] => EmptyString
  | [h] => h
  | h :: tl => (h ++ String LF (String LF (join_blank tl)))%string
  end.

(** [s.endswith(suffix)] *)
Definition endswith (s suffix : string) : bool :=
  let n := String.length s in
  let k := String.length suffix in
  (k <=? n)%nat && String.eqb (substring (n - k) k s) suffix.

End Str.

(** ** Python values *)

Inductive pyval : Type :=
| PNone
| PBool (b : bool)
| PInt (n : Z)
| PFloat (q : Q)
| PStr (s : string)
| PBytes (b : list Byte.byte)
| PTuple (l : list pyval)
| PList (l : list pyval)
| PDict (d : list (string * pyval)).

Definition dict := list (string * pyval).

(** [bool(v)], the test behind [if not v]. *)
Definition truthy (v : pyval) : bool :=
  match v with
  | PNone => false
  | PBool b => b
  | PInt n => negb (Z.eqb n 0)
  | PFloat q => negb (Qeq_bool q 0)
  | PStr s => negb (Str.is_empty s)
  | PBytes b => match b with [] => false | _ => true end
  | PTuple l | PList l => match l with [] => false | _ => true end
  | PDict d => match d with [] => false | _ => true end
  end.

(** [hash(v)] succeeds: lists and dictionaries are unhashable, a tuple is
    hashable when its items are. *)
Fixpoint hashable (v : pyval) : bool :=
  match v with
  | PList _ | PDict _ => false
  | PTuple l => forallb hashable l
  | _ => true
  end.

Module Dict.

Fixpoint get (k : string) (d : dict) : option pyval :=
  match d with
  | [] => None
  | (k', v) :: tl => if String.eqb k k' then Some v else get k tl
  end.

(** [d[k] = v]: an existing key keeps its position. *)
Fixpoint set (k : string) (v : pyval) (d : dict) : dict :=
  match d with
  | [] => [(k, v)]
  | (k', v') :: tl =>
      if String.eqb k k' then (k', v) :: tl else (k', v') :: set k v tl
  end.

End Dict.

(** [v[k]] for a string key; [None] is the [KeyError] of a dictionary that
    lacks [k] or the [TypeError] of a value that is no dictionary. *)
Definition getitem (v : pyval) (k : string) : option pyval :=
  match v with
  | PDict d => Dict.get k d
  | _ => None
  end.

(** [table.get(k, default)] on a module-level table with string keys.  A key
    that is no string is in no table; an unhashable key raises. *)
Definition table_get {A : Type} (table : list (string * A)) (k : pyval)
    (default : A) : option A :=
  match k with
  | PStr s =>
      Some (match find (fun kv => String.eqb s (fst kv)) table with
            | Some kv => snd kv
            | None => default
            end)
  | _ => if hashable k then Some default else None
  end.

(** [a + b] on strings; anything else the module never adds. *)
Definition str_add (a b : pyval) : option string :=
  match a, b with
  | PStr x, PStr y => Some (x ++ y)%string
  | _, _ => None
  end.

Definition as_str (v : pyval) : option string :=
  match v with PStr s => Some s | _ => None end.

(** ** [hashlib.md5]

    The digest of RFC 1321 on 32-bit words kept in [Z], with the wrap-around
    of every addition written out. *)

Module MD5.
Local Open Scope Z_scope.

Definition w32 (x : Z) : Z := Z.land x 0xffffffff.

Definition rotl (x c : Z) : Z :=
  w32 (Z.lor (Z.shiftl x c) (Z.shiftr x (32 - c))).

Definition lnot32 (x : Z) : Z := Z.lxor x 0xffffffff.

Definition shifts : list Z :=
  [7; 12; 17; 22; 7; 12; 17; 22; 7; 12; 17; 22; 7; 12; 17; 22;
   5; 9; 14; 20; 5; 9; 14; 20; 5; 9; 14; 20; 5; 9; 14; 20;
   4; 11; 16; 23; 4; 11; 16; 23; 4; 11; 16; 23; 4; 11; 16; 23;
   6; 10; 15; 21; 6; 10; 15; 21; 6; 10; 15; 21; 6; 10; 15; 21].

Definition sines : list Z :=
  [0xd76aa478; 0xe8c7b756; 0x242070db; 0xc1bdceee;
   0xf57c0faf; 0x4787c62a; 0xa8304613; 0xfd469501;
   0x698098d8; 0x8b44f7af; 0xffff5bb1; 0x895cd7be;
   0x6b901122; 0xfd987193; 0xa679438e; 0x49b40821;
   0xf61e2562; 0xc040b340; 0x265e5a51; 0xe9b6c7aa;
   0xd62f105d; 0x02441453; 0xd8a1e681; 0xe7d3fbc8;
   0x21e1cde6; 0xc33707d6; 0xf4d50d87; 0x455a14ed;
   0xa9e3e905; 0xfcefa3f8; 0x676f02d9; 0x8d2a4c8a;
   0xfffa3942; 0x8771f681; 0x6d9d6122; 0xfde5380c;
   0xa4beea44; 0x4bdecfa9; 0xf6bb4b60; 0xbebfbc70;
   0x289b7ec6; 0xeaa127fa; 0xd4ef3085; 0x04881d05;
   0xd9d4d039; 0xe6db99e5; 0x1fa27cf8; 0xc4ac5665;
   0xf4292244; 0x432aff97; 0xab9423a7; 0xfc93a039;
   0x655b59c3; 0x8f0ccc92; 0xffeff47d; 0x85845dd1;
   0x6fa87e4f; 0xfe2ce6e0; 0xa3014314; 0x4e0811a1;
   0xf7537e82; 0xbd3af235; 0x2ad7d2bb; 0xeb86d391].

(** The chaining value A, B, C, D. *)
Record state := State { sA : Z; sB : Z; sC : Z; sD : Z }.

Definition init : state :=
  State 0x67452301 0xefcdab89 0x98badcfe 0x10325476.

(** Little-endian word of four bytes. *)
Definition word_of (bs : list Z) : Z :=
  fold_right (fun b acc => b + 256 * acc) 0 bs.

Fixpoint words (n : nat) (bs : list Z) : list Z :=
  match n with
  | O => []
  | S k => word_of (firstn 4 bs) :: words k (skipn 4 bs)
  end.

Definition round (m : list Z) (st : state) (i : nat) : state :=
  let '(State a b c d) := st in
  let iz := Z.of_nat i in
  let '(f, g) :=
    if iz <? 16 then (Z.lor (Z.land b c) (Z.land (lnot32 b) d), iz)
    else if iz <? 32
    then (Z.lor (Z.land d b) (Z.land (lnot32 d) c), (5 * iz + 1) mod 16)
    else if iz <? 48 then (Z.lxor b (Z.lxor c d), (3 * iz + 5) mod 16)
    else (Z.lxor c (Z.lor b (lnot32 d)), (7 * iz) mod 16) in
  let f' := w32 (f + a + nth i sines 0 + nth (Z.to_nat g) m 0) in
  State d (w32 (b + rotl f' (nth i shifts 0))) b c.

Definition compress (st : state) (block : list Z) : state :=
  let m := words 16 block in
  let '(State a b c d) := fold_left (round m) (seq 0 64) st in
  State (w32 (sA st + a)) (w32 (sB st + b))
        (w32 (sC st + c)) (w32 (sD st + d)).

Definition le_bytes (n : nat) (x : Z) : list Z :=
  map (fun i => Z.land (Z.shiftr x (8 * Z.of_nat i)) 255) (seq 0 n).

(** The message, one 1 bit, zeros up to 56 modulo 64, then the bit length
    on eight bytes. *)
Definition pad (msg : list Z) : list Z :=
  let len := Z.of_nat (List.length msg) in
  let zeros := Z.to_nat ((55 - len) mod 64) in
  msg ++ [128] ++ repeat 0 zeros ++ le_bytes 8 (Z.land (8 * len) 0xffffffffffffffff).

Definition digest_state (msg : list Z) : state :=
  let p := pad msg in
  fold_left (fun st k => compress st (firstn 64 (skipn (64 * k) p)))
            (seq 0 (List.length p / 64)) init.

Definition hex_digit (x : Z) : ascii :=
  ascii_of_nat (Z.to_nat (if x <? 10 then 48 + x else 87 + x)).

Definition hex_byte (b : Z) (rest : string) : string :=
  String (hex_digit (Z.shiftr b 4)) (String (hex_digit (Z.land b 15)) rest).

Definition hex_word (x : Z) (rest : string) : string :=
  hex_byte (Z.land x 255)
    (hex_byte (Z.land (Z.shiftr x 8) 255)
       (hex_byte (Z.land (Z.shiftr x 16) 255)
          (hex_byte (Z.land (Z.shiftr x 24) 255) rest))).

(** [hashlib.md5(msg).hexdigest()] *)
Definition hexdigest (msg : list Z) : string :=
  let '(State a b c d) := digest_state msg in
  hex_word a (hex_word b (hex_word c (hex_word d EmptyString))).

End MD5.

(** [s.encode()]: UTF-8, two bytes for a code point from U+0080. *)
Fixpoint str_encode (s : string) : list Z :=
  match s with
  | EmptyString => []
  | String c t =>
      let n := Z.of_nat (nat_of_ascii c) in
      (if (n <? 128)%Z then [n]
       else [(192 + Z.shiftr n 6)%Z; (128 + Z.land n 63)%Z]) ++ str_encode t
  end.

(** ** The world the module acts on *)

Inductive level : Type := INFO | WARNING | ERROR.

(** A call of the logger: the level, the message with [{}] where the
    f-string interpolates, and the interpolated values.  The text of a caught
    exception ([str(e)]) is not kept. *)
Record log_record : Type :=
  LogRecord { lvl : level; template : string; log_args : list pyval }.

(** A row of the table [emails]; [id] is the position in the table, and
    [context] is kept as the value whose [str()] the column holds. *)
Record Row : Type := mkRow {
  row_filename : pyval;
  row_request_type : pyval;
  row_sub_request_type : pyval;
  row_confidence : pyval;
  row_context : pyval;
  row_email_hash : pyval
}.

(** What a database connection, and the cursor opened on it, will do: the
    statements that raise. *)
Record Conn : Type := mkConn {
  select_raises : bool;
  insert_raises : bool;
  commit_raises : bool;
  close_raises : bool
}.

Definition healthy : Conn := mkConn false false false false.

(** [connections] is the fate of the coming calls of [jaydebeapi.connect],
    in order: [None] when the call (or the [CREATE TABLE] after it) raises.
    Once the list is used up every connection is [healthy].
    [results_json] is the batch that [results.json] holds: [None] when
    there is no such file, or when no batch can be read back from it. *)
Record World : Type := mkWorld {
  logs : list log_record;
  emails : list Row;
  connections : list (option Conn);
  classification_log : list (pyval * pyval * pyval);
  results_json : option (list pyval)
}.

(** A part of a parsed message as [msg.walk()] yields it. *)
Record Part : Type := mkPart {
  get_content_type : string;
  get_filename : option string;
  get_payload : pyval;
  (** [part.get_payload(decode=True).decode()]; [None] when it raises *)
  payload_decode : option string
}.

Record Message : Type := mkMessage {
  msg_subject : option string;
  msg_walk : list Part
}.

(** The collaborators and the file system, read only. *)
Record Env : Type := mkEnv {
  (** [os.listdir]; [None] when it raises *)
  listdir : string -> option (list string);
  (** [open] then [email.message_from_file]; [None] when either raises *)
  message_from_file : string -> option Message;
  (** the zero-shot classifier: labels by descending score, and the scores *)
  CLASSIFIER : string -> list string -> option (list string * list Q);
  (** the entity recogniser: the [word] and the [entity] of each entity *)
  NER : string -> option (list (string * string));
  (** [re.findall(pattern, text)] *)
  findall : string -> string -> list string;
  classification_log_writable : bool;
  (** [open("results.json", "w")] and [json.dump] both go through *)
  results_json_writable : bool;
  (** when they do not: [open] went through, which cut the file, and the
      failure came after it *)
  results_json_cut : bool
}.

(** ** Computations *)

Definition M (A : Type) : Type := World -> World * option A.

Definition ret {A} (a : A) : M A := fun w => (w, Some a).

Definition raise {A} : M A := fun w => (w, None).

Definition bind {A B} (m : M A) (k : A -> M B) : M B :=
  fun w => match m w with
           | (w', Some a) => k a w'
           | (w', None) => (w', None)
           end.

(** [try: body except Exception: handler]; what [body] did to the world
    before it raised stays done. *)
Definition try_except {A} (body handler : M A) : M A :=
  fun w => match body w with
           | (w', Some a) => (w', Some a)
           | (w', None) => handler w'
           end.

(** An expression that may raise. *)
Definition eval {A} (o : option A) : M A :=
  match o with Some a => ret a | None => raise end.

Notation "x <- c1 ;; c2" := (bind c1 (fun x => c2))
  (at level 61, c1 at next level, right associativity).
Notation "c1 ;;; c2" := (bind c1 (fun _ => c2))
  (at level 61, right associativity).

Definition log (l : level) (t : string) (args : list pyval) : M unit :=
  fun w => (mkWorld (logs w ++ [LogRecord l t args]) (emails w)
                    (connections w) (classification_log w) (results_json w),
            Some tt).

Definition logger_info := log INFO.
Definition logger_error := log ERROR.

(** The value a computation returns from a world, [None] when it raises. *)
Definition value {A} (m : M A) (w : World) : option A := snd (m w).

(** The world it leaves. *)
Definition after {A} (m : M A) (w : World) : World := fst (m w).

(** ** Module-level tables *)

Definition REQUEST_TYPES : list string :=
  ["Payment Inquiry"; "Loan Request"; "Account Update"].

Definition SUB_REQUEST_TYPES : list (string * list string) :=
  [("Payment Inquiry", ["Payment Confirmation"; "Payment Delay"]);
   ("Loan Request", ["Loan Status"; "Loan Approval"]);
   ("Account Update", ["Account Details"; "Account Closure"])].

Definition ROUTING_RULES : list (string * string) :=
  [("Payment Inquiry", "Finance Team");
   ("Loan Request", "Loan Processing Team");
   ("Account Update", "Customer Support Team")].

Definition PRIORITY_RULES : list (string * Z) :=
  [("Payment Inquiry", 3%Z); ("Loan Request", 2%Z); ("Account Update", 1%Z)].

(** ** Paths *)

Fixpoint basename_aux (s acc : string) : string :=
  match s with
  | EmptyString => acc
  | String c t =>
      if Ascii.eqb c "/" then basename_aux t EmptyString
      else basename_aux t (acc ++ String c EmptyString)%string
  end.

(** [os.path.basename] *)
Definition basename (p : string) : string := basename_aux p EmptyString.

(** [os.path.join(directory, f)] *)
Definition path_join (directory f : string) : string :=
  if String.prefix "/" f then f
  else if Str.is_empty directory || Str.endswith directory "/"
       then (directory ++ f)%string
       else (directory ++ "/" ++ f)%string.

(** ** Step 1: extract email components *)

(** The loop over [msg.walk()], with [body] and [attachments] as they stand
    when [parts] remain. *)
Fixpoint walk_parts (parts : list Part) (body : string)
    (attachments : list pyval) : M (string * list pyval) :=
  match parts with
  | [] => ret (body, attachments)
  | part :: rest =>
      if String.eqb (get_content_type part) "text/plain" then
        text <- eval (payload_decode part) ;;
        walk_parts rest (body ++ text)%string attachments
      else if negb (String.prefix "multipart" (get_content_type part)) then
        match get_filename part with
        | Some (String c n as attachment_name) =>
            logger_info "Attachment found: {}" [PStr attachment_name] ;;;
            walk_parts rest body
              (attachments ++ [PTuple [PStr attachment_name; get_payload part]])
        | _ => walk_parts rest body attachments
        end
      else walk_parts rest body attachments
  end.

Definition extract_email_components (env : Env) (filepath : string)
    : M pyval :=
  logger_info "Extracting components from email: {}" [PStr filepath] ;;;
  try_except
    (msg <- eval (message_from_file env filepath) ;;
     let subject := match msg_subject msg with
                    | Some s => s
                    | None => EmptyString
                    end in
     ba <- walk_parts (msg_walk msg) EmptyString [] ;;
     let email_data :=
       PDict [("filename", PStr (basename filepath));
              ("subject", PStr subject);
              ("body", PStr (fst ba));
              ("attachments", PList (snd ba))] in
     logger_info "Email components extracted: {}" [PStr (basename filepath)] ;;;
     ret email_data)
    (logger_error "Error extracting email components from {}" [PStr filepath] ;;;
     ret PNone).

(** ** Step 2: classify email intent *)

(** [result['labels'][0]] and [result['scores'][0]] *)
Definition top (result : list string * list Q) : option (string * Q) :=
  match result with
  | (label :: _, score :: _) => Some (label, score)
  | _ => None
  end.

Definition classify_email_intent (env : Env) (email_data : pyval) : M pyval :=
  filename <- eval (getitem email_data "filename") ;;
  logger_info "Classifying intent for email: {}" [filename] ;;;
  try_except
    (subject <- eval (getitem email_data "subject") ;;
     subject_sp <- eval (str_add subject (PStr " ")) ;;
     body <- eval (getitem email_data "body") ;;
     text <- eval (str_add (PStr subject_sp) body) ;;
     result <- eval (CLASSIFIER env text REQUEST_TYPES) ;;
     rc <- eval (top result) ;;
     let request_type := fst rc in
     let confidence := snd rc in
     sub_types <- eval (table_get SUB_REQUEST_TYPES (PStr request_type) []) ;;
     sub <- match sub_types with
            | [] => ret (PNone, PFloat 0)
            | _ =>
                sub_result <- eval (CLASSIFIER env text sub_types) ;;
                sc <- eval (top sub_result) ;;
                ret (PStr (fst sc), PFloat (snd sc))
            end ;;
     let intent :=
       PDict [("request_type", PStr request_type);
              ("request_confidence", PFloat confidence);
              ("sub_request_type", fst sub);
              ("sub_request_confidence", snd sub)] in
     logger_info "Intent classified: {}" [intent] ;;;
     ret intent)
    (logger_error "Error classifying intent for {}" [filename] ;;;
     ret PNone).

(** ** Step 3: extract context *)

Definition amount_pattern : string := "USD\s*[\d,]+\.\d{2}".
Definition date_pattern : string := "\d{1,2}-[A-Z]{3}-\d{4}".

Definition extract_context (env : Env) (email_data : pyval) : M pyval :=
  filename <- eval (getitem email_data "filename") ;;
  logger_info "Extracting context for email: {}" [filename] ;;;
  try_except
    (subject <- eval (getitem email_data "subject") ;;
     subject_sp <- eval (str_add subject (PStr " ")) ;;
     body <- eval (getitem email_data "body") ;;
     text <- eval (str_add (PStr subject_sp) body) ;;
     entities <- eval (NER env text) ;;
     let context_entities :=
       map (fun entity => PDict [("text", PStr (fst entity));
                                 ("label", PStr (snd entity))]) entities in
     let amounts := findall env amount_pattern text in
     let dates := findall env date_pattern text in
     let context :=
       PDict [("entities", PList context_entities);
              ("amounts", PList (map PStr amounts));
              ("dates", PList (map PStr dates))] in
     logger_info "Context extracted: {}" [context] ;;;
     ret context)
    (logger_error "Error extracting context for {}" [filename] ;;;
     ret PNone).

(** ** Step 4: handle multi-request emails *)

Definition segment_intent (segment request_type : string) (confidence : Q)
    : pyval :=
  PDict [("segment", PStr segment);
         ("request_type", PStr request_type);
         ("confidence", PFloat confidence)].

(** The loop over the segments, with [intents] as it stands when [segments]
    remain. *)
Fixpoint classify_segments (env : Env) (segments : list string)
    (intents : list pyval) : M (list pyval) :=
  match segments with
  | [] => ret intents
  | segment :: rest =>
      if negb (Str.is_empty (Str.strip segment)) then
        result <- eval (CLASSIFIER env segment REQUEST_TYPES) ;;
        lc <- eval (top result) ;;
        classify_segments env rest
          (intents ++ [segment_intent segment (fst lc) (snd lc)])
      else classify_segments env rest intents
  end.

(** [x['confidence']] as the float the comparison of [max] needs. *)
Definition confidence_key (x : pyval) : option Q :=
  match getitem x "confidence" with
  | Some (PFloat q) => Some q
  | _ => None
  end.

(** [a > b] on floats *)
Definition Qgt_bool (a b : Q) : bool := negb (Qle_bool a b).

(** The scan of [max(..., key=...)]: [best], of key [best_key], is replaced
    by an item only when the item's key is greater. *)
Fixpoint max_scan (items : list pyval) (best : pyval) (best_key : Q)
    : option pyval :=
  match items with
  | [] => Some best
  | x :: rest =>
      match confidence_key x with
      | Some k =>
          if Qgt_bool k best_key then max_scan rest x k
          else max_scan rest best best_key
      | None => None
      end
  end.

(** [max(intents, key=lambda x: x['confidence']) if intents else None] *)
Definition primary_of (intents : list pyval) : option pyval :=
  match intents with
  | [] => Some PNone
  | x :: rest =>
      match confidence_key x with
      | Some k => max_scan rest x k
      | None => None
      end
  end.

Definition handle_multi_request (env : Env) (email_data : pyval) : M pyval :=
  filename <- eval (getitem email_data "filename") ;;
  logger_info "Handling multi-request for email: {}" [filename] ;;;
  try_except
    (body <- eval (getitem email_data "body") ;;
     text <- eval (as_str body) ;;
     let segments := Str.split_blank text in
     intents <- classify_segments env segments [] ;;
     primary_intent <- eval (primary_of intents) ;;
     logger_info "Multi-request handled: Primary intent - {}" [primary_intent] ;;;
     ret (PTuple [primary_intent; PList intents]))
    (logger_error "Error handling multi-request for {}" [filename] ;;;
     ret (PTuple [PNone; PList []])).

(** ** Step 5: assign priority and confidence *)

Definition assign_priority_and_confidence (intent email_data : pyval)
    : M pyval :=
  filename <- eval (getitem email_data "filename") ;;
  logger_info "Assigning priority for email: {}" [filename] ;;;
  try_except
    (request_type <- eval (getitem intent "request_type") ;;
     confidence <- eval (getitem intent "request_confidence") ;;
     priority <- eval (table_get PRIORITY_RULES request_type 1%Z) ;;
     body <- eval (getitem email_data "body") ;;
     body_str <- eval (as_str body) ;;
     let text := Str.lower body_str in
     let priority :=
       if Str.contains "urgent" text || Str.contains "immediate" text
       then (priority + 1)%Z else priority in
     let scored_intent :=
       PDict [("request_type", request_type);
              ("confidence", confidence);
              ("priority", PInt priority)] in
     logger_info "Priority assigned: {}" [scored_intent] ;;;
     ret scored_intent)
    (logger_error "Error assigning priority for {}" [filename] ;;;
     ret PNone).

(** ** Step 6: compute email hash *)

Definition compute_email_hash (email_data : pyval) : M pyval :=
  filename <- eval (getitem email_data "filename") ;;
  logger_info "Computing hash for email: {}" [filename] ;;;
  try_except
    (subject <- eval (getitem email_data "subject") ;;
     body <- eval (getitem email_data "body") ;;
     text <- eval (str_add subject body) ;;
     let email_hash := PStr (MD5.hexdigest (str_encode text)) in
     logger_info "Hash computed: {}" [email_hash] ;;;
     ret email_hash)
    (logger_error "Error computing hash for {}" [filename] ;;;
     ret PNone).

(** ** Step 7: set up the database *)

(** [jaydebeapi.connect] followed by [CREATE TABLE IF NOT EXISTS]: the next
    fate in [connections] is used up. *)
Definition connect : M Conn :=
  fun w =>
    match connections w with
    | [] => (w, Some healthy)
    | fate :: later =>
        (mkWorld (logs w) (emails w) later (classification_log w)
                 (results_json w), fate)
    end.

(** The pair [(conn, cursor)] is one [Conn]; [None] is [(None, None)]. *)
Definition setup_h2_database : M (option Conn) :=
  logger_info "Setting up H2 database..." [] ;;;
  try_except
    (conn <- connect ;;
     logger_info "H2 database setup complete." [] ;;;
     ret (Some conn))
    (logger_error "Error setting up H2 database" [] ;;;
     ret None).

(** ** Step 8: detect duplicates *)

(** [email_hash = ?] in SQL: true on equal strings only. *)
Definition sql_eq (column parameter : pyval) : bool :=
  match column, parameter with
  | PStr a, PStr b => String.eqb a b
  | _, _ => false
  end.

(** [SELECT COUNT( * ) FROM emails WHERE email_hash = ?] *)
Definition select_count (cursor : Conn) (email_hash : pyval) : M nat :=
  fun w =>
    if select_raises cursor then (w, None)
    else (w, Some (List.length
                     (filter (fun r => sql_eq (row_email_hash r) email_hash)
                             (emails w)))).

Definition detect_duplicates (cursor : Conn) (email_data email_hash : pyval)
    : M pyval :=
  filename <- eval (getitem email_data "filename") ;;
  logger_info "Detecting duplicates for email: {}" [filename] ;;;
  try_except
    (count <- select_count cursor email_hash ;;
     let is_duplicate := (0 <? count)%nat in
     logger_info "Duplicate check: {}"
       [PStr (if is_duplicate then "Duplicate" else "Not a duplicate")] ;;;
     ret (PBool is_duplicate))
    (logger_error "Error detecting duplicates for {}" [filename] ;;;
     ret (PBool false)).

(** ** Step 9: store email data *)

(** [INSERT INTO emails ... VALUES (?, ?, ?, ?, ?, ?)]; the connection is in
    auto-commit mode, as JDBC opens it, so the row is in the table at once. *)
Definition insert_row (cursor : Conn) (r : Row) : M unit :=
  fun w =>
    if insert_raises cursor then (w, None)
    else (mkWorld (logs w) (emails w ++ [r]) (connections w)
                  (classification_log w) (results_json w), Some tt).

Definition store_email_data (cursor : Conn)
    (email_data intent context email_hash : pyval) : M unit :=
  filename <- eval (getitem email_data "filename") ;;
  logger_info "Storing email data for: {}" [filename] ;;;
  try_except
    (row_fn <- eval (getitem email_data "filename") ;;
     request_type <- eval (getitem intent "request_type") ;;
     sub_request_type <- eval (getitem intent "sub_request_type") ;;
     request_confidence <- eval (getitem intent "request_confidence") ;;
     insert_row cursor
       (mkRow row_fn request_type sub_request_type request_confidence
              context email_hash) ;;;
     logger_info "Email data stored successfully." [])
    (logger_error "Error storing email data for {}" [filename]).

(** ** Step 10: route request *)

Definition route_request (result : pyval) : M pyval :=
  filename <- eval (getitem result "filename") ;;
  logger_info "Routing request for email: {}" [filename] ;;;
  try_except
    (intent <- eval (getitem result "intent") ;;
     request_type <- eval (getitem intent "request_type") ;;
     team <- eval (table_get ROUTING_RULES request_type "Default Team") ;;
     fields <- eval (match result with PDict d => Some d | _ => None end) ;;
     let result := PDict (Dict.set "routing" (PDict [("team", PStr team)]) fields) in
     logger_info "Request routed to: {}" [PStr team] ;;;
     ret result)
    (logger_error "Error routing request for {}" [filename] ;;;
     ret result).

(** ** Step 11: log classification decision *)

(** [open("classification_log.txt", "a")] *)
Definition open_classification_log (env : Env) : M unit :=
  eval (if classification_log_writable env then Some tt else None).

(** [f.write(...)]: the file name, the intent and the confidence of the line;
    its time stamp is left out. *)
Definition write_classification_log (line : pyval * pyval * pyval) : M unit :=
  fun w =>
    (mkWorld (logs w) (emails w) (connections w)
             (classification_log w ++ [line]) (results_json w), Some tt).

Definition log_classification_decision (env : Env) (result : pyval) : M unit :=
  filename <- eval (getitem result "filename") ;;
  logger_info "Logging classification decision for: {}" [filename] ;;;
  try_except
    (open_classification_log env ;;;
     line_fn <- eval (getitem result "filename") ;;
     intent <- eval (getitem result "intent") ;;
     request_type <- eval (getitem intent "request_type") ;;
     intent' <- eval (getitem result "intent") ;;
     confidence <- eval (getitem intent' "confidence") ;;
     write_classification_log (line_fn, request_type, confidence) ;;;
     logger_info "Classification decision logged." [])
    (logger_error "Error logging classification decision for {}" [filename]).

(** ** Step 12: process a single email *)

Definition commit (conn : Conn) : M unit :=
  eval (if commit_raises conn then None else Some tt).

Definition close (conn : Conn) : M unit :=
  eval (if close_raises conn then None else Some tt).

(** The tuple [(filepath, email_data, intent, context, primary_intent,
    all_intents)] that phase 1 hands to phase 2. *)
Record Args : Type := mkArgs {
  arg_filepath : string;
  arg_email_data : pyval;
  arg_intent : pyval;
  arg_context : pyval;
  arg_primary_intent : pyval;
  arg_all_intents : pyval
}.

Definition process_single_email (env : Env) (args : Args) : M pyval :=
  let filepath := arg_filepath args in
  let email_data := arg_email_data args in
  let intent := arg_intent args in
  let context := arg_context args in
  let all_intents := arg_all_intents args in
  logger_info "Processing email: {}" [PStr filepath] ;;;
  try_except
    (scored_intent <- assign_priority_and_confidence intent email_data ;;
     if negb (truthy scored_intent) then ret PNone else
     email_hash <- compute_email_hash email_data ;;
     if negb (truthy email_hash) then ret PNone else
     db <- setup_h2_database ;;
     match db with
     | None => ret PNone
     | Some conn =>
         let cursor := conn in
         is_duplicate <- detect_duplicates cursor email_data email_hash ;;
         store_email_data cursor email_data intent context email_hash ;;;
         filename <- eval (getitem email_data "filename") ;;
         let result :=
           PDict [("filename", filename);
                  ("intent", scored_intent);
                  ("context", context);
                  ("is_duplicate", is_duplicate);
                  ("all_intents", all_intents)] in
         result <- route_request result ;;
         log_classification_decision env result ;;;
         commit conn ;;;
         close conn ;;;
         logger_info "Email processed successfully: {}" [PStr filepath] ;;;
         ret result
     end)
    (logger_error "Error processing email {}" [PStr filepath] ;;;
     ret PNone).

(** ** Step 13: the pipeline *)

(** The loop of phase 1 over [filepaths], with [preprocessed_data] as it
    stands when they remain. *)
Fixpoint preprocess (env : Env) (filepaths : list string)
    (preprocessed_data : list Args) : M (list Args) :=
  match filepaths with
  | [] => ret preprocessed_data
  | filepath :: rest =>
      email_data <- extract_email_components env filepath ;;
      if negb (truthy email_data) then preprocess env rest preprocessed_data
      else
      intent <- classify_email_intent env email_data ;;
      if negb (truthy intent) then preprocess env rest preprocessed_data
      else
      context <- extract_context env email_data ;;
      if negb (truthy context) then preprocess env rest preprocessed_data
      else
      multi <- handle_multi_request env email_data ;;
      pa <- eval (match multi with
                  | PTuple [primary_intent; all_intents] =>
                      Some (primary_intent, all_intents)
                  | _ => None
                  end) ;;
      preprocess env rest
        (preprocessed_data ++
         [mkArgs filepath email_data intent context (fst pa) (snd pa)])
  end.

(** [pool.map]: the tasks run one after the other here, in the order of the
    list; the order of the results is that of the arguments, as in Python. *)
Fixpoint pool_map (f : Args -> M pyval) (tasks : list Args) : M (list pyval) :=
  match tasks with
  | [] => ret []
  | a :: rest =>
      r <- f a ;;
      rs <- pool_map f rest ;;
      ret (r :: rs)
  end.

(** [r is not None] *)
Definition is_not_none (r : pyval) : bool :=
  match r with PNone => false | _ => true end.

(** [with open("results.json", "w") as f: json.dump(results, f, indent=4)].
    When [open] raises, the file is what it was.  When [open] goes through
    it cuts the file before anything is written: a failure that comes
    after it leaves at most the beginning of the text there, and no batch
    can be read back from that. *)
Definition write_results_json (env : Env) (results : list pyval) : M unit :=
  fun w =>
    if results_json_writable env
    then (mkWorld (logs w) (emails w) (connections w) (classification_log w)
                  (Some results), Some tt)
    else if results_json_cut env
    then (mkWorld (logs w) (emails w) (connections w) (classification_log w)
                  None, None)
    else (w, None).

Definition eml_files (directory : string) (names : list string) : list string :=
  map (path_join directory)
      (filter (fun f => Str.endswith f ".eml") names).

Definition process_email_pipeline (env : Env) (directory : string)
    : M (list pyval) :=
  logger_info "Starting email processing pipeline for directory: {}"
    [PStr directory] ;;;
  try_except
    (names <- eval (listdir env directory) ;;
     let filepaths := eml_files directory names in
     logger_info "Found {} EML files to process."
       [PInt (Z.of_nat (List.length filepaths))] ;;;
     preprocessed_data <- preprocess env filepaths [] ;;
     results <- pool_map (process_single_email env) preprocessed_data ;;
     let results := filter is_not_none results in
     logger_info "Processed {} emails successfully."
       [PInt (Z.of_nat (List.length results))] ;;;
     write_results_json env results ;;;
     logger_info "Results saved to results.json" [] ;;;
     ret results)
    (logger_error "Error in email processing pipeline" [] ;;;
     ret []).

(** * The vocabulary of the statements *)

(** The base priority the specification gives a category. *)
Definition base_priority (c : string) : Z :=
  if String.eqb c "Payment Inquiry" then 3%Z
  else if String.eqb c "Loan Request" then 2%Z
  else if String.eqb c "Account Update" then 1%Z
  else 1%Z.

(** The body, lower-cased, mentions one of the two urgency words. *)
Definition mentions_urgency (b : string) : bool :=
  Str.contains "urgent" (Str.lower b) || Str.contains "immediate" (Str.lower b).

(** The team the specification gives a category. *)
Definition team_of (c : string) : string :=
  if String.eqb c "Payment Inquiry" then "Finance Team"
  else if String.eqb c "Loan Request" then "Loan Processing Team"
  else if String.eqb c "Account Update" then "Customer Support Team"
  else "Default Team".

(** The separator of segments: a blank line. *)
Definition blank : string := String Str.LF (String Str.LF EmptyString).

(** The segments that are classified: those [strip] leaves non-empty. *)
Definition kept_segments (text : string) : list string :=
  filter (fun seg => negb (Str.is_empty (Str.strip seg)))
         (Str.split_blank text).

Section SegmentResults.

Variable env : Env.

(** What the classifier answers on a segment: its best label and score. *)
Variable classify : string -> string * Q.

(** The classifier does answer [classify seg] on [seg]. *)
Definition answers (seg : string) : Prop :=
  exists res, CLASSIFIER env seg REQUEST_TYPES = Some res
              /\ top res = Some (classify seg).

(** The entry of [all_intents] for a segment. *)
Definition intent_of (seg : string) : pyval :=
  segment_intent seg (fst (classify seg)) (snd (classify seg)).

Definition conf (seg : string) : Q := snd (classify seg).

End SegmentResults.

(** The record [extract_email_components] builds. *)
Definition mk_email_data (filename subject body : string)
    (attachments : list pyval) : pyval :=
  PDict [("filename", PStr filename); ("subject", PStr subject);
         ("body", PStr body); ("attachments", PList attachments)].

(** The record [classify_email_intent] builds. *)
Definition mk_intent (request_type : string)
    (confidence sub_request_type sub_confidence : pyval) : pyval :=
  PDict [("request_type", PStr request_type);
         ("request_confidence", confidence);
         ("sub_request_type", sub_request_type);
         ("sub_request_confidence", sub_confidence)].

(** The record [assign_priority_and_confidence] builds. *)
Definition scored_intent_of (c : string) (confidence : pyval) (body : string)
    : pyval :=
  PDict [("request_type", PStr c); ("confidence", confidence);
         ("priority",
          PInt (base_priority c + if mentions_urgency body then 1 else 0))].

(** The digest [compute_email_hash] returns. *)
Definition fingerprint (subject body : string) : string :=
  MD5.hexdigest (str_encode (subject ++ body)%string).

(** A row of [emails] carries the fingerprint [h]. *)
Definition already_stored (rows : list Row) (h : string) : bool :=
  (0 <? List.length (filter (fun r => sql_eq (row_email_hash r) (PStr h)) rows))%nat.

(** The fate of the next call of [connect]. *)
Definition next_connection (w : World) : option Conn :=
  match connections w with
  | [] => Some healthy
  | fate :: _ => fate
  end.

(** The record phase 2 returns for a message. *)
Definition routing_result (filename c : string) (confidence : pyval)
    (body : string) (context : pyval) (is_duplicate : bool)
    (all_intents : pyval) : pyval :=
  PDict [("filename", PStr filename);
         ("intent", scored_intent_of c confidence body);
         ("context", context);
         ("is_duplicate", PBool is_duplicate);
         ("all_intents", all_intents);
         ("routing", PDict [("team", PStr (team_of c))])].

(** The line [store_email_data] logs when the insert raises. *)
Definition storing_failed (filename : pyval) : log_record :=
  LogRecord ERROR "Error storing email data for {}" [filename].

(** The step gives phase 2 nothing to go on with: it raises, or it
    returns [None]. *)
Definition fails (m : M pyval) (w : World) : Prop :=
  value m w = None \/ value m w = Some PNone.

Definition is_text_plain (p : Part) : bool :=
  String.eqb (get_content_type p) "text/plain".

(** Every [text/plain] part of the list decodes. *)
Definition decodes (parts : list Part) : bool :=
  forallb (fun p => negb (is_text_plain p)
                    || match payload_decode p with
                       | Some _ => true
                       | None => false
                       end) parts.

(** The decoded [text/plain] parts, one after the other. *)
Fixpoint body_of (parts : list Part) : string :=
  match parts with
  | [] => EmptyString
  | p :: rest =>
      if is_text_plain p
      then (match payload_decode p with
            | Some t => t
            | None => EmptyString
            end ++ body_of rest)%string
      else body_of rest
  end.

(** The named parts that are neither [text/plain] nor containers. *)
Fixpoint attachments_of (parts : list Part) : list pyval :=
  match parts with
  | [] => []
  | p :: rest =>
      if is_text_plain p then attachments_of rest
      else if String.prefix "multipart" (get_content_type p)
           then attachments_of rest
           else match get_filename p with
                | Some (String _ _ as name) =>
                    PTuple [PStr name; get_payload p] :: attachments_of rest
                | _ => attachments_of rest
                end
  end.

Definition subject_of (msg : Message) : string :=
  match msg_subject msg with Some s => s | None => EmptyString end.

(** What [extract_email_components] returns for a file. *)
Definition extracted (env : Env) (filepath : string) : pyval :=
  match message_from_file env filepath with
  | None => PNone
  | Some msg =>
      if decodes (msg_walk msg)
      then mk_email_data (basename filepath) (subject_of msg)
             (body_of (msg_walk msg)) (attachments_of (msg_walk msg))
      else PNone
  end.

(** What [classify_email_intent] returns on the text of a message. *)
Definition classified (env : Env) (text : string) : pyval :=
  match CLASSIFIER env text REQUEST_TYPES with
  | None => PNone
  | Some result =>
      match top result with
      | None => PNone
      | Some (request_type, confidence) =>
          match table_get SUB_REQUEST_TYPES (PStr request_type) [] with
          | Some (label :: labels) =>
              match CLASSIFIER env text (label :: labels) with
              | None => PNone
              | Some sub_result =>
                  match top sub_result with
                  | None => PNone
                  | Some (sub_type, sub_confidence) =>
                      mk_intent request_type (PFloat confidence)
                        (PStr sub_type) (PFloat sub_confidence)
                  end
              end
          | Some [] =>
              mk_intent request_type (PFloat confidence) PNone (PFloat 0)
          | None => PNone
          end
      end
  end.

(** What [extract_context] returns on the text of a message. *)
Definition contextualised (env : Env) (text : string) : pyval :=
  match NER env text with
  | None => PNone
  | Some entities =>
      PDict [("entities",
              PList (map (fun entity => PDict [("text", PStr (fst entity));
                                               ("label", PStr (snd entity))])
                         entities));
             ("amounts", PList (map PStr (findall env amount_pattern text)));
             ("dates", PList (map PStr (findall env date_pattern text)))]
  end.

Definition text_of (subject body : string) : string :=
  (subject ++ " " ++ body)%string.

(** The text of a file that parses and decodes: subject, a space, body. *)
Definition message_text (env : Env) (filepath : string) : option string :=
  match message_from_file env filepath with
  | Some msg =>
      if decodes (msg_walk msg)
      then Some (text_of (subject_of msg) (body_of (msg_walk msg)))
      else None
  | None => None
  end.

(** Extraction, classification and context extraction all succeed. *)
Definition passes (env : Env) (filepath : string) : bool :=
  match message_text env filepath with
  | Some text =>
      truthy (classified env text) && truthy (contextualised env text)
  | None => false
  end.

(** The tuple phase 1 hands over for a file that passes. *)
Definition phase1_args (env : Env) (filepath : string) (a : Args) : Prop :=
  exists msg primary_intent all_intents,
    message_from_file env filepath = Some msg
    /\ let text := text_of (subject_of msg) (body_of (msg_walk msg)) in
       truthy (classified env text) = true
       /\ a = mkArgs filepath
                (mk_email_data (basename filepath) (subject_of msg)
                   (body_of (msg_walk msg)) (attachments_of (msg_walk msg)))
                (classified env text) (contextualised env text)
                primary_intent all_intents.

(** * Sample inputs *)

(** A result record as phase 2 builds it, before routing. *)
Definition route_total_witness_fields : dict :=
  [("filename", PStr "a.eml");
   ("intent", PDict [("request_type", PStr "Loan Request");
                     ("confidence", PFloat (1 # 2));
                     ("priority", PInt 2)]);
   ("context", PDict [("entities", PList [])]);
   ("is_duplicate", PBool false);
   ("all_intents", PList [])].

Definition empty_world : World := mkWorld [] [] [] [] None.

(** A record whose intent lost its [request_type]: the look-up raises. *)
Definition broken_result : dict :=
  [("filename", PStr "a.eml");
   ("intent", PDict [("confidence", PFloat (1 # 2))]);
   ("context", PDict [("entities", PList [])]);
   ("is_duplicate", PBool false);
   ("all_intents", PList [])].

(** Two records of the same text, cut differently into subject and body,
    one with an attachment. *)
Definition email_with_attachment : pyval :=
  PDict [("filename", PStr "a.eml"); ("subject", PStr "Loan");
         ("body", PStr " status");
         ("attachments",
          PList [PTuple [PStr "scan.pdf"; PBytes [Byte.x25; Byte.x50]]])].

Definition email_without_attachment : pyval :=
  PDict [("filename", PStr "b.eml"); ("subject", PStr "Loan sta");
         ("body", PStr "tus"); ("attachments", PList [])].

Definition sample_subject : string := "Payment confirmation needed".

Definition sample_body : string :=
  "Please confirm my USD 1,200.00 payment on 05-JAN-2024. This is urgent.".

Definition sample_context : pyval :=
  PDict [("entities", PList []);
         ("amounts", PList [PStr "USD 1,200.00"]);
         ("dates", PList [PStr "05-JAN-2024"])].

Definition sample_primary : pyval :=
  segment_intent sample_body "Payment Inquiry" (9 # 10).

Definition sample_args : Args :=
  mkArgs "uploads/a.eml"
    (mk_email_data "a.eml" sample_subject sample_body [])
    (mk_intent "Payment Inquiry" (PFloat (9 # 10))
       (PStr "Payment Confirmation") (PFloat (8 # 10)))
    sample_context sample_primary (PList [sample_primary]).

Definition sample_row : Row :=
  mkRow (PStr "a.eml") (PStr "Payment Inquiry") (PStr "Payment Confirmation")
        (PFloat (9 # 10)) sample_context
        (PStr (fingerprint sample_subject sample_body)).

Definition sample_result (is_duplicate : bool) : pyval :=
  routing_result "a.eml" "Payment Inquiry" (PFloat (9 # 10)) sample_body
    sample_context is_duplicate (PList [sample_primary]).

(** The sample message handed to phase 2 with an intent that has lost its
    category. *)
Definition uncategorised_args : Args :=
  mkArgs "uploads/a.eml"
    (mk_email_data "a.eml" sample_subject sample_body [])
    (PDict [("request_confidence", PFloat (9 # 10))])
    sample_context sample_primary (PList [sample_primary]).

(** The sample message handed to phase 2 with a subject that is no
    string. *)
Definition no_subject_args : Args :=
  mkArgs "uploads/a.eml"
    (PDict [("filename", PStr "a.eml"); ("subject", PNone);
            ("body", PStr sample_body); ("attachments", PList [])])
    (mk_intent "Payment Inquiry" (PFloat (9 # 10))
       (PStr "Payment Confirmation") (PFloat (8 # 10)))
    sample_context sample_primary (PList [sample_primary]).

(** Collaborators that answer every call, over an empty directory. *)
Definition quiet_env : Env :=
  mkEnv (fun _ => Some []) (fun _ => None)
        (fun _ labels => Some (labels, [(1 # 2)%Q]))
        (fun _ => Some []) (fun _ _ => []) true true false.

(** A world whose table holds [rows] and whose next connection behaves as
    [conn]. *)
Definition world_with (rows : list Row) (conn : Conn) : World :=
  mkWorld [] rows [Some conn] [] None.

(** A message of two [text/plain] parts, the second of which is no UTF-8:
    a quoted-printable part in Latin-1, say. *)
Definition undecodable_message : Message :=
  mkMessage None
    [mkPart "multipart/mixed" None PNone None;
     mkPart "text/plain" None (PBytes [Byte.x48; Byte.x69]) (Some "Hi");
     mkPart "text/plain" None (PBytes [Byte.xff]) None].

(** A directory whose one file holds that message. *)
Definition undecodable_env : Env :=
  mkEnv (fun _ => Some ["x.eml"]) (fun _ => Some undecodable_message)
        (fun _ labels => Some (labels, [(1 # 2)%Q]))
        (fun _ => Some []) (fun _ _ => []) true true false.

(** The sample message as the parser hands it over. *)
Definition sample_message : Message :=
  mkMessage (Some sample_subject)
    [mkPart "text/plain" None (PBytes []) (Some sample_body)].

(** A directory with the sample message and a file that is no message; the
    classifier is surer of a text that says "urgent". *)
Definition sample_env : Env :=
  mkEnv (fun _ => Some ["a.eml"; "notes.txt"])
        (fun _ => Some sample_message)
        (fun text labels =>
           Some (labels, [if Str.contains "urgent" text
                          then (9 # 10)%Q else (1 # 2)%Q]))
        (fun _ => Some []) (fun _ _ => []) true true false.

(** A body of two requests and a trailing blank piece. *)
Definition two_requests : string :=
  ("Loan status?" ++ blank ++ "Payment is urgent" ++ blank
   ++ String Str.LF EmptyString)%string.

Definition two_requests_email : pyval :=
  mk_email_data "b.eml" "Two requests" two_requests [].

Definition sample_classify (seg : string) : string * Q :=
  ("Payment Inquiry",
   if Str.contains "urgent" seg then (9 # 10)%Q else (1 # 2)%Q).

(** Every character of [s] is white space; so is the empty string. *)
Definition all_space (s : string) : bool :=
  forallb Str.isspace (list_ascii_of_string s).

(** The classifier raises on [seg], or hands back no label or no score. *)
Definition classifier_fails (env : Env) (seg : string) : Prop :=
  match CLASSIFIER env seg REQUEST_TYPES with
  | None => True
  | Some res => top res = None
  end.

(** Collaborators whose classifier raises on a text that holds ["???"]. *)
Definition moody_env : Env :=
  mkEnv (fun _ => Some ["a.eml"]) (fun _ => None)
        (fun text labels =>
           if Str.contains "???" text then None
           else Some (labels, [(1 # 2)%Q]))
        (fun _ => Some []) (fun _ _ => []) true true false.

(** A body of two segments, the second of which the classifier of
    [moody_env] refuses. *)
Definition moody_body : string := ("Loan status" ++ blank ++ "???")%string.

(** The classifier picks its best label among the candidates it is given. *)
Definition picks_a_candidate (env : Env) : Prop :=
  forall text labels res label score,
    CLASSIFIER env text labels = Some res ->
    top res = Some (label, score) -> In label labels.

(** Collaborators whose classifier answers over the categories and raises
    over anything else. *)
Definition half_env : Env :=
  mkEnv (fun _ => Some ["a.eml"]) (fun _ => Some sample_message)
        (fun _ labels =>
           match labels with
           | "Payment Inquiry" :: _ => Some (labels, [(1 # 2)%Q])
           | _ => None
           end)
        (fun _ => Some []) (fun _ _ => []) true true false.

(** Collaborators whose classifier answers a label of its own. *)
Definition stray_env : Env :=
  mkEnv (fun _ => Some ["a.eml"]) (fun _ => Some sample_message)
        (fun _ _ => Some (["Complaint"], [(1 # 2)%Q]))
        (fun _ => Some []) (fun _ _ => []) true true false.

(** The part is listed among the attachments: it is neither [text/plain]
    nor a container, and it has a file name that is not empty. *)
Definition is_attachment (p : Part) : bool :=
  negb (is_text_plain p)
  && negb (String.prefix "multipart" (get_content_type p))
  && match get_filename p with
     | Some (String _ _) => true
     | _ => false
     end.

(** The entry of [attachments] for a part. *)
Definition attachment_entry (p : Part) : pyval :=
  PTuple [PStr (match get_filename p with Some n => n | None => EmptyString end);
          get_payload p].

(** The name has no path separator in it. *)
Fixpoint no_slash (s : string) : bool :=
  match s with
  | EmptyString => true
  | String c t => negb (Ascii.eqb c "/") && no_slash t
  end.

(** A message of one HTML part and one attached text file. *)
Definition html_message : Message :=
  mkMessage (Some "Hello")
    [mkPart "multipart/mixed" None PNone None;
     mkPart "text/html" None (PBytes []) (Some "<p>Hi</p>");
     mkPart "text/plain" (Some "notes.txt") (PBytes []) (Some "my notes");
     mkPart "application/pdf" (Some "scan.pdf") (PBytes [Byte.x25]) None;
     mkPart "image/png" (Some "") (PBytes []) None].

Definition html_env : Env :=
  mkEnv (fun _ => Some ["h.eml"]) (fun _ => Some html_message)
        (fun _ labels => Some (labels, [(1 # 2)%Q]))
        (fun _ => Some []) (fun _ _ => []) true true false.

(** The sample directory on a disk that is full: [results.json] opens and
    the writing fails. *)
Definition full_disk_env : Env :=
  mkEnv (fun _ => Some ["a.eml"]) (fun _ => Some sample_message)
        (fun _ labels => Some (labels, [(1 # 2)%Q]))
        (fun _ => Some []) (fun _ _ => []) true false true.

(** The sample directory when [results.json] cannot be opened. *)
Definition read_only_env : Env :=
  mkEnv (fun _ => Some ["a.eml"]) (fun _ => Some sample_message)
        (fun _ labels => Some (labels, [(1 # 2)%Q]))
        (fun _ => Some []) (fun _ _ => []) true false false.

(** A directory of four messages and one file that is no message; the
    second message cannot be parsed. *)
Definition mixed_env : Env :=
  mkEnv (fun _ => Some ["a.eml"; "notes.txt"; "b.eml"; "c.eml"; "d.eml"])
        (fun filepath =>
           if String.eqb filepath "uploads/b.eml" then None
           else Some sample_message)
        (fun text labels =>
           Some (labels, [if Str.contains "urgent" text
                          then (9 # 10)%Q else (1 # 2)%Q]))
        (fun _ => Some []) (fun _ _ => []) true true false.

(** A world in which the database opens for the first and for the third
    message of phase 2, and not for the second. *)
Definition mixed_world : World :=
  mkWorld [] [] [Some healthy; None; Some healthy] [] None.

(** The result of phase 2 for the sample message read from the file
    [filename], with the context that the stub of [re.findall] gives. *)
Definition mixed_result (filename : string) (is_duplicate : bool) : pyval :=
  routing_result filename "Payment Inquiry" (PFloat (9 # 10)) sample_body
    (PDict [("entities", PList []); ("amounts", PList []);
            ("dates", PList [])])
    is_duplicate
    (PList [segment_intent sample_body "Payment Inquiry" (9 # 10)]).

(** The computation [m] takes every world [w] to a world related to [w]
    by [P], whether it returns or raises. *)
Definition preserves (P : World -> World -> Prop) {A} (m : M A) : Prop :=
  forall w, P w (after m w).

(** The list [f] of the world has only grown at its end. *)
Definition appends {X} (f : World -> list X) (w w' : World) : Prop :=
  exists added, f w' = f w ++ added.

(** The component [f] of the world is what it was. *)
Definition keeps {X} (f : World -> X) (w w' : World) : Prop := f w' = f w.

(** The list [l] is [l'] with some of its items left out. *)
Inductive subseq {X} : list X -> list X -> Prop :=
| subseq_nil : subseq [] []
| subseq_skip x l l' : subseq l l' -> subseq l (x :: l')
| subseq_take x l l' : subseq l l' -> subseq (x :: l) (x :: l').

(** A result of phase 2 for the file [filepath]. *)
Definition result_of (filepath : string) (r : pyval) : Prop :=
  exists c confidence body context is_duplicate all_intents,
    r = routing_result (basename filepath) c confidence body context
          is_duplicate all_intents.

(** One of [0-9a-f]. *)
Definition is_hex_digit (c : ascii) : bool :=
  let n := nat_of_ascii c in
  (((48 <=? n) && (n <=? 57)) || ((97 <=? n) && (n <=? 102)))%nat.

(** * Properties *)

Unset Implicit Arguments.

(** ** The digest on the test suite of RFC 1321 *)

Example md5_empty :
  MD5.hexdigest (str_encode "") = "d41d8cd98f00b204e9800998ecf8427e".
Proof. vm_compute. reflexivity. Qed.

Example md5_abc :
  MD5.hexdigest (str_encode "abc") = "900150983cd24fb0d6963f7d28e17f72".
Proof. vm_compute. reflexivity. Qed.

Example md5_two_blocks :
  MD5.hexdigest (str_encode
    "12345678901234567890123456789012345678901234567890123456789012345678901234567890")
  = "57edf4a22be3c955ac49da2e2107b67a".
Proof. vm_compute. reflexivity. Qed.

Example md5_latin1 :
  MD5.hexdigest (str_encode (String (ascii_of_nat 99) (String (ascii_of_nat 97)
    (String (ascii_of_nat 102) (String (ascii_of_nat 233) EmptyString)))))
  = "07117fe4a1ebd544965dc19573183da2".
Proof. vm_compute. reflexivity. Qed.

(** Unfolding of the monad, one layer of calls at a time. *)
Ltac run := unfold value, after, bind, try_except, eval, ret, raise,
  logger_info, logger_error, log.

(** ** Dictionaries *)

Lemma dict_get_set_same k v d : Dict.get k (Dict.set k v d) = Some v.
Proof.
  induction d as [|[k' v'] tl IH]; simpl.
  - now rewrite String.eqb_refl.
  - destruct (String.eqb k k') eqn:E; simpl; rewrite E; auto.
Qed.

Lemma dict_get_set_other k k' v d :
  k <> k' -> Dict.get k (Dict.set k' v d) = Dict.get k d.
Proof.
  intros Hne. induction d as [|[k0 v0] tl IH]; simpl.
  - apply String.eqb_neq in Hne. now rewrite Hne.
  - destruct (String.eqb k' k0) eqn:E; simpl.
    + apply String.eqb_eq in E. subst k0.
      apply String.eqb_neq in Hne. now rewrite Hne.
    + now rewrite IH.
Qed.

(** ** Priority *)

Lemma priority_table c :
  table_get PRIORITY_RULES (PStr c) 1%Z = Some (base_priority c).
Proof.
  unfold table_get, base_priority, PRIORITY_RULES. simpl.
  destruct (String.eqb c "Payment Inquiry"); [reflexivity|].
  destruct (String.eqb c "Loan Request"); [reflexivity|].
  destruct (String.eqb c "Account Update"); reflexivity.
Qed.

Lemma assign_priority_value intent email_data filename c conf b w :
  getitem email_data "filename" = Some filename ->
  getitem email_data "body" = Some (PStr b) ->
  getitem intent "request_type" = Some (PStr c) ->
  getitem intent "request_confidence" = Some conf ->
  value (assign_priority_and_confidence intent email_data) w =
  Some (PDict [("request_type", PStr c); ("confidence", conf);
               ("priority",
                PInt (base_priority c + if mentions_urgency b then 1 else 0))]).
Proof.
  intros Hf Hb Hc Hq.
  unfold assign_priority_and_confidence. run.
  rewrite Hf. cbn -[table_get]. rewrite Hc, Hq, priority_table.
  cbn -[base_priority]. rewrite Hb. cbn -[base_priority].
  unfold mentions_urgency.
  destruct (Str.contains "urgent" (Str.lower b)
            || Str.contains "immediate" (Str.lower b));
    cbn -[base_priority]; [reflexivity | now rewrite Z.add_0_r].
Qed.

(** C1.  The priority assigned to a message of category [c] and body [b] is
    the base priority of [c] in the table (3, 2 and 1 for the three
    categories, 1 for any other) plus 1 when the lower-cased body contains
    "urgent" or "immediate" and plus 0 otherwise, so that a body with both
    words gains 1 only; and for the same intent a body with an urgency word
    is assigned one more than a body without. *)
Theorem priority_is_base_plus_urgency
    intent email_data filename c conf b w :
  getitem email_data "filename" = Some filename ->
  getitem email_data "body" = Some (PStr b) ->
  getitem intent "request_type" = Some (PStr c) ->
  getitem intent "request_confidence" = Some conf ->
  let boost :=
    if Str.contains "urgent" (Str.lower b)
       || Str.contains "immediate" (Str.lower b) then 1%Z else 0%Z in
  let scored p :=
    Some (PDict [("request_type", PStr c); ("confidence", conf);
                 ("priority", PInt p)]) in
  value (assign_priority_and_confidence intent email_data) w
  = scored (base_priority c + boost)%Z
  /\ base_priority "Payment Inquiry" = 3%Z
  /\ base_priority "Loan Request" = 2%Z
  /\ base_priority "Account Update" = 1%Z
  /\ (~ In c REQUEST_TYPES -> base_priority c = 1%Z)
  /\ (Str.contains "urgent" (Str.lower b) = true ->
      Str.contains "immediate" (Str.lower b) = true -> boost = 1%Z)
  /\ forall email_data' filename' b' w',
       getitem email_data' "filename" = Some filename' ->
       getitem email_data' "body" = Some (PStr b') ->
       mentions_urgency b = true -> mentions_urgency b' = false ->
       exists p',
         value (assign_priority_and_confidence intent email_data') w'
         = scored p'
         /\ (base_priority c + boost = p' + 1)%Z.
Proof.
  intros Hf Hb Hc Hq boost scored.
  repeat split; try reflexivity.
  - now rewrite (assign_priority_value _ _ _ _ _ _ w Hf Hb Hc Hq).
  - intros Hout. unfold base_priority.
    destruct (String.eqb c "Payment Inquiry") eqn:E1.
    { apply String.eqb_eq in E1. exfalso. apply Hout. subst. simpl. auto. }
    destruct (String.eqb c "Loan Request") eqn:E2.
    { apply String.eqb_eq in E2. exfalso. apply Hout. subst. simpl. auto. }
    now destruct (String.eqb c "Account Update").
  - intros Hu Hi. subst boost. now rewrite Hu, Hi.
  - intros e' f' b' w' Hf' Hb' Hyes Hno.
    exists (base_priority c). split.
    + rewrite (assign_priority_value _ _ _ _ _ _ w' Hf' Hb' Hc Hq), Hno.
      unfold scored. now rewrite Z.add_0_r.
    + subst boost. unfold mentions_urgency in Hyes. now rewrite Hyes.
Qed.

(** ** Routing *)

Lemma routing_table c :
  table_get ROUTING_RULES (PStr c) "Default Team" = Some (team_of c).
Proof.
  unfold table_get, team_of, ROUTING_RULES. simpl.
  destruct (String.eqb c "Payment Inquiry"); [reflexivity|].
  destruct (String.eqb c "Loan Request"); [reflexivity|].
  destruct (String.eqb c "Account Update"); reflexivity.
Qed.

Lemma team_of_nonempty c : team_of c <> "".
Proof.
  unfold team_of.
  destruct (String.eqb c "Payment Inquiry"); [discriminate|].
  destruct (String.eqb c "Loan Request"); [discriminate|].
  destruct (String.eqb c "Account Update"); discriminate.
Qed.

(** The two ways out of [route_request]: the record with its [routing]
    entry set, or the record as it came. *)
Lemma route_request_cases fields filename w :
  Dict.get "filename" fields = Some filename ->
  value (route_request (PDict fields)) w = Some (PDict fields)
  \/ exists team,
       value (route_request (PDict fields)) w
       = Some (PDict (Dict.set "routing" (PDict [("team", PStr team)]) fields)).
Proof.
  intros Hf. unfold route_request. run. cbn [getitem]. rewrite Hf.
  cbn -[table_get Dict.set Dict.get].
  destruct (Dict.get "intent" fields) as [intent|];
    cbn -[table_get Dict.set Dict.get]; [|now left].
  destruct (getitem intent "request_type") as [request_type|];
    cbn -[table_get Dict.set Dict.get]; [|now left].
  destruct (table_get ROUTING_RULES request_type "Default Team") as [team|];
    cbn -[table_get Dict.set Dict.get]; [|now left].
  right. now exists team.
Qed.

Lemma route_request_value fields filename intent c w :
  Dict.get "filename" fields = Some filename ->
  Dict.get "intent" fields = Some intent ->
  getitem intent "request_type" = Some (PStr c) ->
  value (route_request (PDict fields)) w
  = Some (PDict (Dict.set "routing" (PDict [("team", PStr (team_of c))]) fields)).
Proof.
  intros Hf Hi Hc. unfold route_request. run. cbn [getitem]. rewrite Hf.
  cbn -[table_get Dict.set Dict.get]. rewrite Hi.
  cbn -[table_get Dict.set Dict.get]. rewrite Hc, routing_table.
  reflexivity.
Qed.

(** C7.  Routing a record whose intent carries the category [c] never fails:
    the record comes back with a team that is not the empty string, the
    mapped team for each of the three categories and the default team for
    any other category. *)
Theorem route_total fields filename intent c w :
  Dict.get "filename" fields = Some filename ->
  Dict.get "intent" fields = Some intent ->
  getitem intent "request_type" = Some (PStr c) ->
  exists result team,
    value (route_request (PDict fields)) w = Some result
    /\ getitem result "routing" = Some (PDict [("team", PStr team)])
    /\ team <> ""
    /\ (c = "Payment Inquiry" -> team = "Finance Team")
    /\ (c = "Loan Request" -> team = "Loan Processing Team")
    /\ (c = "Account Update" -> team = "Customer Support Team")
    /\ (~ In c REQUEST_TYPES -> team = "Default Team").
Proof.
  intros Hf Hi Hc.
  exists (PDict (Dict.set "routing" (PDict [("team", PStr (team_of c))]) fields)),
         (team_of c).
  split; [now apply route_request_value with filename intent|].
  split; [simpl; apply dict_get_set_same|].
  split; [apply team_of_nonempty|].
  repeat split; try (intros ->; reflexivity).
  intros Hout. unfold team_of.
  destruct (String.eqb c "Payment Inquiry") eqn:E1.
  { apply String.eqb_eq in E1. exfalso. apply Hout. subst. simpl. auto. }
  destruct (String.eqb c "Loan Request") eqn:E2.
  { apply String.eqb_eq in E2. exfalso. apply Hout. subst. simpl. auto. }
  destruct (String.eqb c "Account Update") eqn:E3; [|reflexivity].
  apply String.eqb_eq in E3. exfalso. apply Hout. subst. simpl. auto.
Qed.

Lemma route_total_witness :
  exists result team,
    value (route_request (PDict route_total_witness_fields)) empty_world
    = Some result
    /\ getitem result "routing" = Some (PDict [("team", PStr team)])
    /\ team <> ""
    /\ ("Loan Request" = "Payment Inquiry" -> team = "Finance Team")
    /\ ("Loan Request" = "Loan Request" -> team = "Loan Processing Team")
    /\ ("Loan Request" = "Account Update" -> team = "Customer Support Team")
    /\ (~ In "Loan Request" REQUEST_TYPES -> team = "Default Team").
Proof.
  apply (route_total route_total_witness_fields (PStr "a.eml")
           (PDict [("request_type", PStr "Loan Request");
                   ("confidence", PFloat (1 # 2));
                   ("priority", PInt 2)])
           "Loan Request" empty_world); reflexivity.
Defined.

(** C10.  [route_request] hands back the record it was given, with at most
    the entry [routing] set: every other key reads as before.  It returns
    the record, never [None], also when the look-up inside it raises, and
    it leaves the table [emails] alone. *)
Theorem route_request_frame fields filename w :
  Dict.get "filename" fields = Some filename ->
  exists fields',
    value (route_request (PDict fields)) w = Some (PDict fields')
    /\ (forall k, k <> "routing" -> Dict.get k fields' = Dict.get k fields)
    /\ (fields' = fields
        \/ exists team,
             fields' = Dict.set "routing" (PDict [("team", PStr team)]) fields)
    /\ emails (after (route_request (PDict fields)) w) = emails w.
Proof.
  intros Hf.
  assert (Hw : emails (after (route_request (PDict fields)) w) = emails w).
  { unfold route_request. run. cbn [getitem]. rewrite Hf.
    cbn -[table_get Dict.set Dict.get].
    destruct (Dict.get "intent" fields) as [intent|];
      cbn -[table_get Dict.set Dict.get]; [|reflexivity].
    destruct (getitem intent "request_type") as [request_type|];
      cbn -[table_get Dict.set Dict.get]; [|reflexivity].
    destruct (table_get ROUTING_RULES request_type "Default Team");
      reflexivity. }
  destruct (route_request_cases fields filename w Hf) as [H|[team H]].
  - exists fields. repeat split; auto.
  - exists (Dict.set "routing" (PDict [("team", PStr team)]) fields).
    repeat split; auto.
    + intros k Hk. now apply dict_get_set_other.
    + right. now exists team.
Qed.

Lemma route_request_frame_witness :
  exists fields',
    value (route_request (PDict broken_result)) empty_world
    = Some (PDict fields')
    /\ (forall k, k <> "routing" ->
                  Dict.get k fields' = Dict.get k broken_result)
    /\ (fields' = broken_result
        \/ exists team,
             fields' = Dict.set "routing" (PDict [("team", PStr team)])
                         broken_result)
    /\ emails (after (route_request (PDict broken_result)) empty_world)
       = emails empty_world.
Proof.
  apply (route_request_frame broken_result (PStr "a.eml") empty_world).
  reflexivity.
Defined.

Example route_request_on_error :
  value (route_request (PDict broken_result)) empty_world
  = Some (PDict broken_result).
Proof. reflexivity. Qed.

(** ** Fingerprint *)

Lemma hexdigest_length msg : String.length (MD5.hexdigest msg) = 32.
Proof.
  unfold MD5.hexdigest. destruct (MD5.digest_state msg). reflexivity.
Qed.

Lemma compute_email_hash_value email_data filename subject body w :
  getitem email_data "filename" = Some filename ->
  getitem email_data "subject" = Some (PStr subject) ->
  getitem email_data "body" = Some (PStr body) ->
  value (compute_email_hash email_data) w
  = Some (PStr (MD5.hexdigest (str_encode (subject ++ body)%string))).
Proof.
  intros Hf Hs Hb. unfold compute_email_hash. run.
  rewrite Hf. cbn -[MD5.hexdigest]. rewrite Hs.
  cbn -[MD5.hexdigest]. rewrite Hb. reflexivity.
Qed.

(** C5.  The fingerprint is a function of subject followed by body and of
    nothing else: two records whose subject and body concatenate to the
    same text get the same fingerprint, whatever their attachments, their
    file names and the state of the world at the two calls; it is the MD5
    digest of the text, 32 hexadecimal digits. *)
Theorem fingerprint_of_subject_and_body
    e1 e2 f1 f2 s1 b1 s2 b2 w1 w2 :
  getitem e1 "filename" = Some f1 ->
  getitem e1 "subject" = Some (PStr s1) ->
  getitem e1 "body" = Some (PStr b1) ->
  getitem e2 "filename" = Some f2 ->
  getitem e2 "subject" = Some (PStr s2) ->
  getitem e2 "body" = Some (PStr b2) ->
  (s1 ++ b1 = s2 ++ b2)%string ->
  exists h,
    value (compute_email_hash e1) w1 = Some (PStr h)
    /\ value (compute_email_hash e2) w2 = Some (PStr h)
    /\ h = MD5.hexdigest (str_encode (s1 ++ b1)%string)
    /\ String.length h = 32.
Proof.
  intros Hf1 Hs1 Hb1 Hf2 Hs2 Hb2 Heq.
  exists (MD5.hexdigest (str_encode (s1 ++ b1)%string)).
  split; [now apply compute_email_hash_value with f1|].
  split; [rewrite Heq; now apply compute_email_hash_value with f2|].
  split; [reflexivity | apply hexdigest_length].
Qed.

Lemma fingerprint_of_subject_and_body_witness :
  exists h,
    value (compute_email_hash email_with_attachment) empty_world
    = Some (PStr h)
    /\ value (compute_email_hash email_without_attachment)
         (mkWorld [] [] [None] [] None) = Some (PStr h)
    /\ h = MD5.hexdigest (str_encode ("Loan" ++ " status")%string)
    /\ String.length h = 32.
Proof.
  apply (fingerprint_of_subject_and_body
           email_with_attachment email_without_attachment
           (PStr "a.eml") (PStr "b.eml") "Loan" " status" "Loan sta" "tus");
    reflexivity.
Defined.

(** ** Splitting on blank lines *)

Lemma split_blank_step c c' t :
  Str.split_blank (String c (String c' t))
  = if Ascii.eqb c Str.LF && Ascii.eqb c' Str.LF
    then EmptyString :: Str.split_blank t
    else Str.cons_head c (Str.split_blank (String c' t)).
Proof. reflexivity. Qed.

Lemma split_blank_nonempty s : Str.split_blank s <> [].
Proof.
  destruct s as [|c [|c' t]]; [discriminate | discriminate |].
  rewrite split_blank_step.
  destruct (Ascii.eqb c Str.LF && Ascii.eqb c' Str.LF); [discriminate|].
  unfold Str.cons_head. now destruct (Str.split_blank (String c' t)).
Qed.

Lemma join_cons_head c l :
  l <> [] -> Str.join_blank (Str.cons_head c l) = String c (Str.join_blank l).
Proof.
  destruct l as [|h [|h' tl]]; [congruence| |]; intros _; reflexivity.
Qed.

Lemma join_blank_cons h l :
  l <> [] ->
  Str.join_blank (h :: l)
  = (h ++ String Str.LF (String Str.LF (Str.join_blank l)))%string.
Proof. destruct l; [congruence | reflexivity]. Qed.

(** Joining the segments with the separator gives the text back. *)
Lemma join_split_blank s : Str.join_blank (Str.split_blank s) = s.
Proof.
  enough (H : Str.join_blank (Str.split_blank s) = s
              /\ forall c, Str.join_blank (Str.split_blank (String c s))
                           = String c s) by apply H.
  induction s as [|c' t [IHt IHc]].
  - split; reflexivity.
  - split; [apply IHc|]. intros c.
    rewrite split_blank_step.
    destruct (Ascii.eqb c Str.LF && Ascii.eqb c' Str.LF) eqn:E.
    + apply andb_prop in E. destruct E as [E1 E2].
      apply Ascii.eqb_eq in E1, E2. subst c c'.
      rewrite join_blank_cons by apply split_blank_nonempty.
      now rewrite IHt.
    + rewrite join_cons_head by apply split_blank_nonempty.
      now rewrite IHc.
Qed.

(** The first segment starts with a line feed only if the text does. *)
Lemma head_of_split_blank s h tl c :
  Str.split_blank s = String c h :: tl -> exists t, s = String c t.
Proof.
  destruct s as [|a [|a' t]].
  - discriminate.
  - intros [= <- _ _]. eauto.
  - rewrite split_blank_step.
    destruct (Ascii.eqb a Str.LF && Ascii.eqb a' Str.LF); [discriminate|].
    unfold Str.cons_head.
    destruct (Str.split_blank (String a' t)); intros [= <- _]; eauto.
Qed.

Lemma prefix_cons a b s1 s2 :
  String.prefix (String a s1) (String b s2)
  = Ascii.eqb a b && String.prefix s1 s2.
Proof.
  simpl. destruct (ascii_dec a b) as [->|N].
  - now rewrite Ascii.eqb_refl.
  - apply Ascii.eqb_neq in N. now rewrite N.
Qed.

Lemma prefix_empty s : String.prefix EmptyString s = true.
Proof. now destruct s. Qed.

Lemma contains_cons n c h :
  Str.contains n (String c h)
  = String.prefix n (String c h) || Str.contains n h.
Proof.
  cbn [Str.contains]. now destruct (String.prefix n (String c h)).
Qed.

Lemma contains_blank_cons c h :
  Str.contains blank (String c h)
  = (Ascii.eqb Str.LF c
     && match h with String c' _ => Ascii.eqb Str.LF c' | _ => false end)
    || Str.contains blank h.
Proof.
  unfold blank. rewrite contains_cons, prefix_cons. do 2 f_equal.
  destruct h as [|c' h']; [reflexivity|].
  now rewrite prefix_cons, prefix_empty, andb_true_r.
Qed.

(** No segment holds the separator. *)
Lemma split_blank_segments s :
  Forall (fun seg => Str.contains blank seg = false) (Str.split_blank s).
Proof.
  enough (H : Forall (fun seg => Str.contains blank seg = false)
                     (Str.split_blank s)
              /\ forall c, Forall (fun seg => Str.contains blank seg = false)
                                  (Str.split_blank (String c s))) by apply H.
  induction s as [|c' t [IHt IHc]].
  - split; [|intros c]; repeat constructor.
    rewrite contains_blank_cons. now rewrite andb_false_r.
  - split; [apply IHc|]. intros c.
    rewrite split_blank_step.
    destruct (Ascii.eqb c Str.LF && Ascii.eqb c' Str.LF) eqn:E.
    + constructor; [reflexivity | exact IHt].
    + specialize (IHc c').
      destruct (Str.split_blank (String c' t)) as [|h tl] eqn:Es.
      { now apply split_blank_nonempty in Es. }
      simpl. inversion IHc as [|? ? Hh Htl]; subst.
      constructor; [|exact Htl].
      rewrite contains_blank_cons, Hh, orb_false_r.
      destruct h as [|a h']; [now rewrite andb_false_r|].
      apply head_of_split_blank in Es. destruct Es as [t0 [= <- _]].
      rewrite (Ascii.eqb_sym Str.LF c), (Ascii.eqb_sym Str.LF c'). exact E.
Qed.

(** ** Segments and the primary intent *)

Section Segments.

Variable env : Env.

(** What the classifier answers on a segment: its best label and score. *)
Variable classify : string -> string * Q.

Local Abbreviation answers := (answers env classify).
Local Abbreviation intent_of := (intent_of classify).
Local Abbreviation conf := (conf classify).

Lemma classify_segments_run segs acc w :
  (forall seg, In seg segs ->
               negb (Str.is_empty (Str.strip seg)) = true -> answers seg) ->
  classify_segments env segs acc w
  = (w, Some (acc ++ map intent_of
                (filter (fun seg => negb (Str.is_empty (Str.strip seg)))
                        segs))).
Proof.
  revert acc. induction segs as [|seg rest IH]; intros acc Hans.
  - simpl. now rewrite app_nil_r.
  - cbn [classify_segments filter].
    destruct (negb (Str.is_empty (Str.strip seg))) eqn:Hk.
    + destruct (Hans seg (or_introl eq_refl) Hk) as [res [Hc Ht]].
      run. rewrite Hc, Ht. rewrite IH.
      * cbn [map]. now rewrite <- app_assoc.
      * intros s Hs. apply Hans. now right.
    + apply IH. intros s Hs. apply Hans. now right.
Qed.

Lemma confidence_key_intent seg : confidence_key (intent_of seg) = Some (conf seg).
Proof. reflexivity. Qed.

(** The scan keeps the earliest of the greatest: everything before the
    item it returns is strictly below it, everything after is at most
    equal. *)
Lemma max_scan_first_max rest : forall l1 m mid,
  (forall x, In x l1 -> (conf x < conf m)%Q) ->
  (forall x, In x mid -> (conf x <= conf m)%Q) ->
  exists l1' m' l2',
    l1 ++ m :: mid ++ rest = l1' ++ m' :: l2'
    /\ max_scan (map intent_of rest) (intent_of m) (conf m)
       = Some (intent_of m')
    /\ (forall x, In x l1' -> (conf x < conf m')%Q)
    /\ (forall x, In x l2' -> (conf x <= conf m')%Q).
Proof.
  induction rest as [|x rest IH]; intros l1 m mid Hlt Hle.
  - exists l1, m, mid. rewrite app_nil_r. auto.
  - cbn [map max_scan]. rewrite confidence_key_intent.
    unfold Qgt_bool. destruct (Qle_bool (conf x) (conf m)) eqn:E; cbn [negb].
    + apply Qle_bool_iff in E.
      destruct (IH l1 m (mid ++ [x])) as (l1' & m' & l2' & Heq & Hmax & H1 & H2).
      * exact Hlt.
      * intros y Hy. apply in_app_or in Hy.
        destruct Hy as [Hy|[<-|[]]]; auto.
      * exists l1', m', l2'. rewrite <- app_assoc in Heq. auto.
    + assert (Hgt : (conf m < conf x)%Q).
      { apply Qnot_le_lt. intros Hc. apply Qle_bool_iff in Hc. congruence. }
      destruct (IH (l1 ++ m :: mid) x []) as (l1' & m' & l2' & Heq & Hmax & H1 & H2).
      * intros y Hy. apply in_app_or in Hy. destruct Hy as [Hy|[<-|Hy]].
        -- eapply Qlt_trans; eauto.
        -- exact Hgt.
        -- eapply Qle_lt_trans; eauto.
      * intros y [].
      * exists l1', m', l2'. rewrite <- app_assoc in Heq. auto.
Qed.

Lemma primary_of_first_max m rest :
  exists l1 m' l2,
    m :: rest = l1 ++ m' :: l2
    /\ primary_of (map intent_of (m :: rest)) = Some (intent_of m')
    /\ (forall x, In x l1 -> (conf x < conf m')%Q)
    /\ (forall x, In x l2 -> (conf x <= conf m')%Q).
Proof.
  destruct (max_scan_first_max rest [] m []) as (l1 & m' & l2 & Heq & Hmax & H1 & H2).
  - intros x [].
  - intros x [].
  - exists l1, m', l2. auto.
Qed.

(** C4.  The body is split on the blank-line separator: joining the
    pieces with it gives the body back and no piece holds it.  The pieces
    that are not empty once stripped are classified, in order, and the
    others are left out.  The primary intent is the result of greatest
    confidence, the earliest of them on a tie.  When no piece is kept the
    primary intent is [None] and the list is empty, and the function
    returns them without logging an error. *)
Theorem primary_intent_of_segments email_data filename text w :
  getitem email_data "filename" = Some filename ->
  getitem email_data "body" = Some (PStr text) ->
  (forall seg, In seg (kept_segments text) -> answers seg) ->
  let kept :=
    filter (fun seg => negb (Str.is_empty (Str.strip seg)))
           (Str.split_blank text) in
  Str.join_blank (Str.split_blank text) = text
  /\ Forall (fun seg => Str.contains blank seg = false)
            (Str.split_blank text)
  /\ exists primary,
       value (handle_multi_request env email_data) w
       = Some (PTuple [primary; PList (map intent_of kept)])
       /\ logs (after (handle_multi_request env email_data) w)
          = logs w
            ++ [LogRecord INFO "Handling multi-request for email: {}"
                  [filename];
                LogRecord INFO "Multi-request handled: Primary intent - {}"
                  [primary]]
       /\ (kept = [] -> primary = PNone /\ map intent_of kept = [])
       /\ (kept <> [] ->
           exists l1 m l2,
             kept = l1 ++ m :: l2
             /\ primary = intent_of m
             /\ (forall x, In x l1 -> (conf x < conf m)%Q)
             /\ (forall x, In x l2 -> (conf x <= conf m)%Q)).
Proof.
  intros Hf Hb Hans kept.
  split; [apply join_split_blank|].
  split; [apply split_blank_segments|].
  assert (Hrun : forall w0,
    classify_segments env (Str.split_blank text) [] w0
    = (w0, Some (map intent_of kept))).
  { intros w0. rewrite classify_segments_run; [reflexivity|].
    intros seg Hin Hk. apply Hans. unfold kept_segments.
    apply filter_In. auto. }
  destruct kept as [|m rest] eqn:Ek.
  - exists PNone. unfold handle_multi_request. run.
    rewrite Hf. cbn -[Str.split_blank]. rewrite Hb.
    cbn -[Str.split_blank]. rewrite Hrun. cbn.
    repeat split; auto; [now rewrite <- app_assoc | congruence].
  - destruct (primary_of_first_max m rest) as (l1 & m' & l2 & Heq & Hp & H1 & H2).
    exists (intent_of m'). unfold handle_multi_request. run.
    rewrite Hf. cbn -[Str.split_blank]. rewrite Hb.
    cbn -[Str.split_blank]. rewrite Hrun.
    cbn -[primary_of map]. rewrite Hp. cbn -[map].
    repeat split; auto; try discriminate; [now rewrite <- app_assoc|].
    intros _. exists l1, m', l2. auto.
Qed.

End Segments.

(** ** Phase 2 on the records of phase 1 *)

Lemma fingerprint_not_empty subject body :
  Str.is_empty (fingerprint subject body) = false.
Proof.
  unfold fingerprint, MD5.hexdigest.
  destruct (MD5.digest_state _). reflexivity.
Qed.

Lemma bind_returns_inv {A B} (m : M A) (k : A -> M B) w w' b :
  bind m k w = (w', Some b) ->
  exists w1 a, m w = (w1, Some a) /\ k a w1 = (w', Some b).
Proof.
  unfold bind. destruct (m w) as [w1 [a|]]; [eauto | discriminate].
Qed.

(** ** The steps of phase 2, one by one

    Each lemma gives the value a step returns and what it leaves of the
    table and of the pending connections; the logger is not followed. *)

Lemma assign_priority_run intent email_data filename c conf b w :
  getitem email_data "filename" = Some filename ->
  getitem email_data "body" = Some (PStr b) ->
  getitem intent "request_type" = Some (PStr c) ->
  getitem intent "request_confidence" = Some conf ->
  exists w',
    assign_priority_and_confidence intent email_data w
    = (w', Some (scored_intent_of c conf b))
    /\ emails w' = emails w /\ connections w' = connections w.
Proof.
  intros Hf Hb Hc Hq.
  unfold assign_priority_and_confidence. run.
  rewrite Hf. cbn -[table_get]. rewrite Hc, Hq, priority_table.
  cbn -[base_priority]. rewrite Hb. cbn -[base_priority].
  unfold scored_intent_of, mentions_urgency.
  destruct (Str.contains "urgent" (Str.lower b)
            || Str.contains "immediate" (Str.lower b));
    rewrite ?Z.add_0_r; eexists; (split; [reflexivity|]); split; reflexivity.
Qed.

Lemma compute_email_hash_run email_data filename subject body w :
  getitem email_data "filename" = Some filename ->
  getitem email_data "subject" = Some (PStr subject) ->
  getitem email_data "body" = Some (PStr body) ->
  exists w',
    compute_email_hash email_data w
    = (w', Some (PStr (fingerprint subject body)))
    /\ emails w' = emails w /\ connections w' = connections w.
Proof.
  intros Hf Hs Hb. unfold compute_email_hash. run.
  rewrite Hf. cbn -[MD5.hexdigest]. rewrite Hs.
  cbn -[MD5.hexdigest]. rewrite Hb. cbn -[MD5.hexdigest].
  eexists. repeat split; reflexivity.
Qed.

Lemma setup_h2_database_run w :
  exists w',
    setup_h2_database w = (w', Some (next_connection w))
    /\ emails w' = emails w /\ connections w' = tl (connections w).
Proof.
  unfold setup_h2_database, connect, next_connection. run.
  destruct (connections w) as [|[conn|] later]; cbn;
    eexists; (split; [reflexivity|]); split; reflexivity.
Qed.

Lemma detect_duplicates_run cursor email_data filename h w :
  getitem email_data "filename" = Some filename ->
  exists w',
    detect_duplicates cursor email_data (PStr h) w
    = (w', Some (PBool (negb (select_raises cursor)
                        && already_stored (emails w) h)))
    /\ emails w' = emails w /\ connections w' = connections w.
Proof.
  intros Hf. unfold detect_duplicates, select_count, already_stored. run.
  rewrite Hf. cbn -[Nat.ltb].
  destruct (select_raises cursor); cbn -[Nat.ltb];
    eexists; (split; [reflexivity|]); split; reflexivity.
Qed.

Lemma store_email_data_run cursor email_data intent context email_hash
    filename c sub conf w :
  getitem email_data "filename" = Some filename ->
  getitem intent "request_type" = Some c ->
  getitem intent "sub_request_type" = Some sub ->
  getitem intent "request_confidence" = Some conf ->
  exists w',
    store_email_data cursor email_data intent context email_hash w
    = (w', Some tt)
    /\ emails w'
       = emails w ++ (if insert_raises cursor then []
                      else [mkRow filename c sub conf context email_hash])
    /\ connections w' = connections w
    /\ (insert_raises cursor = true -> In (storing_failed filename) (logs w')).
Proof.
  intros Hf Hc Hs Hq. unfold store_email_data, insert_row. run.
  rewrite Hf. cbn. rewrite Hc, Hs, Hq. cbn.
  destruct (insert_raises cursor); cbn; eexists;
    (split; [reflexivity|]); (split; [now rewrite ?app_nil_r|]);
    (split; [reflexivity|]); [intros _ | discriminate].
  apply in_or_app. right. now left.
Qed.

Lemma route_request_run fields filename intent c w :
  Dict.get "filename" fields = Some filename ->
  Dict.get "intent" fields = Some intent ->
  getitem intent "request_type" = Some (PStr c) ->
  exists w',
    route_request (PDict fields) w
    = (w', Some (PDict (Dict.set "routing"
                          (PDict [("team", PStr (team_of c))]) fields)))
    /\ emails w' = emails w /\ connections w' = connections w
    /\ (forall r, In r (logs w) -> In r (logs w')).
Proof.
  intros Hf Hi Hc. unfold route_request. run. cbn [getitem]. rewrite Hf.
  cbn -[table_get Dict.set Dict.get]. rewrite Hi.
  cbn -[table_get Dict.set Dict.get]. rewrite Hc, routing_table.
  cbn -[Dict.set]. eexists. (split; [reflexivity|]);
    (split; [reflexivity|]); split; [reflexivity|].
  cbn. intros r Hr. rewrite <- app_assoc. apply in_or_app. now left.
Qed.

Ltac kept_logs :=
  eexists; (split; [reflexivity|]); (split; [reflexivity|]);
  (split; [reflexivity|]); cbn; now auto.

Lemma log_classification_decision_run env result filename w :
  getitem result "filename" = Some filename ->
  exists w',
    log_classification_decision env result w = (w', Some tt)
    /\ emails w' = emails w /\ connections w' = connections w
    /\ (forall r, In r (logs w) -> In r (logs w')).
Proof.
  intros Hf. unfold log_classification_decision, open_classification_log,
    write_classification_log. run.
  rewrite Hf. cbn.
  assert (Hin : forall (l1 l2 l3 : list log_record) r,
             In r l1 -> In r ((l1 ++ l2) ++ l3)).
  { intros l1 l2 l3 r Hr. apply in_or_app. left. apply in_or_app. now left. }
  destruct (classification_log_writable env); cbn; rewrite ?Hf; cbn;
    [|kept_logs].
  destruct (getitem result "intent") as [intent|]; cbn;
    [|kept_logs].
  destruct (getitem intent "request_type"); cbn;
    [|kept_logs].
  destruct (getitem intent "confidence"); cbn;
    kept_logs.
Qed.

(** What the priority step and the hashing step return depends on the
    record alone, and neither touches the pending connections. *)
Lemma assign_priority_any_world intent email_data w w0 :
  value (assign_priority_and_confidence intent email_data) w0
  = value (assign_priority_and_confidence intent email_data) w
  /\ connections (after (assign_priority_and_confidence intent email_data) w0)
     = connections w0.
Proof.
  unfold assign_priority_and_confidence. run.
  destruct (getitem email_data "filename"); cbn; [|auto].
  destruct (getitem intent "request_type") as [rt|]; cbn; [|auto].
  destruct (getitem intent "request_confidence"); cbn; [|auto].
  destruct (table_get PRIORITY_RULES rt 1%Z); cbn; [|auto].
  destruct (getitem email_data "body") as [b|]; cbn; [|auto].
  destruct (as_str b); cbn; auto.
Qed.

Lemma compute_email_hash_any_world email_data w w0 :
  value (compute_email_hash email_data) w0
  = value (compute_email_hash email_data) w
  /\ connections (after (compute_email_hash email_data) w0) = connections w0.
Proof.
  unfold compute_email_hash. run.
  destruct (getitem email_data "filename"); cbn -[MD5.hexdigest]; [|auto].
  destruct (getitem email_data "subject") as [s|]; cbn -[MD5.hexdigest];
    [|auto].
  destruct (getitem email_data "body") as [b|]; cbn -[MD5.hexdigest];
    [|auto].
  destruct (str_add s b); cbn -[MD5.hexdigest]; auto.
Qed.

(** Phase 2 on any tuple, whether or not phase 1 made it: each of the four
    faults costs the message its result. *)
Lemma process_single_email_drops env a w :
  fails (assign_priority_and_confidence (arg_intent a) (arg_email_data a)) w
  \/ fails (compute_email_hash (arg_email_data a)) w
  \/ next_connection w = None
  \/ (exists conn, next_connection w = Some conn
                   /\ (commit_raises conn = true
                       \/ close_raises conn = true)) ->
  value (process_single_email env a) w = Some PNone.
Proof.
  intros H. unfold process_single_email, value.
  unfold bind at 1, logger_info at 1, log at 1. cbv beta iota.
  match goal with |- context [try_except _ _ ?w'] => set (w0 := w') end.
  assert (Hc0 : connections w0 = connections w) by reflexivity.
  clearbody w0. unfold try_except.
  match goal with
  | |- snd (let (_, _) := ?body w0 in _) = _ =>
      destruct (body w0) as [wb [r|]] eqn:E
  end; [|reflexivity].
  cbn [snd]. f_equal.
  apply bind_returns_inv in E. destruct E as (w1 & s & Hs & E).
  destruct (assign_priority_any_world (arg_intent a) (arg_email_data a) w w0)
    as [Hv1 Hc1].
  unfold value, after in Hv1, Hc1. rewrite Hs in Hv1, Hc1.
  cbn [fst snd] in *.
  destruct (truthy s) eqn:Ts; cbn [negb] in E;
    [|now injection E as _ <-].
  apply bind_returns_inv in E. destruct E as (w2 & h & Hh & E).
  destruct (compute_email_hash_any_world (arg_email_data a) w w1)
    as [Hv2 Hc2].
  unfold value, after in Hv2, Hc2. rewrite Hh in Hv2, Hc2.
  cbn [fst snd] in *.
  destruct (truthy h) eqn:Th; cbn [negb] in E;
    [|now injection E as _ <-].
  apply bind_returns_inv in E. destruct E as (w3 & db & Hdb & E).
  destruct (setup_h2_database_run w2) as (w3' & Hrun & _).
  rewrite Hrun in Hdb. injection Hdb as -> <-.
  assert (Hn : next_connection w2 = next_connection w).
  { unfold next_connection. now rewrite Hc2, Hc1, Hc0. }
  rewrite Hn in E.
  destruct (next_connection w) as [conn|] eqn:Hnc;
    [|now injection E as _ <-].
  exfalso.
  apply bind_returns_inv in E. destruct E as (w4 & d & _ & E).
  apply bind_returns_inv in E. destruct E as (w5 & [] & _ & E).
  apply bind_returns_inv in E. destruct E as (w6 & fn & _ & E).
  apply bind_returns_inv in E. destruct E as (w7 & rr & _ & E).
  apply bind_returns_inv in E. destruct E as (w8 & [] & _ & E).
  apply bind_returns_inv in E. destruct E as (w9 & [] & Hcm & E).
  apply bind_returns_inv in E. destruct E as (w10 & [] & Hcl & E).
  unfold commit, eval in Hcm. unfold close, eval in Hcl.
  destruct H as [[H|H]|[[H|H]|[H|(conn' & [= <-] & [H|H])]]];
    unfold value in H; try congruence.
  - rewrite <- Hv1 in H. injection H as ->. discriminate.
  - rewrite <- Hv2 in H. injection H as ->. discriminate.
  - rewrite H in Hcm. discriminate.
  - rewrite H in Hcl. discriminate.
Qed.

Section Phase2.

Variable env : Env.
Variables (filepath filename subject body c : string).
Variables (attachments : list pyval).
Variables (confidence sub_request_type sub_confidence : pyval).
Variables (context primary_intent all_intents : pyval).

Let email_data := mk_email_data filename subject body attachments.
Let intent := mk_intent c confidence sub_request_type sub_confidence.
Let args :=
  mkArgs filepath email_data intent context primary_intent all_intents.
Let h := fingerprint subject body.
Let row :=
  mkRow (PStr filename) (PStr c) sub_request_type confidence context (PStr h).

(** The steps up to the opening of the database. *)
Ltac to_setup w1 w2 w3 He1 Hc1 He2 Hc2 He3 Hc3 :=
  unfold process_single_email; run; unfold args;
  cbn [arg_filepath arg_email_data arg_intent arg_context arg_all_intents];
  match goal with |- context [assign_priority_and_confidence _ _ ?w0] =>
    destruct (assign_priority_run intent email_data (PStr filename) c
                confidence body w0 eq_refl eq_refl eq_refl eq_refl)
      as (w1 & -> & He1 & Hc1) end;
  cbn [truthy scored_intent_of negb];
  destruct (compute_email_hash_run email_data (PStr filename) subject body
              w1 eq_refl eq_refl eq_refl) as (w2 & -> & He2 & Hc2);
  cbn [truthy negb]; rewrite fingerprint_not_empty; cbn [negb];
  destruct (setup_h2_database_run w2) as (w3 & -> & He3 & Hc3);
  cbn [logs emails connections] in He1, Hc1.

(** Phase 2 on a message for which the database cannot be opened. *)
Lemma process_single_email_unconnected w :
  next_connection w = None ->
  exists w',
    process_single_email env args w = (w', Some PNone)
    /\ emails w' = emails w.
Proof.
  intros Hn. to_setup w1 w2 w3 He1 Hc1 He2 Hc2 He3 Hc3.
  assert (Hn2 : next_connection w2 = None).
  { unfold next_connection. now rewrite Hc2, Hc1. }
  rewrite Hn2. eexists. split; [reflexivity|]. congruence.
Qed.

(** Phase 2 on a message for which the database opens as [conn]. *)
Lemma process_single_email_connected w conn :
  next_connection w = Some conn ->
  exists w',
    process_single_email env args w
    = (w', Some (if commit_raises conn || close_raises conn then PNone
                 else routing_result filename c confidence body context
                        (negb (select_raises conn)
                         && already_stored (emails w) h)
                        all_intents))
    /\ emails w' = emails w ++ (if insert_raises conn then [] else [row])
    /\ connections w' = tl (connections w)
    /\ (insert_raises conn = true ->
        In (storing_failed (PStr filename)) (logs w')).
Proof.
  intros Hn. to_setup w1 w2 w3 He1 Hc1 He2 Hc2 He3 Hc3.
  assert (Hn2 : next_connection w2 = Some conn).
  { unfold next_connection. now rewrite Hc2, Hc1. }
  rewrite Hn2.
  destruct (detect_duplicates_run conn email_data (PStr filename)
              (fingerprint subject body) w3 eq_refl)
    as (w4 & -> & He4 & Hc4).
  destruct (store_email_data_run conn email_data intent context
              (PStr (fingerprint subject body)) (PStr filename) (PStr c)
              sub_request_type confidence w4
              eq_refl eq_refl eq_refl eq_refl)
    as (w5 & -> & He5 & Hc5 & Hl5).
  change (getitem email_data "filename") with (Some (PStr filename)).
  cbv beta iota.
  match goal with |- context [route_request (PDict ?f) ?w0] =>
    destruct (route_request_run f (PStr filename)
                (scored_intent_of c confidence body) c w0
                eq_refl eq_refl eq_refl) as (w6 & -> & He6 & Hc6 & Hl6) end.
  match goal with |- context [log_classification_decision env ?r ?w0] =>
    destruct (log_classification_decision_run env r (PStr filename) w0
                eq_refl) as (w7 & -> & He7 & Hc7 & Hl7) end.
  assert (He : emails w7
               = emails w ++ (if insert_raises conn then [] else [row])).
  { rewrite He7, He6, He5, He4, He3, He2, He1. reflexivity. }
  assert (Hl : insert_raises conn = true ->
               In (storing_failed (PStr filename)) (logs w7)).
  { intros Hi. apply Hl7, Hl6, Hl5, Hi. }
  assert (Hcn : connections w7 = tl (connections w)).
  { rewrite Hc7, Hc6, Hc5, Hc4, Hc3, Hc2, Hc1. reflexivity. }
  rewrite He3, He2, He1.
  unfold commit, close. run.
  destruct (commit_raises conn), (close_raises conn); cbn;
    eexists; (split; [reflexivity|]); (split; [exact He|]);
    (split; [exact Hcn|]);
    cbn; intros Hi; try (apply in_or_app; left); auto.
Qed.

Lemma process_single_email_value w conn :
  next_connection w = Some conn ->
  value (process_single_email env args) w
  = Some (if commit_raises conn || close_raises conn then PNone
          else routing_result filename c confidence body context
                 (negb (select_raises conn) && already_stored (emails w) h)
                 all_intents).
Proof.
  intros Hn. destruct (process_single_email_connected w conn Hn)
    as (w' & Hrun & _). unfold value. now rewrite Hrun.
Qed.

Lemma process_single_email_emails w conn :
  next_connection w = Some conn ->
  emails (after (process_single_email env args) w)
  = emails w ++ (if insert_raises conn then [] else [row]).
Proof.
  intros Hn. destruct (process_single_email_connected w conn Hn)
    as (w' & Hrun & He & _). unfold after. now rewrite Hrun.
Qed.

(** C9.  When the existence query raises, [detect_duplicates] returns
    [False]; the message goes on: it is stored and routed as a message
    that is no duplicate, and whether phase 2 returns a result for it is
    what it would be had the query answered. *)
Theorem failed_duplicate_check_keeps_the_message w conn :
  next_connection w = Some conn ->
  select_raises conn = true ->
  value (detect_duplicates conn email_data (PStr h)) w = Some (PBool false)
  /\ value (process_single_email env args) w
     = Some (if commit_raises conn || close_raises conn then PNone
             else routing_result filename c confidence body context false
                    all_intents)
  /\ emails (after (process_single_email env args) w)
     = emails w ++ (if insert_raises conn then [] else [row])
  /\ forall w_ok,
       next_connection w_ok
       = Some (mkConn false (insert_raises conn) (commit_raises conn)
                      (close_raises conn)) ->
       (value (process_single_email env args) w = Some PNone
        <-> value (process_single_email env args) w_ok = Some PNone).
Proof.
  intros Hn Hs.
  split.
  { destruct (detect_duplicates_run conn email_data (PStr filename) h w
                eq_refl) as (w' & Hrun & _).
    unfold value. now rewrite Hrun, Hs. }
  split; [rewrite (process_single_email_value w conn Hn), Hs; reflexivity|].
  split; [exact (process_single_email_emails w conn Hn)|].
  intros w_ok Hok.
  rewrite (process_single_email_value w conn Hn).
  rewrite (process_single_email_value w_ok _ Hok).
  cbn [commit_raises close_raises].
  destruct (commit_raises conn || close_raises conn);
    split; intros; try reflexivity; discriminate.
Qed.

(** C2, as the code has it.  When the insert raises, [store_email_data]
    catches the error, logs it and returns: no row is added, and phase 2
    goes on to return the result of the message, with its flag and its
    routing, which the pipeline keeps, provided that the commit and the
    close of the connection go through.  What does cost a message its
    result in phase 2, on any tuple handed to it, is a priority step or a
    hashing step that fails, a database that does not open, or a commit
    or a close that raises. *)
Theorem failed_insert_keeps_the_message w conn :
  next_connection w = Some conn ->
  insert_raises conn = true ->
  value (store_email_data conn email_data intent context (PStr h)) w
  = Some tt
  /\ emails (after (store_email_data conn email_data intent context
                      (PStr h)) w)
     = emails w
  /\ In (storing_failed (PStr filename))
        (logs (after (store_email_data conn email_data intent context
                        (PStr h)) w))
  /\ (exists result,
        result
        = routing_result filename c confidence body context
            (negb (select_raises conn) && already_stored (emails w) h)
            all_intents
        /\ value (process_single_email env args) w
           = Some (if commit_raises conn || close_raises conn then PNone
                   else result)
        /\ is_not_none result = true
        /\ (forall results,
              In result results -> In result (filter is_not_none results)))
  /\ emails (after (process_single_email env args) w) = emails w
  /\ In (storing_failed (PStr filename))
        (logs (after (process_single_email env args) w))
  /\ forall a w0,
       fails (assign_priority_and_confidence (arg_intent a)
                (arg_email_data a)) w0
       \/ fails (compute_email_hash (arg_email_data a)) w0
       \/ next_connection w0 = None
       \/ (exists conn0, next_connection w0 = Some conn0
                         /\ (commit_raises conn0 = true
                             \/ close_raises conn0 = true)) ->
       value (process_single_email env a) w0 = Some PNone.
Proof.
  intros Hn Hi.
  destruct (store_email_data_run conn email_data intent context (PStr h)
              (PStr filename) (PStr c) sub_request_type confidence w
              eq_refl eq_refl eq_refl eq_refl)
    as (ws & Hstore & Hes & _ & Hls).
  destruct (process_single_email_connected w conn Hn)
    as (w' & Hrun & He & _ & Hl).
  unfold value, after. rewrite Hstore, Hrun. cbn [fst snd].
  split; [reflexivity|].
  split; [now rewrite Hes, Hi, app_nil_r|].
  split; [now apply Hls|].
  split.
  { eexists. split; [reflexivity|]. split; [reflexivity|].
    split; [reflexivity|].
    intros results Hin. apply filter_In. now split. }
  split; [now rewrite He, Hi, app_nil_r|].
  split; [now apply Hl|].
  intros a w0. apply process_single_email_drops.
Qed.

(** C3, as the code has it.  Once the database is open, a message whose
    insert does not raise has its row appended to the table, whether or
    not a row of the same fingerprint was there; and when the existence
    query does not raise either, the flag [is_duplicate] of the result is
    whether such a row was there before this insert. *)
Theorem row_stored_whatever_the_duplicate_check w conn :
  next_connection w = Some conn ->
  insert_raises conn = false ->
  emails (after (process_single_email env args) w) = emails w ++ [row]
  /\ (commit_raises conn = false -> close_raises conn = false ->
      select_raises conn = false ->
      value (process_single_email env args) w
      = Some (routing_result filename c confidence body context
                (already_stored (emails w) h) all_intents))
  /\ (already_stored (emails w) h = true ->
      already_stored (emails w ++ [row]) h = true)
  /\ already_stored (emails w ++ [row]) h = true.
Proof.
  intros Hn Hi.
  split; [rewrite (process_single_email_emails w conn Hn), Hi; reflexivity|].
  split.
  { intros Hcm Hcl Hs.
    rewrite (process_single_email_value w conn Hn), Hcm, Hcl, Hs.
    reflexivity. }
  assert (Hrow : already_stored (emails w ++ [row]) h = true).
  { unfold already_stored. rewrite filter_app, length_app.
    cbn [filter row_email_hash row sql_eq]. rewrite String.eqb_refl.
    cbn [List.length]. apply Nat.ltb_lt. lia. }
  split; [intros _|]; exact Hrow.
Qed.

End Phase2.

(** ** Phase 2 on the sample message *)

Example sample_priority :
  getitem (sample_result false) "intent"
  = Some (PDict [("request_type", PStr "Payment Inquiry");
                 ("confidence", PFloat (9 # 10)); ("priority", PInt 4)]).
Proof. reflexivity. Qed.

Example sample_fresh_then_duplicate :
  let w0 := mkWorld [] [] [] [] None in
  let w1 := after (process_single_email quiet_env sample_args) w0 in
  value (process_single_email quiet_env sample_args) w0
  = Some (sample_result false)
  /\ value (process_single_email quiet_env sample_args) w1
     = Some (sample_result true)
  /\ emails (after (process_single_email quiet_env sample_args) w1)
     = [sample_row; sample_row].
Proof. vm_compute. repeat split; reflexivity. Qed.

Lemma failed_duplicate_check_keeps_the_message_witness :
  let w := world_with [sample_row] (mkConn true false false false) in
  value (detect_duplicates (mkConn true false false false)
           (arg_email_data sample_args)
           (PStr (fingerprint sample_subject sample_body))) w
  = Some (PBool false)
  /\ value (process_single_email quiet_env sample_args) w
     = Some (sample_result false)
  /\ emails (after (process_single_email quiet_env sample_args) w)
     = [sample_row] ++ [sample_row]
  /\ forall w_ok,
       next_connection w_ok = Some (mkConn false false false false) ->
       (value (process_single_email quiet_env sample_args) w = Some PNone
        <-> value (process_single_email quiet_env sample_args) w_ok
            = Some PNone).
Proof.
  apply (failed_duplicate_check_keeps_the_message quiet_env "uploads/a.eml"
           "a.eml" sample_subject sample_body "Payment Inquiry" []
           (PFloat (9 # 10)) (PStr "Payment Confirmation") (PFloat (8 # 10))
           sample_context sample_primary (PList [sample_primary])
           (world_with [sample_row] (mkConn true false false false))
           (mkConn true false false false)); reflexivity.
Defined.

(** C2 fails on the code: the insert raises, and phase 2 returns the result
    of the message all the same; the pipeline keeps it. *)
Lemma failed_insert_counterexample :
  let conn := mkConn false true false false in
  let w := world_with [] conn in
  insert_raises conn = true
  /\ value (process_single_email quiet_env sample_args) w
     = Some (sample_result false)
  /\ value (process_single_email quiet_env sample_args) w <> Some PNone
  /\ filter is_not_none [sample_result false] = [sample_result false]
  /\ emails (after (process_single_email quiet_env sample_args) w) = []
  /\ value (process_email_pipeline sample_env "uploads") w
     = Some [routing_result "a.eml" "Payment Inquiry" (PFloat (9 # 10))
               sample_body
               (PDict [("entities", PList []); ("amounts", PList []);
                       ("dates", PList [])])
               false
               (PList [segment_intent sample_body "Payment Inquiry"
                         (9 # 10)])]
  /\ emails (after (process_email_pipeline sample_env "uploads") w) = [].
Proof.
  vm_compute. repeat split; try reflexivity. discriminate.
Qed.

Lemma failed_insert_keeps_the_message_witness :
  let conn := mkConn false true false false in
  let w := world_with [] conn in
  let email_data := mk_email_data "a.eml" sample_subject sample_body [] in
  let intent :=
    mk_intent "Payment Inquiry" (PFloat (9 # 10))
      (PStr "Payment Confirmation") (PFloat (8 # 10)) in
  let h := PStr (fingerprint sample_subject sample_body) in
  value (store_email_data conn email_data intent sample_context h) w
  = Some tt
  /\ emails (after (store_email_data conn email_data intent sample_context
                      h) w)
     = []
  /\ In (storing_failed (PStr "a.eml"))
        (logs (after (store_email_data conn email_data intent sample_context
                        h) w))
  /\ (exists result,
        result
        = sample_result
            (already_stored [] (fingerprint sample_subject sample_body))
        /\ value (process_single_email quiet_env sample_args) w = Some result
        /\ is_not_none result = true
        /\ (forall results,
              In result results -> In result (filter is_not_none results)))
  /\ emails (after (process_single_email quiet_env sample_args) w) = []
  /\ In (storing_failed (PStr "a.eml"))
        (logs (after (process_single_email quiet_env sample_args) w))
  /\ forall a w0,
       fails (assign_priority_and_confidence (arg_intent a)
                (arg_email_data a)) w0
       \/ fails (compute_email_hash (arg_email_data a)) w0
       \/ next_connection w0 = None
       \/ (exists conn0, next_connection w0 = Some conn0
                         /\ (commit_raises conn0 = true
                             \/ close_raises conn0 = true)) ->
       value (process_single_email quiet_env a) w0 = Some PNone.
Proof.
  apply (failed_insert_keeps_the_message quiet_env "uploads/a.eml"
           "a.eml" sample_subject sample_body "Payment Inquiry" []
           (PFloat (9 # 10)) (PStr "Payment Confirmation") (PFloat (8 # 10))
           sample_context sample_primary (PList [sample_primary])
           (world_with [] (mkConn false true false false))
           (mkConn false true false false)); reflexivity.
Defined.

(** The four faults on the sample message: an intent without category
    fails the priority step, a subject that is no string fails the hashing
    step, and in both cases phase 2 returns [None] before it opens the
    database; a database that does not open, a commit or a close that
    raises do the same after it, the last two with the row stored. *)
Example dropped_in_phase_2 :
  let w := world_with [] healthy in
  fails (assign_priority_and_confidence (arg_intent uncategorised_args)
           (arg_email_data uncategorised_args)) w
  /\ value (process_single_email quiet_env uncategorised_args) w
     = Some PNone
  /\ connections (after (process_single_email quiet_env uncategorised_args) w)
     = connections w
  /\ fails (compute_email_hash (arg_email_data no_subject_args)) w
  /\ value (process_single_email quiet_env no_subject_args) w = Some PNone
  /\ connections (after (process_single_email quiet_env no_subject_args) w)
     = connections w
  /\ value (process_single_email quiet_env sample_args)
       (mkWorld [] [] [None] [] None)
     = Some PNone
  /\ value (process_single_email quiet_env sample_args)
       (world_with [] (mkConn false false true false))
     = Some PNone
  /\ value (process_single_email quiet_env sample_args)
       (world_with [] (mkConn false false false true))
     = Some PNone
  /\ emails (after (process_single_email quiet_env sample_args)
               (world_with [] (mkConn false false false true)))
     = [sample_row].
Proof.
  unfold fails. vm_compute. repeat split; auto.
Qed.

(** C3 fails on the code: a message that is not skipped, its result comes
    back, and no row for it is in the table, for the insert raised; and its
    flag says it is no duplicate while a row of its fingerprint was there,
    for the existence query raised. *)
Lemma row_not_stored_counterexample :
  let conn := mkConn true true false false in
  let w := world_with [sample_row] conn in
  value (process_single_email quiet_env sample_args) w
  = Some (sample_result false)
  /\ emails (after (process_single_email quiet_env sample_args) w)
     = [sample_row]
  /\ already_stored (emails w) (fingerprint sample_subject sample_body) = true
  /\ getitem (sample_result false) "is_duplicate" = Some (PBool false).
Proof.
  vm_compute. repeat split; reflexivity.
Qed.

Lemma row_stored_whatever_the_duplicate_check_witness :
  let w := world_with [sample_row] healthy in
  emails (after (process_single_email quiet_env sample_args) w)
  = [sample_row] ++ [sample_row]
  /\ (commit_raises healthy = false -> close_raises healthy = false ->
      select_raises healthy = false ->
      value (process_single_email quiet_env sample_args) w
      = Some (sample_result
                (already_stored [sample_row]
                   (fingerprint sample_subject sample_body))))
  /\ (already_stored [sample_row] (fingerprint sample_subject sample_body)
      = true ->
      already_stored ([sample_row] ++ [sample_row])
        (fingerprint sample_subject sample_body) = true)
  /\ already_stored ([sample_row] ++ [sample_row])
       (fingerprint sample_subject sample_body) = true.
Proof.
  apply (row_stored_whatever_the_duplicate_check quiet_env "uploads/a.eml"
           "a.eml" sample_subject sample_body "Payment Inquiry" []
           (PFloat (9 # 10)) (PStr "Payment Confirmation") (PFloat (8 # 10))
           sample_context sample_primary (PList [sample_primary])
           (world_with [sample_row] healthy) healthy); reflexivity.
Defined.

(** ** Component extraction *)

Lemma str_app_nil_r s : (s ++ "")%string = s.
Proof. induction s; cbn; congruence. Qed.

Lemma str_app_assoc a b c : ((a ++ b) ++ c)%string = (a ++ b ++ c)%string.
Proof. induction a; cbn; congruence. Qed.

Lemma walk_parts_run parts : forall body attachments w,
  exists w',
    walk_parts parts body attachments w
    = (w', if decodes parts
           then Some ((body ++ body_of parts)%string,
                      attachments ++ attachments_of parts)
           else None)
    /\ emails w' = emails w /\ connections w' = connections w.
Proof.
  induction parts as [|p rest IH]; intros body attachments w.
  - exists w. cbn. rewrite app_nil_r, str_app_nil_r. auto.
  - cbn [walk_parts decodes forallb body_of attachments_of].
    fold (decodes rest). unfold is_text_plain.
    destruct (String.eqb (get_content_type p) "text/plain").
    + cbn [negb orb]. destruct (payload_decode p) as [t|]; run.
      * destruct (IH (body ++ t)%string attachments w) as (w' & -> & He & Hc).
        exists w'. cbn [andb]. repeat split; auto.
        destruct (decodes rest); [|reflexivity].
        now rewrite str_app_assoc.
      * exists w. auto.
    + cbn [negb orb andb].
      destruct (String.prefix "multipart" (get_content_type p)); cbn [negb].
      * apply IH.
      * destruct (get_filename p) as [[|ch n]|]; try apply IH.
        run.
        match goal with |- context [walk_parts rest body ?a ?w0] =>
          destruct (IH body a w0) as (w' & -> & He & Hc) end.
        exists w'. repeat split; auto.
        destruct (decodes rest); [|reflexivity].
        now rewrite <- app_assoc.
Qed.

Lemma extract_email_components_run env filepath w :
  exists w',
    extract_email_components env filepath w
    = (w', Some (extracted env filepath))
    /\ emails w' = emails w /\ connections w' = connections w.
Proof.
  unfold extract_email_components, extracted. run.
  destruct (message_from_file env filepath) as [msg|];
    [|eexists; (split; [reflexivity|]); split; reflexivity].
  match goal with |- context [walk_parts ?ps ?b ?a ?w0] =>
    destruct (walk_parts_run ps b a w0) as (w' & -> & He & Hc) end.
  destruct (decodes (msg_walk msg));
    (eexists; (split; [reflexivity|]); split; cbn; assumption).
Qed.

(** C8, as the code has it.  The extractor never raises.  It returns the
    record of the message when the file parses and every [text/plain] part
    decodes: the body is the decoded [text/plain] parts one after the
    other, and the subject is the empty string when the header is missing.
    It returns [None], and the message is skipped, exactly when the file
    does not open or parse or when a [text/plain] part fails to decode. *)
Theorem extraction_outcome env filepath w :
  value (extract_email_components env filepath) w
  = Some (match message_from_file env filepath with
          | None => PNone
          | Some msg =>
              if decodes (msg_walk msg)
              then PDict [("filename", PStr (basename filepath));
                          ("subject",
                           PStr (match msg_subject msg with
                                 | Some s => s
                                 | None => EmptyString
                                 end));
                          ("body", PStr (body_of (msg_walk msg)));
                          ("attachments",
                           PList (attachments_of (msg_walk msg)))]
              else PNone
          end)
  /\ (value (extract_email_components env filepath) w = Some PNone
      <-> message_from_file env filepath = None
          \/ exists msg, message_from_file env filepath = Some msg
                         /\ decodes (msg_walk msg) = false).
Proof.
  destruct (extract_email_components_run env filepath w) as (w' & Hrun & _).
  unfold value. rewrite Hrun. cbn [snd]. unfold extracted.
  split; [reflexivity|].
  destruct (message_from_file env filepath) as [msg|].
  - destruct (decodes (msg_walk msg)) eqn:Hd.
    + split; [discriminate|]. intros [H|(m & [= <-] & H)]; congruence.
    + split; [|reflexivity]. intros _. right. now exists msg.
  - split; auto.
Qed.

(** C8 fails on the code: the file parses, one [text/plain] part does not
    decode, and the extractor returns [None] where the claim has it return
    the record with the body ["Hi"]. *)
Lemma undecodable_part_counterexample :
  message_from_file undecodable_env "uploads/x.eml" = Some undecodable_message
  /\ value (extract_email_components undecodable_env "uploads/x.eml")
       empty_world = Some PNone
  /\ value (extract_email_components undecodable_env "uploads/x.eml")
       empty_world
     <> Some (mk_email_data "x.eml" "" "Hi" [])
  /\ value (process_email_pipeline undecodable_env "uploads") empty_world
     = Some [].
Proof.
  vm_compute. repeat split; try reflexivity. discriminate.
Qed.

(** ** Phase 1 *)

Ltac kept_run :=
  eexists; (split; [reflexivity|]); split; reflexivity.

Lemma classify_email_intent_run env filename subject body attachments w :
  exists w',
    classify_email_intent env
      (mk_email_data filename subject body attachments) w
    = (w', Some (classified env (text_of subject body)))
    /\ emails w' = emails w /\ connections w' = connections w.
Proof.
  unfold classify_email_intent, classified, text_of. run.
  cbn -[table_get REQUEST_TYPES]. rewrite str_app_assoc.
  cbn -[table_get REQUEST_TYPES].
  destruct (CLASSIFIER env _ REQUEST_TYPES) as [result|];
    cbn -[table_get]; [|kept_run].
  destruct (top result) as [[request_type confidence]|];
    cbn -[table_get]; [|kept_run].
  destruct (table_get SUB_REQUEST_TYPES (PStr request_type) [])
    as [[|label labels]|]; cbn; [kept_run| |kept_run].
  destruct (CLASSIFIER env _ (label :: labels)) as [sub_result|];
    cbn; [|kept_run].
  destruct (top sub_result) as [[sub_type sub_confidence]|]; cbn; kept_run.
Qed.

Lemma extract_context_run env filename subject body attachments w :
  exists w',
    extract_context env (mk_email_data filename subject body attachments) w
    = (w', Some (contextualised env (text_of subject body)))
    /\ emails w' = emails w /\ connections w' = connections w.
Proof.
  unfold extract_context, contextualised, text_of. run.
  cbn -[amount_pattern date_pattern]. rewrite str_app_assoc.
  cbn -[amount_pattern date_pattern].
  destruct (NER env _); cbn -[amount_pattern date_pattern]; kept_run.
Qed.

Lemma classify_segments_world env segs : forall intents w,
  exists o, classify_segments env segs intents w = (w, o).
Proof.
  induction segs as [|seg rest IH]; intros intents w.
  - eexists. reflexivity.
  - cbn [classify_segments].
    destruct (negb (Str.is_empty (Str.strip seg))); [|apply IH].
    run. destruct (CLASSIFIER env seg REQUEST_TYPES) as [result|];
      [|eexists; reflexivity].
    destruct (top result); [apply IH | eexists; reflexivity].
Qed.

(** Segment analysis always hands back its pair. *)
Lemma handle_multi_request_run env filename subject body attachments w :
  exists w' primary_intent all_intents,
    handle_multi_request env
      (mk_email_data filename subject body attachments) w
    = (w', Some (PTuple [primary_intent; all_intents]))
    /\ emails w' = emails w /\ connections w' = connections w.
Proof.
  unfold handle_multi_request. run. cbn -[Str.split_blank].
  match goal with |- context [classify_segments env ?s ?i ?w0] =>
    destruct (classify_segments_world env s i w0) as [[intents|] ->] end;
    cbn; [|do 3 eexists; (split; [reflexivity|]); split; reflexivity].
  destruct (primary_of intents); cbn;
    do 3 eexists; (split; [reflexivity|]); split; reflexivity.
Qed.

Lemma classified_shape env text :
  truthy (classified env text) = true ->
  exists request_type confidence sub_type sub_confidence,
    classified env text
    = mk_intent request_type confidence sub_type sub_confidence.
Proof.
  unfold classified.
  destruct (CLASSIFIER env text REQUEST_TYPES) as [result|]; [|discriminate].
  destruct (top result) as [[request_type confidence]|]; [|discriminate].
  destruct (table_get SUB_REQUEST_TYPES (PStr request_type) [])
    as [[|label labels]|]; [eauto | | discriminate].
  destruct (CLASSIFIER env text (label :: labels)) as [sub_result|];
    [|discriminate].
  destruct (top sub_result) as [[sub_type sub_confidence]|];
    [eauto | discriminate].
Qed.

Lemma preprocess_run env filepaths : forall preprocessed_data w,
  exists w' pre,
    preprocess env filepaths preprocessed_data w
    = (w', Some (preprocessed_data ++ pre))
    /\ Forall2 (phase1_args env) (filter (passes env) filepaths) pre
    /\ emails w' = emails w /\ connections w' = connections w.
Proof.
  induction filepaths as [|filepath rest IH]; intros acc w.
  - exists w, []. cbn. rewrite app_nil_r. auto.
  - cbn [preprocess filter]. unfold bind at 1.
    destruct (extract_email_components_run env filepath w)
      as (w1 & -> & He1 & Hc1).
    unfold passes at 1, message_text, extracted.
    destruct (message_from_file env filepath) as [msg|] eqn:Hm;
      [destruct (decodes (msg_walk msg))|];
      cbn [truthy negb mk_email_data];
      try (destruct (IH acc w1) as (w' & pre & -> & HF & He & Hc);
           exists w', pre; repeat split; auto; congruence).
    fold (mk_email_data (basename filepath) (subject_of msg)
            (body_of (msg_walk msg)) (attachments_of (msg_walk msg))).
    set (text := text_of (subject_of msg) (body_of (msg_walk msg))).
    unfold bind at 1.
    destruct (classify_email_intent_run env (basename filepath)
                (subject_of msg) (body_of (msg_walk msg))
                (attachments_of (msg_walk msg)) w1) as (w2 & -> & He2 & Hc2).
    fold text.
    destruct (truthy (classified env text)) eqn:Hti; cbn [negb andb];
      [|destruct (IH acc w2) as (w' & pre & -> & HF & He & Hc);
        exists w', pre; repeat split; auto; congruence].
    unfold bind at 1.
    destruct (extract_context_run env (basename filepath)
                (subject_of msg) (body_of (msg_walk msg))
                (attachments_of (msg_walk msg)) w2) as (w3 & -> & He3 & Hc3).
    fold text.
    destruct (truthy (contextualised env text)) eqn:Htc; cbn [negb];
      [|destruct (IH acc w3) as (w' & pre & -> & HF & He & Hc);
        exists w', pre; repeat split; auto; congruence].
    unfold bind at 1.
    destruct (handle_multi_request_run env (basename filepath)
                (subject_of msg) (body_of (msg_walk msg))
                (attachments_of (msg_walk msg)) w3)
      as (w4 & primary_intent & all_intents & -> & He4 & Hc4).
    unfold bind at 1, eval at 1, ret at 1. cbn [fst snd].
    match goal with |- context [preprocess env rest ?a ?w0] =>
      destruct (IH a w0) as (w' & pre & -> & HF & He & Hc) end.
    eexists w', (_ :: pre). rewrite <- app_assoc. cbn [app].
    split; [reflexivity|]. split; [|split; congruence].
    constructor; [|exact HF].
    exists msg, primary_intent, all_intents. auto.
Qed.










(** ** The statements on sample inputs *)

Lemma priority_is_base_plus_urgency_witness :
  value (assign_priority_and_confidence (arg_intent sample_args)
           (arg_email_data sample_args)) empty_world
  = Some (PDict [("request_type", PStr "Payment Inquiry");
                 ("confidence", PFloat (9 # 10)); ("priority", PInt 4)]).
Proof.
  exact (proj1 (priority_is_base_plus_urgency
                  (arg_intent sample_args) (arg_email_data sample_args)
                  (PStr "a.eml") "Payment Inquiry" (PFloat (9 # 10))
                  sample_body empty_world
                  eq_refl eq_refl eq_refl eq_refl)).
Defined.

Example two_requests_segments :
  Str.split_blank two_requests
  = ["Loan status?"; "Payment is urgent"; String Str.LF EmptyString]
  /\ kept_segments two_requests = ["Loan status?"; "Payment is urgent"].
Proof. split; reflexivity. Qed.

Lemma primary_intent_of_segments_witness :
  let kept :=
    filter (fun seg => negb (Str.is_empty (Str.strip seg)))
           (Str.split_blank two_requests) in
  exists primary,
    value (handle_multi_request sample_env two_requests_email) empty_world
    = Some (PTuple [primary; PList (map (intent_of sample_classify) kept)])
    /\ logs (after (handle_multi_request sample_env two_requests_email)
               empty_world)
       = logs empty_world
         ++ [LogRecord INFO "Handling multi-request for email: {}"
               [PStr "b.eml"];
             LogRecord INFO "Multi-request handled: Primary intent - {}"
               [primary]]
    /\ (kept = [] ->
        primary = PNone /\ map (intent_of sample_classify) kept = [])
    /\ (kept <> [] ->
        exists l1 m l2,
          kept = l1 ++ m :: l2
          /\ primary = intent_of sample_classify m
          /\ (forall x, In x l1 ->
                        (conf sample_classify x < conf sample_classify m)%Q)
          /\ (forall x, In x l2 ->
                        (conf sample_classify x <= conf sample_classify m)%Q)).
Proof.
  apply (primary_intent_of_segments sample_env sample_classify
           two_requests_email (PStr "b.eml") two_requests empty_world
           eq_refl eq_refl).
  intros seg Hin. vm_compute in Hin.
  destruct Hin as [<-|[<-|[]]]; eexists; split; reflexivity.
Defined.

Example two_requests_primary :
  value (handle_multi_request sample_env two_requests_email) empty_world
  = Some (PTuple
            [segment_intent "Payment is urgent" "Payment Inquiry" (9 # 10);
             PList [segment_intent "Loan status?" "Payment Inquiry" (1 # 2);
                    segment_intent "Payment is urgent" "Payment Inquiry"
                      (9 # 10)]]).
Proof. reflexivity. Qed.

(** On a tie the earlier segment is the primary intent. *)
Example tie_goes_to_the_first :
  primary_of [segment_intent "one" "Loan Request" (1 # 2);
              segment_intent "two" "Payment Inquiry" (2 # 4)]
  = Some (segment_intent "one" "Loan Request" (1 # 2)).
Proof. reflexivity. Qed.

Example no_segment_no_primary :
  value (handle_multi_request sample_env
           (mk_email_data "c.eml" "Empty" (String Str.LF EmptyString) []))
    empty_world
  = Some (PTuple [PNone; PList []]).
Proof. reflexivity. Qed.

(** * Further properties of the module *)

(** ** Priority: bounds and failures *)

Lemma priority_table_bounds rt p :
  table_get PRIORITY_RULES rt 1%Z = Some p -> (1 <= p <= 3)%Z.
Proof.
  destruct rt; cbn; try (intros [= <-]; lia);
    try (destruct (forallb hashable l); intros [= <-]; lia);
    try discriminate.
  destruct (String.eqb s "Payment Inquiry"); [intros [= <-]; lia|].
  destruct (String.eqb s "Loan Request"); [intros [= <-]; lia|].
  destruct (String.eqb s "Account Update"); intros [= <-]; lia.
Qed.

(** X1.  Whatever the category, a string of the table or not, or a value
    that is no string, and whatever the body, the priority assigned lies
    between 1 and 4. *)
Theorem priority_between_1_and_4 intent email_data filename rt conf b w :
  getitem email_data "filename" = Some filename ->
  getitem email_data "body" = Some (PStr b) ->
  getitem intent "request_type" = Some rt ->
  getitem intent "request_confidence" = Some conf ->
  hashable rt = true ->
  exists p,
    value (assign_priority_and_confidence intent email_data) w
    = Some (PDict [("request_type", rt); ("confidence", conf);
                   ("priority", PInt p)])
    /\ (1 <= p <= 4)%Z.
Proof.
  intros Hf Hb Hc Hq Hh.
  assert (Ht : exists p0, table_get PRIORITY_RULES rt 1%Z = Some p0).
  { destruct rt; cbn in *; eauto; try discriminate; rewrite Hh; eauto. }
  destruct Ht as [p0 Ht]. pose proof (priority_table_bounds _ _ Ht) as Hp.
  unfold assign_priority_and_confidence. run.
  rewrite Hf. cbn -[table_get]. rewrite Hc, Hq, Ht.
  cbn. rewrite Hb. cbn.
  destruct (Str.contains "urgent" (Str.lower b)
            || Str.contains "immediate" (Str.lower b));
    eexists; (split; [reflexivity | lia]).
Qed.

Lemma priority_between_1_and_4_witness :
  exists p,
    value (assign_priority_and_confidence
             (PDict [("request_type", PNone);
                     ("request_confidence", PFloat (1 # 2))])
             (mk_email_data "a.eml" "" "IMMEDIATE and urgent" []))
      empty_world
    = Some (PDict [("request_type", PNone); ("confidence", PFloat (1 # 2));
                   ("priority", PInt p)])
    /\ (1 <= p <= 4)%Z.
Proof.
  apply (priority_between_1_and_4
           (PDict [("request_type", PNone);
                   ("request_confidence", PFloat (1 # 2))])
           (mk_email_data "a.eml" "" "IMMEDIATE and urgent" [])
           (PStr "a.eml") PNone (PFloat (1 # 2)) "IMMEDIATE and urgent"
           empty_world); reflexivity.
Defined.

(** X2.  A record that carries its file name never makes the priority step
    raise: when the intent lacks its category or its confidence, when the
    category cannot be hashed, or when the body is missing or is no string,
    the step logs the error and returns [None]. *)
Theorem assign_priority_fails_softly intent email_data filename w :
  getitem email_data "filename" = Some filename ->
  getitem intent "request_type" = None
  \/ getitem intent "request_confidence" = None
  \/ (exists rt, getitem intent "request_type" = Some rt
                 /\ hashable rt = false)
  \/ (forall b, getitem email_data "body" <> Some (PStr b)) ->
  value (assign_priority_and_confidence intent email_data) w = Some PNone
  /\ logs (after (assign_priority_and_confidence intent email_data) w)
     = logs w
       ++ [LogRecord INFO "Assigning priority for email: {}" [filename];
           LogRecord ERROR "Error assigning priority for {}" [filename]]
  /\ emails (after (assign_priority_and_confidence intent email_data) w)
     = emails w.
Proof.
  intros Hf Hbad.
  unfold assign_priority_and_confidence. run.
  rewrite Hf. cbn -[table_get].
  destruct (getitem intent "request_type") as [rt|] eqn:Hrt;
    cbn -[table_get];
    [|now rewrite <- app_assoc].
  destruct (getitem intent "request_confidence") as [conf|] eqn:Hq;
    cbn -[table_get];
    [|now rewrite <- app_assoc].
  destruct (table_get PRIORITY_RULES rt 1%Z) as [p|] eqn:Ht;
    cbn -[table_get];
    [|now rewrite <- app_assoc].
  destruct (getitem email_data "body") as [body|] eqn:Hb; cbn;
    [|now rewrite <- app_assoc].
  destruct body; cbn; try now rewrite <- app_assoc.
  exfalso. destruct Hbad as [H|[H|[(rt' & [= <-] & Hh)|H]]];
    try discriminate.
  - destruct rt; cbn in *; try discriminate; rewrite Hh in Ht; discriminate.
  - now apply (H s).
Qed.

Lemma assign_priority_fails_softly_witness :
  value (assign_priority_and_confidence
           (PDict [("request_confidence", PFloat (1 # 2))])
           (mk_email_data "a.eml" "" "urgent" [])) empty_world
  = Some PNone
  /\ logs (after (assign_priority_and_confidence
                    (PDict [("request_confidence", PFloat (1 # 2))])
                    (mk_email_data "a.eml" "" "urgent" [])) empty_world)
     = logs empty_world
       ++ [LogRecord INFO "Assigning priority for email: {}" [PStr "a.eml"];
           LogRecord ERROR "Error assigning priority for {}" [PStr "a.eml"]]
  /\ emails (after (assign_priority_and_confidence
                      (PDict [("request_confidence", PFloat (1 # 2))])
                      (mk_email_data "a.eml" "" "urgent" [])) empty_world)
     = emails empty_world.
Proof.
  apply (assign_priority_fails_softly
           (PDict [("request_confidence", PFloat (1 # 2))])
           (mk_email_data "a.eml" "" "urgent" []) (PStr "a.eml") empty_world);
    [reflexivity | left; reflexivity].
Defined.

(** ** The log line before each [try] *)

(** X3.  Every step logs the file name of the record before it enters its
    [try]: on a record without the key [filename] the step raises, where
    any other failure makes it return its failure value.  Phase 2 catches
    the exception and drops the message. *)
Theorem steps_raise_without_file_name env conn e x y z w :
  getitem e "filename" = None ->
  value (classify_email_intent env e) w = None
  /\ value (extract_context env e) w = None
  /\ value (handle_multi_request env e) w = None
  /\ value (assign_priority_and_confidence x e) w = None
  /\ value (compute_email_hash e) w = None
  /\ value (detect_duplicates conn e x) w = None
  /\ value (store_email_data conn e x y z) w = None
  /\ value (route_request e) w = None
  /\ value (log_classification_decision env e) w = None
  /\ forall filepath intent context primary_intent all_intents,
       value (process_single_email env
                (mkArgs filepath e intent context primary_intent all_intents))
         w = Some PNone.
Proof.
  intros H.
  repeat split;
    try (unfold classify_email_intent, extract_context, handle_multi_request,
           assign_priority_and_confidence, compute_email_hash,
           detect_duplicates, store_email_data, route_request,
           log_classification_decision; run; rewrite H; reflexivity).
  intros. unfold process_single_email, assign_priority_and_confidence. run.
  cbn [arg_email_data arg_intent]. rewrite H. reflexivity.
Qed.

Lemma steps_raise_without_file_name_witness :
  let e := PDict [("subject", PStr "s"); ("body", PStr "b")] in
  value (classify_email_intent quiet_env e) empty_world = None
  /\ value (extract_context quiet_env e) empty_world = None
  /\ value (handle_multi_request quiet_env e) empty_world = None
  /\ value (assign_priority_and_confidence PNone e) empty_world = None
  /\ value (compute_email_hash e) empty_world = None
  /\ value (detect_duplicates healthy e PNone) empty_world = None
  /\ value (store_email_data healthy e PNone PNone PNone) empty_world = None
  /\ value (route_request e) empty_world = None
  /\ value (log_classification_decision quiet_env e) empty_world = None
  /\ forall filepath intent context primary_intent all_intents,
       value (process_single_email quiet_env
                (mkArgs filepath e intent context primary_intent all_intents))
         empty_world = Some PNone.
Proof.
  apply (steps_raise_without_file_name quiet_env healthy
           (PDict [("subject", PStr "s"); ("body", PStr "b")])
           PNone PNone PNone empty_world).
  reflexivity.
Defined.

(** ** Segment analysis: edge cases *)

Lemma lstrip_spaces s :
  all_space s = true ->
  Str.lstrip s = EmptyString.
Proof.
  induction s as [|c t IH]; [reflexivity|]. cbn.
  intros H. apply andb_prop in H. destruct H as [Hc Ht].
  rewrite Hc. now apply IH.
Qed.

Lemma cons_head_all_space c l :
  Str.isspace c = true -> forallb all_space l = true ->
  forallb all_space (Str.cons_head c l) = true.
Proof.
  intros Hc Hl. destruct l as [|h tl]; cbn.
  - unfold all_space. cbn. now rewrite Hc.
  - cbn in Hl. apply andb_prop in Hl. destruct Hl as [Hh Htl].
    unfold all_space in *. cbn. now rewrite Hc, Hh, Htl.
Qed.

Lemma split_blank_all_space s :
  all_space s = true -> forallb all_space (Str.split_blank s) = true.
Proof.
  enough (H : (all_space s = true ->
               forallb all_space (Str.split_blank s) = true)
              /\ forall c, all_space (String c s) = true ->
                           forallb all_space (Str.split_blank (String c s))
                           = true) by apply H.
  induction s as [|c' t [IHt IHc]].
  - split; [reflexivity|]. intros c H. cbn in *. now rewrite H.
  - split; [apply IHc|]. intros c H. rewrite split_blank_step.
    unfold all_space in H. cbn in H.
    apply andb_prop in H. destruct H as [Hc H].
    pose proof H as H'. apply andb_prop in H'. destruct H' as [Hc' Ht].
    destruct (Ascii.eqb c Str.LF && Ascii.eqb c' Str.LF).
    + cbn. apply IHt. exact Ht.
    + apply cons_head_all_space; [exact Hc|]. apply IHc.
      unfold all_space. cbn. exact H.
Qed.

Lemma kept_segments_all_space s :
  all_space s = true -> kept_segments s = [].
Proof.
  intros H. apply split_blank_all_space in H.
  unfold kept_segments. induction (Str.split_blank s) as [|h tl IH].
  - reflexivity.
  - cbn in H. apply andb_prop in H. destruct H as [Hh Htl].
    cbn. unfold Str.strip. rewrite (lstrip_spaces h Hh). cbn. now apply IH.
Qed.

(** X4.  A body made of white space only, the empty body among them, has no
    segment to classify: the classifier is not consulted (it may be one
    that always fails), the primary intent is [None], the list of intents
    is empty, and no error is logged. *)
Theorem blank_body_has_no_primary env email_data filename text w :
  getitem email_data "filename" = Some filename ->
  getitem email_data "body" = Some (PStr text) ->
  all_space text = true ->
  value (handle_multi_request env email_data) w
  = Some (PTuple [PNone; PList []])
  /\ logs (after (handle_multi_request env email_data) w)
     = logs w
       ++ [LogRecord INFO "Handling multi-request for email: {}" [filename];
           LogRecord INFO "Multi-request handled: Primary intent - {}"
             [PNone]].
Proof.
  intros Hf Hb Hs. pose proof (kept_segments_all_space text Hs) as Hk.
  unfold kept_segments in Hk.
  unfold handle_multi_request. run. rewrite Hf. cbn -[Str.split_blank].
  rewrite Hb. cbn -[Str.split_blank].
  rewrite (classify_segments_run env (fun _ => (EmptyString, 0%Q))).
  - rewrite Hk. cbn. split; [reflexivity | now rewrite <- app_assoc].
  - intros seg Hin Hkept. exfalso.
    assert (Hin' : In seg (filter
                     (fun seg => negb (Str.is_empty (Str.strip seg)))
                     (Str.split_blank text))) by (apply filter_In; auto).
    rewrite Hk in Hin'. exact Hin'.
Qed.

Lemma blank_body_has_no_primary_witness :
  let body := String " " (String Str.LF (String Str.LF (String Str.LF " "))) in
  let env := mkEnv (fun _ => None) (fun _ => None) (fun _ _ => None)
                   (fun _ => None) (fun _ _ => []) false false false in
  value (handle_multi_request env (mk_email_data "a.eml" "s" body []))
    empty_world
  = Some (PTuple [PNone; PList []])
  /\ logs (after (handle_multi_request env (mk_email_data "a.eml" "s" body []))
             empty_world)
     = logs empty_world
       ++ [LogRecord INFO "Handling multi-request for email: {}"
             [PStr "a.eml"];
           LogRecord INFO "Multi-request handled: Primary intent - {}"
             [PNone]].
Proof.
  apply (blank_body_has_no_primary
           (mkEnv (fun _ => None) (fun _ => None) (fun _ _ => None)
                  (fun _ => None) (fun _ _ => []) false false false)
           (mk_email_data "a.eml" "s"
              (String " " (String Str.LF (String Str.LF (String Str.LF " "))))
              [])
           (PStr "a.eml")
           (String " " (String Str.LF (String Str.LF (String Str.LF " "))))
           empty_world); reflexivity.
Defined.

Lemma split_blank_single s :
  Str.contains blank s = false -> Str.split_blank s = [s].
Proof.
  enough (H : (Str.contains blank s = false -> Str.split_blank s = [s])
              /\ forall c, Str.contains blank (String c s) = false ->
                           Str.split_blank (String c s) = [String c s])
    by apply H.
  induction s as [|c' t [IHt IHc]].
  - split; reflexivity.
  - split; [apply IHc|]. intros c H. rewrite split_blank_step.
    rewrite contains_blank_cons in H. apply orb_false_elim in H.
    destruct H as [Hcc Hrest].
    rewrite (Ascii.eqb_sym c), (Ascii.eqb_sym c'), Hcc.
    now rewrite (IHc c' Hrest).
Qed.

(** X5.  A body without a blank line is one segment: it is classified
    whole, as it stands and not stripped, and its intent is the primary
    intent and the only entry of the list. *)
Theorem single_paragraph_is_classified_whole
    env email_data filename text res label score w :
  getitem email_data "filename" = Some filename ->
  getitem email_data "body" = Some (PStr text) ->
  Str.contains blank text = false ->
  Str.strip text <> EmptyString ->
  CLASSIFIER env text REQUEST_TYPES = Some res ->
  top res = Some (label, score) ->
  value (handle_multi_request env email_data) w
  = Some (PTuple [segment_intent text label score;
                  PList [segment_intent text label score]]).
Proof.
  intros Hf Hb Hn Hs Hc Ht.
  unfold handle_multi_request. run. rewrite Hf. cbn -[Str.split_blank].
  rewrite Hb. cbn -[Str.split_blank]. rewrite (split_blank_single _ Hn).
  cbn [classify_segments].
  destruct (Str.strip text) eqn:E; [congruence|]. cbn [Str.is_empty negb].
  run. rewrite Hc, Ht. reflexivity.
Qed.

Lemma single_paragraph_is_classified_whole_witness :
  value (handle_multi_request quiet_env
           (mk_email_data "a.eml" "s" " Where is my loan? " [])) empty_world
  = Some (PTuple [segment_intent " Where is my loan? " "Payment Inquiry"
                    (1 # 2);
                  PList [segment_intent " Where is my loan? "
                           "Payment Inquiry" (1 # 2)]]).
Proof.
  apply (single_paragraph_is_classified_whole quiet_env
           (mk_email_data "a.eml" "s" " Where is my loan? " [])
           (PStr "a.eml") " Where is my loan? "
           (REQUEST_TYPES, [(1 # 2)%Q]) "Payment Inquiry" (1 # 2)%Q
           empty_world); try reflexivity.
  discriminate.
Defined.

Lemma classify_segments_fails env segs : forall intents w,
  (exists seg,
      In seg (filter (fun seg => negb (Str.is_empty (Str.strip seg))) segs)
      /\ classifier_fails env seg) ->
  classify_segments env segs intents w = (w, None).
Proof.
  induction segs as [|seg rest IH]; intros intents w (bad & Hin & Hbad).
  - destruct Hin.
  - cbn [classify_segments filter] in *.
    destruct (negb (Str.is_empty (Str.strip seg))) eqn:Hk.
    + run. unfold classifier_fails in Hbad.
      destruct (CLASSIFIER env seg REQUEST_TYPES) as [res|] eqn:Hc;
        [|reflexivity].
      destruct (top res) as [lc|] eqn:Ht; [|reflexivity].
      apply IH. exists bad. split; [|exact Hbad].
      destruct Hin as [<-|Hin]; [|exact Hin].
      exfalso. rewrite Hc in Hbad. congruence.
    + apply IH. now exists bad.
Qed.

(** X6.  When the classifier fails on one kept segment, segment analysis
    gives up the intents of all of them: it logs the error and returns
    [(None, [])], and the message goes on without a primary intent. *)
Theorem failing_segment_discards_all env email_data filename text seg w :
  getitem email_data "filename" = Some filename ->
  getitem email_data "body" = Some (PStr text) ->
  In seg (kept_segments text) ->
  classifier_fails env seg ->
  value (handle_multi_request env email_data) w
  = Some (PTuple [PNone; PList []])
  /\ logs (after (handle_multi_request env email_data) w)
     = logs w
       ++ [LogRecord INFO "Handling multi-request for email: {}" [filename];
           LogRecord ERROR "Error handling multi-request for {}" [filename]].
Proof.
  intros Hf Hb Hin Hbad.
  unfold handle_multi_request. run. rewrite Hf. cbn -[Str.split_blank].
  rewrite Hb. cbn -[Str.split_blank].
  rewrite classify_segments_fails by (exists seg; auto).
  cbn. split; [reflexivity | now rewrite <- app_assoc].
Qed.

Lemma failing_segment_discards_all_witness :
  value (handle_multi_request moody_env
           (mk_email_data "a.eml" "s" moody_body [])) empty_world
  = Some (PTuple [PNone; PList []])
  /\ logs (after (handle_multi_request moody_env
                    (mk_email_data "a.eml" "s" moody_body [])) empty_world)
     = logs empty_world
       ++ [LogRecord INFO "Handling multi-request for email: {}"
             [PStr "a.eml"];
           LogRecord ERROR "Error handling multi-request for {}"
             [PStr "a.eml"]].
Proof.
  apply (failing_segment_discards_all moody_env
           (mk_email_data "a.eml" "s" moody_body []) (PStr "a.eml")
           moody_body "???" empty_world);
    [reflexivity | reflexivity | right; left; reflexivity | exact I].
Defined.

(** ** Routing twice *)

Lemma dict_set_set k v d : Dict.set k v (Dict.set k v d) = Dict.set k v d.
Proof.
  induction d as [|[k' v'] tl IH]; cbn.
  - now rewrite String.eqb_refl.
  - destruct (String.eqb k k') eqn:E; cbn; rewrite E; [reflexivity|].
    now rewrite IH.
Qed.

(** X7.  Routing is idempotent: a record that was routed, routed again,
    comes back as it is, its [routing] entry in the same place. *)
Theorem route_request_idempotent fields filename intent c w w' :
  Dict.get "filename" fields = Some filename ->
  Dict.get "intent" fields = Some intent ->
  getitem intent "request_type" = Some (PStr c) ->
  exists routed,
    value (route_request (PDict fields)) w = Some routed
    /\ value (route_request routed) w' = Some routed.
Proof.
  intros Hf Hi Hc.
  exists (PDict (Dict.set "routing" (PDict [("team", PStr (team_of c))])
                   fields)).
  split; [now apply route_request_value with filename intent|].
  rewrite route_request_value with (filename := filename) (intent := intent)
                                   (c := c).
  - now rewrite dict_set_set.
  - now rewrite dict_get_set_other.
  - now rewrite dict_get_set_other.
  - exact Hc.
Qed.

Lemma route_request_idempotent_witness :
  exists routed,
    value (route_request (PDict route_total_witness_fields)) empty_world
    = Some routed
    /\ value (route_request routed) (world_with [] healthy) = Some routed.
Proof.
  apply (route_request_idempotent route_total_witness_fields (PStr "a.eml")
           (PDict [("request_type", PStr "Loan Request");
                   ("confidence", PFloat (1 # 2));
                   ("priority", PInt 2)])
           "Loan Request" empty_world (world_with [] healthy)); reflexivity.
Defined.

(** ** The record store: insert, then look up *)

Lemma already_stored_app rows r h :
  already_stored (rows ++ [r]) h
  = already_stored rows h || sql_eq (row_email_hash r) (PStr h).
Proof.
  unfold already_stored. rewrite filter_app, length_app. cbn [filter].
  destruct (sql_eq (row_email_hash r) (PStr h)); cbn [List.length].
  - rewrite orb_true_r. apply Nat.ltb_lt. lia.
  - now rewrite Nat.add_0_r, orb_false_r.
Qed.

(** X8.  After [store_email_data] has inserted a record of fingerprint [h],
    a duplicate check for [h] answers [True]; the answer for any other
    fingerprint is what it was before the insert. *)
Theorem stored_then_detected
    cursor cursor' email_data intent context filename c sub conf h h' w :
  getitem email_data "filename" = Some filename ->
  getitem intent "request_type" = Some c ->
  getitem intent "sub_request_type" = Some sub ->
  getitem intent "request_confidence" = Some conf ->
  insert_raises cursor = false ->
  select_raises cursor' = false ->
  let w1 :=
    after (store_email_data cursor email_data intent context (PStr h)) w in
  value (detect_duplicates cursor' email_data (PStr h)) w1
  = Some (PBool true)
  /\ (h' <> h ->
      value (detect_duplicates cursor' email_data (PStr h')) w1
      = value (detect_duplicates cursor' email_data (PStr h')) w).
Proof.
  intros Hf Hc Hs Hq Hi Hsel w1.
  destruct (store_email_data_run cursor email_data intent context (PStr h)
              filename c sub conf w Hf Hc Hs Hq) as (w' & Hrun & He & _).
  assert (Hw1 : w1 = w') by (unfold w1, after; now rewrite Hrun).
  rewrite Hi in He. unfold value.
  destruct (detect_duplicates_run cursor' email_data filename h w1 Hf)
    as (wa & -> & _).
  split.
  - rewrite Hsel, Hw1, He, already_stored_app. cbn.
    now rewrite String.eqb_refl, orb_true_r.
  - intros Hne.
    destruct (detect_duplicates_run cursor' email_data filename h' w1 Hf)
      as (wb & -> & _).
    destruct (detect_duplicates_run cursor' email_data filename h' w Hf)
      as (wc & -> & _).
    cbn [snd]. rewrite Hw1, He, already_stored_app. cbn [row_email_hash sql_eq].
    apply String.eqb_neq in Hne. rewrite String.eqb_sym in Hne.
    now rewrite Hne, orb_false_r.
Qed.

Lemma stored_then_detected_witness :
  let w1 :=
    after (store_email_data healthy (arg_email_data sample_args)
             (arg_intent sample_args) sample_context (PStr "abc"))
      empty_world in
  value (detect_duplicates healthy (arg_email_data sample_args) (PStr "abc"))
    w1 = Some (PBool true)
  /\ ("abd" <> "abc" ->
      value (detect_duplicates healthy (arg_email_data sample_args)
               (PStr "abd")) w1
      = value (detect_duplicates healthy (arg_email_data sample_args)
                 (PStr "abd")) empty_world).
Proof.
  apply (stored_then_detected healthy healthy (arg_email_data sample_args)
           (arg_intent sample_args) sample_context (PStr "a.eml")
           (PStr "Payment Inquiry") (PStr "Payment Confirmation")
           (PFloat (9 # 10)) "abc" "abd" empty_world); reflexivity.
Defined.

Section TwoMessages.

Variable env : Env.
Variables (filepath1 filename1 subject1 body1 c1 : string).
Variables (attachments1 : list pyval).
Variables (confidence1 sub_type1 sub_confidence1 : pyval).
Variables (context1 primary1 all_intents1 : pyval).
Variables (filepath2 filename2 subject2 body2 c2 : string).
Variables (attachments2 : list pyval).
Variables (confidence2 sub_type2 sub_confidence2 : pyval).
Variables (context2 primary2 all_intents2 : pyval).

Let first :=
  mkArgs filepath1 (mk_email_data filename1 subject1 body1 attachments1)
    (mk_intent c1 confidence1 sub_type1 sub_confidence1)
    context1 primary1 all_intents1.
Let second :=
  mkArgs filepath2 (mk_email_data filename2 subject2 body2 attachments2)
    (mk_intent c2 confidence2 sub_type2 sub_confidence2)
    context2 primary2 all_intents2.

(** X9.  A message whose subject and body concatenate to the text of a
    message stored before it is flagged as a duplicate whenever its own
    duplicate check answers, whatever its file name, its attachments and
    its classification, and whether or not the duplicate check of the
    first message answered.  When its own check raises its flag is
    [False]; and it has a result at all only when neither its commit nor
    its close raises. *)
Theorem second_submission_is_flagged w conn1 conn2 later :
  connections w = Some conn1 :: Some conn2 :: later ->
  (subject1 ++ body1 = subject2 ++ body2)%string ->
  insert_raises conn1 = false ->
  commit_raises conn1 = false ->
  value (process_single_email env second)
    (after (process_single_email env first) w)
  = Some (if commit_raises conn2 || close_raises conn2 then PNone
          else routing_result filename2 c2 confidence2 body2 context2
                 (negb (select_raises conn2)) all_intents2).
Proof.
  intros Hc Heq Hi _.
  destruct (process_single_email_connected env filepath1 filename1 subject1
              body1 c1 attachments1 confidence1 sub_type1 sub_confidence1
              context1 primary1 all_intents1 w conn1)
    as (w1 & Hrun & He & Hcn & _).
  { unfold next_connection. now rewrite Hc. }
  unfold after. fold first in Hrun. rewrite Hrun. cbn [fst].
  rewrite Hc in Hcn. cbn [List.tl] in Hcn. rewrite Hi in He.
  unfold second.
  rewrite (process_single_email_value env filepath2 filename2 subject2 body2
             c2 attachments2 confidence2 sub_type2 sub_confidence2
             context2 primary2 all_intents2 w1 conn2).
  - rewrite He, already_stored_app. cbn [row_email_hash sql_eq].
    unfold fingerprint. rewrite Heq, String.eqb_refl, orb_true_r, andb_true_r.
    reflexivity.
  - unfold next_connection. now rewrite Hcn.
Qed.

(** X10.  Phase 2 drops a record of phase 1 exactly when the database does
    not open, or opens and then raises on commit or on close: a duplicate
    check or an insert that raises never costs the message its result. *)
Theorem phase2_drops_on_connection_faults_only w :
  value (process_single_email env first) w = Some PNone
  <-> next_connection w = None
      \/ exists conn, next_connection w = Some conn
                      /\ (commit_raises conn = true
                          \/ close_raises conn = true).
Proof.
  destruct (next_connection w) as [conn|] eqn:Hn.
  - unfold first.
    rewrite (process_single_email_value env filepath1 filename1 subject1
               body1 c1 attachments1 confidence1 sub_type1 sub_confidence1
               context1 primary1 all_intents1 w conn Hn).
    split.
    + intros H. right. exists conn. split; [reflexivity|].
      destruct (commit_raises conn); [now left|].
      destruct (close_raises conn); [now right|]. discriminate.
    + intros [H|(conn' & [= <-] & [H|H])]; [discriminate| |];
        rewrite H; now rewrite ?orb_true_r.
  - destruct (process_single_email_unconnected env filepath1 filename1
                subject1 body1 c1 attachments1 confidence1 sub_type1
                sub_confidence1 context1 primary1 all_intents1 w Hn)
      as (w' & Hrun & _).
    unfold value, first. rewrite Hrun. split; auto.
Qed.

End TwoMessages.

Lemma second_submission_is_flagged_witness :
  value (process_single_email quiet_env
           (mkArgs "uploads/copy.eml"
              (mk_email_data "copy.eml" "Payment confirmation "
                 ("needed" ++ sample_body)%string [PBytes []])
              (mk_intent "Loan Request" (PFloat (1 # 2)) PNone (PFloat 0))
              PNone PNone (PList [])))
    (after (process_single_email quiet_env sample_args)
       (mkWorld [] [] [Some (mkConn true false false true); Some healthy] []
                None))
  = Some (routing_result "copy.eml" "Loan Request" (PFloat (1 # 2))
            ("needed" ++ sample_body)%string PNone true (PList [])).
Proof.
  apply (second_submission_is_flagged quiet_env
           "uploads/a.eml" "a.eml" sample_subject sample_body
           "Payment Inquiry" [] (PFloat (9 # 10))
           (PStr "Payment Confirmation") (PFloat (8 # 10))
           sample_context sample_primary (PList [sample_primary])
           "uploads/copy.eml" "copy.eml" "Payment confirmation "
           ("needed" ++ sample_body)%string "Loan Request" [PBytes []]
           (PFloat (1 # 2)) PNone (PFloat 0) PNone PNone (PList [])
           (mkWorld [] [] [Some (mkConn true false false true); Some healthy]
                    [] None)
           (mkConn true false false true) healthy []); reflexivity.
Defined.

(** The same second message when its own duplicate check raises: it comes
    back unflagged, and its row is stored beside the first. *)
Example second_submission_unflagged :
  let copy :=
    mkArgs "uploads/copy.eml"
      (mk_email_data "copy.eml" sample_subject sample_body [])
      (mk_intent "Loan Request" (PFloat (1 # 2)) PNone (PFloat 0))
      PNone PNone (PList []) in
  let w :=
    after (process_single_email quiet_env sample_args)
      (mkWorld [] [] [Some healthy; Some (mkConn true false false false)] []
               None) in
  value (process_single_email quiet_env copy) w
  = Some (routing_result "copy.eml" "Loan Request" (PFloat (1 # 2))
            sample_body PNone false (PList []))
  /\ List.length (emails (after (process_single_email quiet_env copy) w)) = 2.
Proof. vm_compute. split; reflexivity. Qed.

(** ** Classification and context *)

(** X11.  With a classifier that picks its label among the candidates, an
    intent that comes back carries a category of the fixed set and a
    sub-category that belongs to that category. *)
Theorem intent_stays_in_the_taxonomy
    env filename subject body attachments intent w :
  picks_a_candidate env ->
  value (classify_email_intent env
           (mk_email_data filename subject body attachments)) w
  = Some intent ->
  intent <> PNone ->
  exists request_type confidence sub_type sub_confidence subs,
    intent = mk_intent request_type (PFloat confidence) (PStr sub_type)
               (PFloat sub_confidence)
    /\ In request_type REQUEST_TYPES
    /\ In (request_type, subs) SUB_REQUEST_TYPES
    /\ In sub_type subs.
Proof.
  intros Hpick Hv Hne.
  destruct (classify_email_intent_run env filename subject body attachments w)
    as (w' & Hrun & _).
  unfold value in Hv. rewrite Hrun in Hv. cbn [snd] in Hv.
  injection Hv as <-. revert Hne. unfold classified.
  destruct (CLASSIFIER env (text_of subject body) REQUEST_TYPES)
    as [res|] eqn:Hc; [|congruence].
  destruct (top res) as [[rt conf]|] eqn:Ht; [|congruence].
  pose proof (Hpick _ _ _ _ _ Hc Ht) as Hin.
  destruct Hin as [<-|[<-|[<-|[]]]]; cbn [table_get find fst snd String.eqb
    Ascii.eqb Bool.eqb SUB_REQUEST_TYPES];
    match goal with
    | |- context [CLASSIFIER env ?t ?ls] =>
        destruct (CLASSIFIER env t ls) as [res2|] eqn:Hc2; [|congruence];
        destruct (top res2) as [[st sc]|] eqn:Ht2; [|congruence];
        pose proof (Hpick _ _ _ _ _ Hc2 Ht2) as Hin2;
        intros _; eexists; exists conf, st, sc, ls;
        (split; [reflexivity|]); cbn; auto 10
    end.
Qed.

Lemma intent_stays_in_the_taxonomy_witness :
  exists request_type confidence sub_type sub_confidence subs,
    mk_intent "Payment Inquiry" (PFloat (1 # 2)) (PStr "Payment Confirmation")
      (PFloat (1 # 2))
    = mk_intent request_type (PFloat confidence) (PStr sub_type)
        (PFloat sub_confidence)
    /\ In request_type REQUEST_TYPES
    /\ In (request_type, subs) SUB_REQUEST_TYPES
    /\ In sub_type subs.
Proof.
  apply (intent_stays_in_the_taxonomy quiet_env "a.eml" sample_subject
           sample_body [] _ empty_world).
  - intros text labels res label score H Ht. cbn in H. injection H as <-.
    destruct labels; cbn in Ht; [discriminate|].
    injection Ht as <- _. now left.
  - reflexivity.
  - discriminate.
Defined.

(** X12.  When the category is known and the second call of the classifier,
    over the sub-categories of that category, fails, the whole intent is
    lost: the step logs the error and returns [None], and phase 1 skips the
    message. *)
Theorem failed_sub_classification_loses_the_intent
    env filename subject body attachments res request_type confidence subs w :
  CLASSIFIER env (subject ++ " " ++ body)%string REQUEST_TYPES = Some res ->
  top res = Some (request_type, confidence) ->
  In (request_type, subs) SUB_REQUEST_TYPES ->
  match CLASSIFIER env (subject ++ " " ++ body)%string subs with
  | None => True
  | Some sub_res => top sub_res = None
  end ->
  value (classify_email_intent env
           (mk_email_data filename subject body attachments)) w
  = Some PNone
  /\ In (LogRecord ERROR "Error classifying intent for {}" [PStr filename])
        (logs (after (classify_email_intent env
                        (mk_email_data filename subject body attachments)) w)).
Proof.
  intros Hc Ht Hin Hfail. cbn [String.append] in Hc, Hfail.
  unfold classify_email_intent. run.
  cbn -[table_get REQUEST_TYPES]. rewrite str_app_assoc.
  cbn -[table_get REQUEST_TYPES]. rewrite Hc. cbn -[table_get]. rewrite Ht.
  destruct Hin as [[= <- <-]|[[= <- <-]|[[= <- <-]|[]]]];
    cbn -[CLASSIFIER];
    match type of Hfail with
    | match ?x with _ => _ end =>
        destruct x as [sub_res|]; cbn; [rewrite Hfail; cbn|];
        (split; [reflexivity|]); apply in_or_app; right; now left
    end.
Qed.

(** X13.  A category that is not in the table of sub-categories gets no
    second call: the intent comes back with no sub-category and the
    sub-confidence 0. *)
Theorem unknown_category_has_no_sub_type
    env filename subject body attachments res request_type confidence w :
  CLASSIFIER env (subject ++ " " ++ body)%string REQUEST_TYPES = Some res ->
  top res = Some (request_type, confidence) ->
  ~ In request_type REQUEST_TYPES ->
  value (classify_email_intent env
           (mk_email_data filename subject body attachments)) w
  = Some (mk_intent request_type (PFloat confidence) PNone (PFloat 0)).
Proof.
  intros Hc Ht Hout.
  destruct (classify_email_intent_run env filename subject body attachments w)
    as (w' & Hrun & _).
  unfold value. rewrite Hrun. cbn [snd]. unfold classified, text_of.
  rewrite Hc, Ht. cbn.
  destruct (String.eqb request_type "Payment Inquiry") eqn:E1.
  { apply String.eqb_eq in E1. exfalso. apply Hout. subst. cbn. auto. }
  destruct (String.eqb request_type "Loan Request") eqn:E2.
  { apply String.eqb_eq in E2. exfalso. apply Hout. subst. cbn. auto. }
  destruct (String.eqb request_type "Account Update") eqn:E3.
  { apply String.eqb_eq in E3. exfalso. apply Hout. subst. cbn. auto. }
  reflexivity.
Qed.

(** X14.  Context extraction fails as a whole when the entity recogniser
    raises, whatever the patterns would have matched; when the recogniser
    answers, the context that comes back counts as true in the test of
    phase 1 even with no entity, no amount and no date in it, and its
    amounts and dates are the matches of the two patterns in subject,
    space, body. *)
Theorem context_is_lost_only_with_the_recogniser
    env filename subject body attachments w :
  let text := (subject ++ " " ++ body)%string in
  exists context,
    value (extract_context env
             (mk_email_data filename subject body attachments)) w
    = Some context
    /\ (NER env text = None -> context = PNone)
    /\ (NER env text <> None ->
        truthy context = true
        /\ getitem context "amounts"
           = Some (PList (map PStr (findall env amount_pattern text)))
        /\ getitem context "dates"
           = Some (PList (map PStr (findall env date_pattern text)))).
Proof.
  intros text.
  destruct (extract_context_run env filename subject body attachments w)
    as (w' & Hrun & _).
  exists (contextualised env (text_of subject body)).
  unfold value. rewrite Hrun. split; [reflexivity|].
  unfold contextualised, text_of. fold text.
  destruct (NER env text); split; try congruence; auto.
Qed.

Lemma failed_sub_classification_loses_the_intent_witness :
  value (classify_email_intent half_env
           (mk_email_data "a.eml" sample_subject sample_body []))
    empty_world = Some PNone
  /\ In (LogRecord ERROR "Error classifying intent for {}" [PStr "a.eml"])
        (logs (after (classify_email_intent half_env
                        (mk_email_data "a.eml" sample_subject sample_body []))
                 empty_world)).
Proof.
  apply (failed_sub_classification_loses_the_intent half_env "a.eml"
           sample_subject sample_body [] (REQUEST_TYPES, [(1 # 2)%Q])
           "Payment Inquiry" (1 # 2)%Q
           ["Payment Confirmation"; "Payment Delay"] empty_world);
    [reflexivity | reflexivity | left; reflexivity | exact I].
Defined.

Lemma unknown_category_has_no_sub_type_witness :
  value (classify_email_intent stray_env
           (mk_email_data "a.eml" sample_subject sample_body []))
    empty_world
  = Some (mk_intent "Complaint" (PFloat (1 # 2)) PNone (PFloat 0)).
Proof.
  apply (unknown_category_has_no_sub_type stray_env "a.eml" sample_subject
           sample_body [] (["Complaint"], [(1 # 2)%Q]) "Complaint" (1 # 2)%Q
           empty_world); [reflexivity | reflexivity |].
  cbn. intros [H|[H|[H|[]]]]; discriminate.
Defined.

(** ** Extraction: what becomes body and what becomes attachment *)

Lemma attachments_of_filter parts :
  attachments_of parts = map attachment_entry (filter is_attachment parts).
Proof.
  induction parts as [|p rest IH]; [reflexivity|].
  cbn [attachments_of filter]. unfold is_attachment at 1.
  destruct (is_text_plain p); cbn [negb andb]; [exact IH|].
  destruct (String.prefix "multipart" (get_content_type p));
    cbn [negb andb]; [exact IH|].
  destruct (get_filename p) as [[|c n]|] eqn:E; cbn [map];
    [exact IH | | exact IH].
  unfold attachment_entry at 1. now rewrite E, IH.
Qed.

Lemma body_of_without_plain_text parts :
  forallb (fun p => negb (is_text_plain p)) parts = true ->
  body_of parts = EmptyString /\ decodes parts = true.
Proof.
  induction parts as [|p rest IH]; [split; reflexivity|].
  cbn [forallb body_of decodes]. intros H.
  apply andb_prop in H. destruct H as [Hp Hrest].
  destruct (IH Hrest) as [Hb Hd]. fold (decodes rest).
  destruct (is_text_plain p); [discriminate|]. cbn. now rewrite Hd.
Qed.

(** X15.  A message with no [text/plain] part, an HTML-only message for
    one, is no failure: its record comes back with the empty body. *)
Theorem message_without_plain_text_has_empty_body env filepath msg w :
  message_from_file env filepath = Some msg ->
  forallb (fun p => negb (is_text_plain p)) (msg_walk msg) = true ->
  value (extract_email_components env filepath) w
  = Some (mk_email_data (basename filepath) (subject_of msg) EmptyString
            (attachments_of (msg_walk msg))).
Proof.
  intros Hm Hnone.
  destruct (extract_email_components_run env filepath w) as (w' & Hrun & _).
  unfold value. rewrite Hrun. cbn [snd]. unfold extracted. rewrite Hm.
  destruct (body_of_without_plain_text _ Hnone) as [-> ->]. reflexivity.
Qed.

Lemma message_without_plain_text_has_empty_body_witness :
  let msg :=
    mkMessage None [mkPart "text/html" None (PBytes []) (Some "<p>Hi</p>")] in
  let env := mkEnv (fun _ => None) (fun _ => Some msg) (fun _ _ => None)
                   (fun _ => None) (fun _ _ => []) true true false in
  value (extract_email_components env "uploads/h.eml") empty_world
  = Some (mk_email_data "h.eml" "" "" []).
Proof.
  apply (message_without_plain_text_has_empty_body
           (mkEnv (fun _ => None)
                  (fun _ => Some (mkMessage None
                     [mkPart "text/html" None (PBytes []) (Some "<p>Hi</p>")]))
                  (fun _ _ => None) (fun _ => None) (fun _ _ => []) true true false)
           "uploads/h.eml"
           (mkMessage None
              [mkPart "text/html" None (PBytes []) (Some "<p>Hi</p>")])
           empty_world); reflexivity.
Defined.

(** X16.  The attachments of a record are the parts that are neither
    [text/plain] nor containers and that have a file name that is not
    empty, in the order of the message, each with its name and payload.  A
    [text/plain] part with a file name, an attached text file, is body
    text and no attachment. *)
Theorem attachments_are_the_named_other_parts env filepath msg w :
  message_from_file env filepath = Some msg ->
  decodes (msg_walk msg) = true ->
  exists email_data,
    value (extract_email_components env filepath) w = Some email_data
    /\ getitem email_data "attachments"
       = Some (PList (map attachment_entry
                        (filter is_attachment (msg_walk msg))))
    /\ getitem email_data "body" = Some (PStr (body_of (msg_walk msg)))
    /\ forall p, In p (msg_walk msg) -> is_text_plain p = true ->
                 is_attachment p = false.
Proof.
  intros Hm Hd.
  destruct (extract_email_components_run env filepath w) as (w' & Hrun & _).
  unfold value. rewrite Hrun. cbn [snd]. unfold extracted. rewrite Hm, Hd.
  eexists. split; [reflexivity|]. cbn.
  rewrite attachments_of_filter. repeat split.
  intros p _ Hp. unfold is_attachment. now rewrite Hp.
Qed.

Lemma attachments_are_the_named_other_parts_witness :
  exists email_data,
    value (extract_email_components html_env "uploads/h.eml") empty_world
    = Some email_data
    /\ getitem email_data "attachments"
       = Some (PList [PTuple [PStr "scan.pdf"; PBytes [Byte.x25]]])
    /\ getitem email_data "body" = Some (PStr "my notes")
    /\ forall p, In p (msg_walk html_message) -> is_text_plain p = true ->
                 is_attachment p = false.
Proof.
  apply (attachments_are_the_named_other_parts html_env "uploads/h.eml"
           html_message empty_world); reflexivity.
Defined.

(** ** File names *)

Lemma basename_aux_app d f : forall acc,
  basename_aux (d ++ f)%string acc = basename_aux f (basename_aux d acc).
Proof.
  induction d as [|c d IH]; intros acc; [reflexivity|].
  cbn. destruct (Ascii.eqb c "/"); apply IH.
Qed.

Lemma basename_aux_no_slash f : forall acc,
  no_slash f = true -> basename_aux f acc = (acc ++ f)%string.
Proof.
  induction f as [|c f IH]; intros acc H; cbn in *.
  - now rewrite str_app_nil_r.
  - apply andb_prop in H. destruct H as [Hc Hf].
    destruct (Ascii.eqb c "/"); [discriminate|].
    rewrite IH by exact Hf. now rewrite str_app_assoc.
Qed.

Lemma endswith_slash_cons c t :
  Str.endswith (String c t) "/"
  = match t with
    | EmptyString => Ascii.eqb c "/"
    | _ => Str.endswith t "/"
    end.
Proof.
  unfold Str.endswith. destruct t as [|c' t'].
  - cbn. destruct (Ascii.eqb c "/"); reflexivity.
  - cbn [String.length]. rewrite !Nat.sub_succ, !Nat.sub_0_r. reflexivity.
Qed.

Lemma basename_aux_endswith_slash d : forall acc,
  Str.endswith d "/" = true -> basename_aux d acc = EmptyString.
Proof.
  induction d as [|c d IH]; intros acc H; [discriminate|].
  rewrite endswith_slash_cons in H. cbn [basename_aux].
  destruct d as [|c' d'].
  - rewrite H. reflexivity.
  - destruct (Ascii.eqb c "/"); now apply IH.
Qed.

Lemma basename_path_join directory f :
  no_slash f = true -> basename (path_join directory f) = f.
Proof.
  intros Hf. unfold basename, path_join.
  assert (Hp : String.prefix "/" f = false).
  { destruct f as [|c f]; [reflexivity|]. rewrite prefix_cons, prefix_empty.
    cbn in Hf. apply andb_prop in Hf. destruct Hf as [Hc _].
    rewrite Ascii.eqb_sym. destruct (Ascii.eqb c "/"); [discriminate|].
    reflexivity. }
  rewrite Hp. destruct directory as [|c d] eqn:Ed.
  - cbn [Str.is_empty orb]. now rewrite basename_aux_no_slash.
  - rewrite <- Ed. replace (Str.is_empty directory) with false by now subst.
    cbn [orb]. destruct (Str.endswith directory "/") eqn:Es.
    + rewrite basename_aux_app, (basename_aux_endswith_slash _ _ Es).
      now rewrite basename_aux_no_slash.
    + rewrite basename_aux_app.
      change ("/" ++ f)%string with (String "/" f). cbn [basename_aux].
      rewrite Ascii.eqb_refl. now rewrite basename_aux_no_slash.
Qed.

(** X17.  The record of a file is named after the file: for an entry [f]
    of the directory (a name without a path separator), the key [filename]
    of the record extracted from the joined path is [f] itself, whether
    or not the directory is written with a trailing separator. *)
Theorem record_is_named_after_its_file env directory f msg w :
  no_slash f = true ->
  message_from_file env (path_join directory f) = Some msg ->
  decodes (msg_walk msg) = true ->
  exists email_data,
    value (extract_email_components env (path_join directory f)) w
    = Some email_data
    /\ getitem email_data "filename" = Some (PStr f).
Proof.
  intros Hf Hm Hd.
  destruct (extract_email_components_run env (path_join directory f) w)
    as (w' & Hrun & _).
  unfold value. rewrite Hrun. cbn [snd]. unfold extracted. rewrite Hm, Hd.
  eexists. split; [reflexivity|]. cbn. now rewrite basename_path_join.
Qed.

Lemma record_is_named_after_its_file_witness :
  exists email_data,
    value (extract_email_components sample_env (path_join "uploads/" "a.eml"))
      empty_world = Some email_data
    /\ getitem email_data "filename" = Some (PStr "a.eml").
Proof.
  apply (record_is_named_after_its_file sample_env "uploads/" "a.eml"
           sample_message empty_world); reflexivity.
Defined.

(** ** What the steps leave alone

    A relation between the world before and the world after that holds
    across every call of the logger, and that is reflexive and transitive,
    holds across each step whose other primitives keep it. *)

Section Frame.

Variable P : World -> World -> Prop.
Hypothesis P_refl : forall w, P w w.
Hypothesis P_trans : forall w1 w2 w3, P w1 w2 -> P w2 w3 -> P w1 w3.
Hypothesis P_log : forall l t args, preserves P (log l t args).

Lemma preserves_ret {A} (a : A) : preserves P (ret a).
Proof. intros w. apply P_refl. Qed.

Lemma preserves_raise {A} : preserves P (@raise A).
Proof. intros w. apply P_refl. Qed.

Lemma preserves_eval {A} (o : option A) : preserves P (eval o).
Proof. destruct o; [apply preserves_ret | apply preserves_raise]. Qed.

Lemma preserves_bind {A B} (m : M A) (k : A -> M B) :
  preserves P m -> (forall a, preserves P (k a)) -> preserves P (bind m k).
Proof.
  intros Hm Hk w. specialize (Hm w). unfold after, bind in *.
  destruct (m w) as [w' [a|]]; [|exact Hm].
  eapply P_trans; [exact Hm | apply Hk].
Qed.

Lemma preserves_try {A} (body handler : M A) :
  preserves P body -> preserves P handler ->
  preserves P (try_except body handler).
Proof.
  intros Hb Hh w. specialize (Hb w). unfold after, try_except in *.
  destruct (body w) as [w' [a|]]; [exact Hb|].
  eapply P_trans; [exact Hb | apply Hh].
Qed.

Lemma preserves_unchanged {A} (m : M A) :
  (forall w, fst (m w) = w) -> preserves P m.
Proof. intros H w. unfold after. rewrite H. apply P_refl. Qed.

(** One structural step of a proof that a computation preserves [P]. *)
Ltac frame_step :=
  match goal with
  | |- preserves _ (ret _) => apply preserves_ret
  | |- preserves _ raise => apply preserves_raise
  | |- preserves _ (eval _) => apply preserves_eval
  | |- preserves _ (log _ _ _) => apply P_log
  | |- preserves _ (try_except _ _) => apply preserves_try
  | |- preserves _ (bind _ _) => apply preserves_bind; [|intros ?; cbv beta]
  | |- preserves _ (match ?x with _ => _ end) => destruct x
  | |- preserves _ (let _ := _ in _) => cbv zeta
  end.

Ltac frame := unfold logger_info, logger_error; repeat frame_step.

Lemma preserves_walk_parts parts : forall body attachments,
  preserves P (walk_parts parts body attachments).
Proof.
  induction parts as [|p rest IH]; intros body attachments;
    cbn [walk_parts]; frame; apply IH.
Qed.

Lemma preserves_extract env filepath :
  preserves P (extract_email_components env filepath).
Proof.
  unfold extract_email_components. frame. apply preserves_walk_parts.
Qed.

Lemma preserves_classify env email_data :
  preserves P (classify_email_intent env email_data).
Proof. unfold classify_email_intent. frame. Qed.

Lemma preserves_context env email_data :
  preserves P (extract_context env email_data).
Proof. unfold extract_context. frame. Qed.

Lemma preserves_classify_segments env segments : forall intents,
  preserves P (classify_segments env segments intents).
Proof.
  induction segments as [|seg rest IH]; intros intents;
    cbn [classify_segments]; frame; apply IH.
Qed.

Lemma preserves_multi env email_data :
  preserves P (handle_multi_request env email_data).
Proof.
  unfold handle_multi_request. frame. apply preserves_classify_segments.
Qed.

Lemma preserves_preprocess env filepaths : forall preprocessed_data,
  preserves P (preprocess env filepaths preprocessed_data).
Proof.
  induction filepaths as [|filepath rest IH]; intros acc;
    cbn [preprocess]; frame;
    try apply preserves_extract; try apply preserves_classify;
    try apply preserves_context; try apply preserves_multi; apply IH.
Qed.

Lemma preserves_assign intent email_data :
  preserves P (assign_priority_and_confidence intent email_data).
Proof. unfold assign_priority_and_confidence. frame. Qed.

Lemma preserves_hash email_data : preserves P (compute_email_hash email_data).
Proof. unfold compute_email_hash. frame. Qed.

Lemma preserves_route result : preserves P (route_request result).
Proof. unfold route_request. frame. Qed.

Lemma preserves_detect cursor email_data email_hash :
  preserves P (detect_duplicates cursor email_data email_hash).
Proof.
  unfold detect_duplicates. frame.
  apply preserves_unchanged. intros w. unfold select_count.
  now destruct (select_raises cursor).
Qed.

Hypothesis P_connect : preserves P connect.
Hypothesis P_insert : forall cursor r, preserves P (insert_row cursor r).
Hypothesis P_audit : forall line, preserves P (write_classification_log line).

Lemma preserves_setup : preserves P setup_h2_database.
Proof. unfold setup_h2_database. frame. exact P_connect. Qed.

Lemma preserves_store cursor email_data intent context email_hash :
  preserves P (store_email_data cursor email_data intent context email_hash).
Proof. unfold store_email_data. frame. apply P_insert. Qed.

Lemma preserves_audit env result :
  preserves P (log_classification_decision env result).
Proof.
  unfold log_classification_decision, open_classification_log. frame.
  apply P_audit.
Qed.

Lemma preserves_process env args : preserves P (process_single_email env args).
Proof.
  unfold process_single_email, commit, close. frame;
    try apply preserves_assign; try apply preserves_hash;
    try apply preserves_setup; try apply preserves_detect;
    try apply preserves_store; try apply preserves_route;
    try apply preserves_audit.
Qed.

Lemma preserves_pool_map env tasks :
  preserves P (pool_map (process_single_email env) tasks).
Proof.
  induction tasks as [|a rest IH]; cbn [pool_map]; frame;
    [apply preserves_process | apply IH].
Qed.

Variable env : Env.
Hypothesis P_results :
  forall results, preserves P (write_results_json env results).

Lemma preserves_pipeline directory :
  preserves P (process_email_pipeline env directory).
Proof.
  unfold process_email_pipeline. frame;
    try apply preserves_preprocess; try apply preserves_pool_map;
    apply P_results.
Qed.

End Frame.

Lemma keeps_refl {X} (f : World -> X) w : keeps f w w.
Proof. reflexivity. Qed.

Lemma keeps_trans {X} (f : World -> X) w1 w2 w3 :
  keeps f w1 w2 -> keeps f w2 w3 -> keeps f w1 w3.
Proof. unfold keeps. congruence. Qed.

Lemma appends_refl {X} (f : World -> list X) w : appends f w w.
Proof. exists []. now rewrite app_nil_r. Qed.

Lemma appends_trans {X} (f : World -> list X) w1 w2 w3 :
  appends f w1 w2 -> appends f w2 w3 -> appends f w1 w3.
Proof.
  intros [a Ha] [b Hb]. exists (a ++ b). now rewrite Hb, Ha, app_assoc.
Qed.

Lemma keeps_appends {X} (f : World -> list X) w w' :
  keeps f w w' -> appends f w w'.
Proof. intros H. exists []. now rewrite app_nil_r. Qed.

(** X18.  Phase 1 never raises and touches nothing but the logger: the
    table, the pending connections, the audit file and the results file
    are what they were; the entries it was given stay at the head of its
    list, and it adds at most one entry per file. *)
Theorem phase1_touches_nothing env filepaths preprocessed_data w :
  let w' := after (preprocess env filepaths preprocessed_data) w in
  emails w' = emails w
  /\ connections w' = connections w
  /\ classification_log w' = classification_log w
  /\ results_json w' = results_json w
  /\ exists pre,
       value (preprocess env filepaths preprocessed_data) w
       = Some (preprocessed_data ++ pre)
       /\ List.length pre <= List.length filepaths.
Proof.
  intros w'.
  split; [apply (preserves_preprocess (keeps emails)); auto using keeps_refl;
          [apply keeps_trans | intros l t a w0; reflexivity]|].
  split; [apply (preserves_preprocess (keeps connections));
          auto using keeps_refl;
          [apply keeps_trans | intros l t a w0; reflexivity]|].
  split; [apply (preserves_preprocess (keeps classification_log));
          auto using keeps_refl;
          [apply keeps_trans | intros l t a w0; reflexivity]|].
  split; [apply (preserves_preprocess (keeps results_json));
          auto using keeps_refl;
          [apply keeps_trans | intros l t a w0; reflexivity]|].
  destruct (preprocess_run env filepaths preprocessed_data w)
    as (w1 & pre & Hrun & HF & _).
  exists pre. unfold value. rewrite Hrun. split; [reflexivity|].
  rewrite <- (Forall2_length HF). apply filter_length_le.
Qed.

Lemma try_except_returns {A} (body handler : M A) w :
  (forall w', exists a, snd (handler w') = Some a) ->
  exists a, snd (try_except body handler w) = Some a.
Proof.
  intros H. unfold try_except. destruct (body w) as [w1 [a|]]; [|apply H].
  now exists a.
Qed.

Lemma pipeline_appends_emails env directory :
  preserves (appends emails) (process_email_pipeline env directory).
Proof.
  apply preserves_pipeline.
  - apply appends_refl.
  - apply appends_trans.
  - intros l t a w. apply keeps_appends. reflexivity.
  - intros w. unfold after, connect.
    destruct (connections w); apply keeps_appends; reflexivity.
  - intros cursor r w. unfold after, insert_row.
    destruct (insert_raises cursor);
      [apply keeps_appends; reflexivity | eexists; reflexivity].
  - intros line w. apply keeps_appends. reflexivity.
  - intros results w. unfold after, write_results_json.
    destruct (results_json_writable env), (results_json_cut env);
      apply keeps_appends; reflexivity.
Qed.

Lemma pipeline_appends_audit env directory :
  preserves (appends classification_log)
    (process_email_pipeline env directory).
Proof.
  apply preserves_pipeline.
  - apply appends_refl.
  - apply appends_trans.
  - intros l t a w. apply keeps_appends. reflexivity.
  - intros w. unfold after, connect.
    destruct (connections w); apply keeps_appends; reflexivity.
  - intros cursor r w. unfold after, insert_row.
    destruct (insert_raises cursor); apply keeps_appends; reflexivity.
  - intros line w. eexists. reflexivity.
  - intros results w. unfold after, write_results_json.
    destruct (results_json_writable env), (results_json_cut env);
      apply keeps_appends; reflexivity.
Qed.

Lemma pipeline_appends_logs env directory :
  preserves (appends logs) (process_email_pipeline env directory).
Proof.
  apply preserves_pipeline.
  - apply appends_refl.
  - apply appends_trans.
  - intros l t a w. eexists. reflexivity.
  - intros w. unfold after, connect.
    destruct (connections w); apply keeps_appends; reflexivity.
  - intros cursor r w. unfold after, insert_row.
    destruct (insert_raises cursor); apply keeps_appends; reflexivity.
  - intros line w. apply keeps_appends. reflexivity.
  - intros results w. unfold after, write_results_json.
    destruct (results_json_writable env), (results_json_cut env);
      apply keeps_appends; reflexivity.
Qed.

Lemma pipeline_never_raises env directory w :
  exists results,
    value (process_email_pipeline env directory) w = Some results.
Proof.
  unfold value, process_email_pipeline.
  unfold bind at 1, logger_info at 1, log at 1. cbv beta iota.
  apply try_except_returns. intros w0. eexists. reflexivity.
Qed.

(** X19.  The pipeline never raises, and whatever the directory, the
    collaborators and the faults of the database, it only appends: the
    rows that were in the table, the lines that were in the audit file and
    the records of the logger are all there afterwards, in place, with
    what the run added behind them. *)
Theorem pipeline_only_appends env directory w :
  let w' := after (process_email_pipeline env directory) w in
  (exists results, value (process_email_pipeline env directory) w
                   = Some results)
  /\ (exists rows, emails w' = emails w ++ rows)
  /\ (exists lines, classification_log w' = classification_log w ++ lines)
  /\ (exists records, logs w' = logs w ++ records).
Proof.
  intros w'. split; [apply pipeline_never_raises|].
  split; [apply pipeline_appends_emails|].
  split; [apply pipeline_appends_audit | apply pipeline_appends_logs].
Qed.

(** ** The batch and the results file *)

(** The body of the [try] of the pipeline, when it returns. *)
Lemma pipeline_body_inv env directory w wf results :
  process_email_pipeline env directory w = (wf, Some results) ->
  results = []
  \/ exists names w0 w1 pre w2 rs,
       listdir env directory = Some names
       /\ preprocess env (eml_files directory names) [] w0 = (w1, Some pre)
       /\ pool_map (process_single_email env) pre w1 = (w2, Some rs)
       /\ results = filter is_not_none rs
       /\ results_json_writable env = true
       /\ results_json wf = Some results.
Proof.
  unfold process_email_pipeline. intros E.
  apply bind_returns_inv in E. destruct E as (w0 & [] & _ & E).
  unfold try_except in E.
  match type of E with
  | (let (_, _) := ?body w0 in _) = _ =>
      destruct (body w0) as [wb [rs0|]] eqn:Eb
  end.
  - injection E as <- <-. right.
    apply bind_returns_inv in Eb. destruct Eb as (wa & names & Hl & Eb).
    unfold eval in Hl. destruct (listdir env directory) as [names'|] eqn:Hd;
      [|discriminate]. injection Hl as <- <-.
    apply bind_returns_inv in Eb. destruct Eb as (wc & [] & _ & Eb).
    apply bind_returns_inv in Eb. destruct Eb as (w1 & pre & Hpre & Eb).
    apply bind_returns_inv in Eb. destruct Eb as (w2 & rs & Hpool & Eb).
    apply bind_returns_inv in Eb. destruct Eb as (w3 & [] & Hlog & Eb).
    apply bind_returns_inv in Eb. destruct Eb as (w4 & [] & Hwrite & Eb).
    apply bind_returns_inv in Eb. destruct Eb as (w5 & [] & Hlog2 & Eb).
    injection Eb as <- <-.
    unfold write_results_json in Hwrite.
    destruct (results_json_writable env) eqn:Hw;
      [|destruct (results_json_cut env); discriminate].
    injection Hwrite as <-. injection Hlog2 as <-.
    exists names', wc, w1, pre, w2, rs. repeat split; auto.
  - left. apply bind_returns_inv in E. destruct E as (? & [] & _ & E).
    now injection E as _ <-.
Qed.

(** X20.  A batch that is not empty is written to the results file before
    it is returned: what the caller gets is what the file holds. *)
Theorem results_file_holds_the_batch env directory w results :
  value (process_email_pipeline env directory) w = Some results ->
  results <> [] ->
  results_json (after (process_email_pipeline env directory) w)
  = Some results.
Proof.
  unfold value, after.
  destruct (process_email_pipeline env directory w) as [wf o] eqn:E.
  cbn. intros -> Hne.
  destruct (pipeline_body_inv _ _ _ _ _ E) as [H|H]; [congruence|].
  destruct H as (names & w0 & w1 & pre & w2 & rs & _ & _ & _ & _ & _ & H).
  exact H.
Qed.

Lemma results_file_holds_the_batch_witness :
  results_json (after (process_email_pipeline sample_env "uploads")
                  empty_world)
  = Some [routing_result "a.eml" "Payment Inquiry" (PFloat (9 # 10))
            sample_body
            (PDict [("entities", PList []); ("amounts", PList []);
                    ("dates", PList [])])
            false
            (PList [segment_intent sample_body "Payment Inquiry" (9 # 10)])].
Proof.
  apply (results_file_holds_the_batch sample_env "uploads" empty_world);
    [reflexivity | discriminate].
Defined.

(** X21.  When the directory cannot be listed the run is an empty batch:
    the error is logged, no file is read, no connection is opened, and the
    table and the two files are left as they were. *)
Theorem unreadable_directory_gives_an_empty_batch env directory w :
  listdir env directory = None ->
  let w' := after (process_email_pipeline env directory) w in
  value (process_email_pipeline env directory) w = Some []
  /\ logs w'
     = logs w
       ++ [LogRecord INFO
             "Starting email processing pipeline for directory: {}"
             [PStr directory];
           LogRecord ERROR "Error in email processing pipeline" []]
  /\ emails w' = emails w
  /\ connections w' = connections w
  /\ classification_log w' = classification_log w
  /\ results_json w' = results_json w.
Proof.
  intros H w'. subst w'. unfold process_email_pipeline. run. rewrite H. cbn.
  rewrite <- app_assoc. repeat split; reflexivity.
Qed.

Lemma unreadable_directory_gives_an_empty_batch_witness :
  let env := mkEnv (fun _ => None) (fun _ => Some sample_message)
                   (fun _ labels => Some (labels, [(1 # 2)%Q]))
                   (fun _ => Some []) (fun _ _ => []) true true false in
  let w := world_with [sample_row] healthy in
  let w' := after (process_email_pipeline env "nowhere") w in
  value (process_email_pipeline env "nowhere") w = Some []
  /\ logs w'
     = logs w
       ++ [LogRecord INFO
             "Starting email processing pipeline for directory: {}"
             [PStr "nowhere"];
           LogRecord ERROR "Error in email processing pipeline" []]
  /\ emails w' = emails w
  /\ connections w' = connections w
  /\ classification_log w' = classification_log w
  /\ results_json w' = results_json w.
Proof.
  apply (unreadable_directory_gives_an_empty_batch
           (mkEnv (fun _ => None) (fun _ => Some sample_message)
                  (fun _ labels => Some (labels, [(1 # 2)%Q]))
                  (fun _ => Some []) (fun _ _ => []) true true false)
           "nowhere" (world_with [sample_row] healthy)).
  reflexivity.
Defined.

Lemma pool_map_phase1 env filepaths : forall tasks w,
  Forall2 (phase1_args env) filepaths tasks ->
  exists w' rs,
    pool_map (process_single_email env) tasks w = (w', Some rs)
    /\ Forall2 (fun filepath r => r = PNone \/ result_of filepath r)
               filepaths rs.
Proof.
  induction filepaths as [|filepath rest IH]; intros tasks w HF;
    inversion HF as [|? a ? tasks' Ha Htl]; subst.
  - exists w, []. split; [reflexivity | constructor].
  - destruct Ha as (msg & primary_intent & all_intents & Hm & Hti & ->).
    destruct (classified_shape env _ Hti)
      as (request_type & confidence & sub_type & sub_confidence & Hi).
    rewrite Hi. cbn [pool_map]. unfold bind at 1.
    destruct (next_connection w) as [conn|] eqn:Hn.
    + destruct (process_single_email_connected env filepath
                  (basename filepath) (subject_of msg)
                  (body_of (msg_walk msg)) request_type
                  (attachments_of (msg_walk msg))
                  confidence sub_type sub_confidence
                  (contextualised env
                     (text_of (subject_of msg) (body_of (msg_walk msg))))
                  primary_intent all_intents w conn Hn)
        as (w1 & -> & _).
      destruct (IH tasks' w1 Htl) as (w' & rs & Hrun & HR).
      unfold bind at 1. rewrite Hrun. eexists w', (_ :: rs).
      split; [reflexivity|]. constructor; [|exact HR].
      destruct (commit_raises conn || close_raises conn); [now left|].
      right. red. eauto 10.
    + destruct (process_single_email_unconnected env filepath
                  (basename filepath) (subject_of msg)
                  (body_of (msg_walk msg)) request_type
                  (attachments_of (msg_walk msg))
                  confidence sub_type sub_confidence
                  (contextualised env
                     (text_of (subject_of msg) (body_of (msg_walk msg))))
                  primary_intent all_intents w Hn)
        as (w1 & -> & _).
      destruct (IH tasks' w1 Htl) as (w' & rs & Hrun & HR).
      unfold bind at 1. rewrite Hrun. eexists w', (_ :: rs).
      split; [reflexivity|]. constructor; [now left | exact HR].
Qed.

Lemma pipeline_keeps_results_json env directory :
  results_json_writable env = false ->
  results_json_cut env = false ->
  preserves (keeps results_json) (process_email_pipeline env directory).
Proof.
  intros Hw Hc. apply preserves_pipeline.
  - apply keeps_refl.
  - apply keeps_trans.
  - intros l t a w. reflexivity.
  - intros w. unfold after, connect. now destruct (connections w).
  - intros cursor r w. unfold after, insert_row.
    now destruct (insert_raises cursor).
  - intros line w. reflexivity.
  - intros results w. unfold after, write_results_json. now rewrite Hw, Hc.
Qed.

(** Once the directory is listed the pipeline gets as far as the results
    file, whatever phase 1 and phase 2 meet on the way. *)
Lemma pipeline_cuts_results_json env directory names w :
  listdir env directory = Some names ->
  results_json_writable env = false ->
  results_json_cut env = true ->
  results_json (after (process_email_pipeline env directory) w) = None.
Proof.
  intros Hl Hw Hc. unfold process_email_pipeline, after.
  unfold bind at 1, logger_info at 1, log at 1. cbv beta iota.
  unfold try_except, bind at 1. rewrite Hl. cbn [eval ret].
  unfold bind at 1, logger_info at 1, log at 1. cbv beta iota.
  unfold bind at 1.
  match goal with |- context [preprocess env ?fs [] ?w0] =>
    destruct (preprocess_run env fs [] w0) as (w1 & pre & -> & HF & _) end.
  cbn [app]. unfold bind at 1.
  destruct (pool_map_phase1 env _ pre w1 HF) as (w2 & rs & -> & _).
  unfold bind at 1, logger_info at 1, log at 1. cbv beta iota.
  unfold bind at 1, write_results_json. rewrite Hw, Hc.
  reflexivity.
Qed.

(** X22.  When the results file cannot be written the batch is lost: the
    pipeline returns the empty list, whatever was processed, stored and
    routed before.  The file is what it was only when it could not be
    opened; when it was opened and the writing failed after that, the
    batch of the run before is gone from it as well. *)
Theorem unwritable_results_file_loses_the_batch env directory w :
  results_json_writable env = false ->
  let w' := after (process_email_pipeline env directory) w in
  value (process_email_pipeline env directory) w = Some []
  /\ (results_json_cut env = false -> results_json w' = results_json w)
  /\ (results_json_cut env = true -> listdir env directory <> None ->
      results_json w' = None).
Proof.
  intros Hw w'. split; [|split].
  - destruct (pipeline_never_raises env directory w) as [results Hv].
    rewrite Hv. f_equal. unfold value in Hv.
    destruct (process_email_pipeline env directory w) as [wf o] eqn:E.
    cbn in Hv. subst o.
    destruct (pipeline_body_inv _ _ _ _ _ E) as [H|H]; [exact H|].
    destruct H as (names & w0 & w1 & pre & w2 & rs & _ & _ & _ & _ & H & _).
    congruence.
  - intros Hc. now apply pipeline_keeps_results_json.
  - intros Hc Hl. destruct (listdir env directory) as [names|] eqn:Hd;
      [|congruence].
    now apply (pipeline_cuts_results_json env directory names).
Qed.

Lemma unwritable_results_file_loses_the_batch_witness :
  let w := mkWorld [] [] [] [] (Some [sample_result false]) in
  let w' := after (process_email_pipeline full_disk_env "uploads") w in
  value (process_email_pipeline full_disk_env "uploads") w = Some []
  /\ (results_json_cut full_disk_env = false ->
      results_json w' = results_json w)
  /\ (results_json_cut full_disk_env = true ->
      listdir full_disk_env "uploads" <> None ->
      results_json w' = None).
Proof.
  apply (unwritable_results_file_loses_the_batch full_disk_env "uploads"
           (mkWorld [] [] [] [] (Some [sample_result false]))).
  reflexivity.
Defined.

(** The batch of the run before is gone when the writing fails on the
    open file, and still there when the file cannot be opened. *)
Example old_batch_after_a_failed_write :
  let w := mkWorld [] [] [] [] (Some [sample_result false]) in
  results_json (after (process_email_pipeline full_disk_env "uploads") w)
  = None
  /\ results_json (after (process_email_pipeline read_only_env "uploads") w)
     = Some [sample_result false]
  /\ emails (after (process_email_pipeline full_disk_env "uploads") w)
     <> [].
Proof. vm_compute. repeat split; discriminate. Qed.

Lemma subseq_nil_l {X} (l : list X) : subseq [] l.
Proof. induction l; constructor; assumption. Qed.

Lemma batch_of_results filepaths rs :
  Forall2 (fun filepath r => r = PNone \/ result_of filepath r) filepaths rs ->
  subseq (map (fun r => getitem r "filename") (filter is_not_none rs))
         (map (fun filepath => Some (PStr (basename filepath))) filepaths)
  /\ Forall (fun r => exists team,
                 getitem r "routing" = Some (PDict [("team", PStr team)])
                 /\ team <> EmptyString)
            (filter is_not_none rs).
Proof.
  induction 1 as [|filepath r filepaths rs Hr _ [IH1 IH2]].
  - split; constructor.
  - destruct Hr as [->|(c & cf & b & ctx & d & al & ->)]; cbn.
    + split; [now constructor | exact IH2].
    + split; [now constructor|]. constructor; [|exact IH2].
      exists (team_of c). split; [reflexivity | apply team_of_nonempty].
Qed.

(** X23.  Whatever fails in phase 2, the batch holds results of considered
    files that passed phase 1 only, at most one for each and in the order
    of the directory listing; and every result in it carries a team. *)
Theorem batch_is_drawn_from_the_passing_files
    env directory names w results :
  listdir env directory = Some names ->
  value (process_email_pipeline env directory) w = Some results ->
  subseq (map (fun r => getitem r "filename") results)
         (map (fun filepath => Some (PStr (basename filepath)))
              (filter (passes env)
                 (map (path_join directory)
                    (filter (fun f => Str.endswith f ".eml") names))))
  /\ Forall (fun r => exists team,
                 getitem r "routing" = Some (PDict [("team", PStr team)])
                 /\ team <> EmptyString)
            results.
Proof.
  intros Hl. unfold value.
  destruct (process_email_pipeline env directory w) as [wf o] eqn:E.
  cbn. intros ->.
  destruct (pipeline_body_inv _ _ _ _ _ E) as [->|H].
  { split; [apply subseq_nil_l | constructor]. }
  destruct H as (names' & w0 & w1 & pre & w2 & rs & Hl' & Hpre & Hpool
                 & -> & _).
  rewrite Hl in Hl'. injection Hl' as <-.
  destruct (preprocess_run env (eml_files directory names) [] w0)
    as (w1' & pre' & Hrun & HF & _).
  rewrite Hrun in Hpre. injection Hpre as <- <-.
  destruct (pool_map_phase1 env _ pre' w1' HF) as (w2' & rs' & Hrun2 & HR).
  rewrite Hrun2 in Hpool. injection Hpool as <- <-.
  apply batch_of_results. exact HR.
Qed.

Lemma batch_is_drawn_from_the_passing_files_witness :
  let results := [mixed_result "a.eml" false; mixed_result "d.eml" true] in
  subseq (map (fun r => getitem r "filename") results)
         (map (fun filepath => Some (PStr (basename filepath)))
              ["uploads/a.eml"; "uploads/c.eml"; "uploads/d.eml"])
  /\ Forall (fun r => exists team,
                 getitem r "routing" = Some (PDict [("team", PStr team)])
                 /\ team <> EmptyString)
            results.
Proof.
  apply (batch_is_drawn_from_the_passing_files mixed_env "uploads"
           ["a.eml"; "notes.txt"; "b.eml"; "c.eml"; "d.eml"] mixed_world
           [mixed_result "a.eml" false; mixed_result "d.eml" true]);
    reflexivity.
Defined.

(** The sample batch: of five files one is no message, one cannot be
    parsed and one finds the database closed; the two that are left come
    back in the order of the listing, the later one flagged. *)
Example mixed_batch :
  value (process_email_pipeline mixed_env "uploads") mixed_world
  = Some [mixed_result "a.eml" false; mixed_result "d.eml" true]
  /\ filter (passes mixed_env)
       (map (path_join "uploads")
          (filter (fun f => Str.endswith f ".eml")
             ["a.eml"; "notes.txt"; "b.eml"; "c.eml"; "d.eml"]))
     = ["uploads/a.eml"; "uploads/c.eml"; "uploads/d.eml"]
  /\ map (fun r => getitem r "routing")
       [mixed_result "a.eml" false; mixed_result "d.eml" true]
     = [Some (PDict [("team", PStr "Finance Team")]);
        Some (PDict [("team", PStr "Finance Team")])].
Proof. vm_compute. repeat split; reflexivity. Qed.

(** ** The audit file and the connections *)

Lemma keeps_of_run {A X} (f : World -> X) (m : M A) w w' o :
  preserves (keeps f) m -> m w = (w', o) -> f w' = f w.
Proof. intros H E. specialize (H w). unfold after in H. now rewrite E in H. Qed.

Lemma keeps_audit_log l t args :
  preserves (keeps classification_log) (log l t args).
Proof. intros w. reflexivity. Qed.

(** X24.  The audit step never raises on a record that carries its file
    name.  With the audit file writable and the intent scored, it appends
    one line, the file name, the category and the confidence of the
    record; with the file not writable it appends nothing and logs the
    error.  The table is not touched. *)
Theorem audit_line_of_a_result env result filename intent c confidence w :
  getitem result "filename" = Some filename ->
  getitem result "intent" = Some intent ->
  getitem intent "request_type" = Some c ->
  getitem intent "confidence" = Some confidence ->
  let w' := after (log_classification_decision env result) w in
  value (log_classification_decision env result) w = Some tt
  /\ classification_log w'
     = classification_log w
       ++ (if classification_log_writable env
           then [(filename, c, confidence)] else [])
  /\ (classification_log_writable env = false ->
      In (LogRecord ERROR "Error logging classification decision for {}"
            [filename]) (logs w'))
  /\ emails w' = emails w.
Proof.
  intros Hf Hi Hc Hq w'. subst w'.
  unfold log_classification_decision, open_classification_log,
    write_classification_log. run.
  rewrite Hf. cbn.
  destruct (classification_log_writable env); cbn.
  - rewrite Hi. cbn. rewrite Hc. cbn. rewrite Hq. cbn.
    repeat split; auto. discriminate.
  - rewrite app_nil_r. repeat split; auto.
    intros _. apply in_or_app. right. now left.
Qed.

Lemma audit_line_of_a_result_witness :
  let w' := after (log_classification_decision quiet_env (sample_result false))
              empty_world in
  value (log_classification_decision quiet_env (sample_result false))
    empty_world = Some tt
  /\ classification_log w'
     = classification_log empty_world
       ++ (if classification_log_writable quiet_env
           then [(PStr "a.eml", PStr "Payment Inquiry", PFloat (9 # 10))]
           else [])
  /\ (classification_log_writable quiet_env = false ->
      In (LogRecord ERROR "Error logging classification decision for {}"
            [PStr "a.eml"]) (logs w'))
  /\ emails w' = emails empty_world.
Proof.
  apply (audit_line_of_a_result quiet_env (sample_result false)
           (PStr "a.eml")
           (scored_intent_of "Payment Inquiry" (PFloat (9 # 10)) sample_body)
           (PStr "Payment Inquiry") (PFloat (9 # 10)) empty_world);
    reflexivity.
Defined.

Section AuditKept.

Let K := keeps classification_log.

Lemma audit_kept_by_connect : preserves K connect.
Proof. intros w. unfold after, connect. now destruct (connections w). Qed.

Lemma audit_kept_by_insert cursor r : preserves K (insert_row cursor r).
Proof.
  intros w. unfold after, insert_row. now destruct (insert_raises cursor).
Qed.

Lemma audit_kept_by_assign intent email_data :
  preserves K (assign_priority_and_confidence intent email_data).
Proof.
  apply preserves_assign;
    [apply keeps_refl | apply keeps_trans | apply keeps_audit_log].
Qed.

Lemma audit_kept_by_hash email_data :
  preserves K (compute_email_hash email_data).
Proof.
  apply preserves_hash;
    [apply keeps_refl | apply keeps_trans | apply keeps_audit_log].
Qed.

Lemma audit_kept_by_setup : preserves K setup_h2_database.
Proof.
  apply preserves_setup;
    [apply keeps_refl | apply keeps_trans | apply keeps_audit_log
    | apply audit_kept_by_connect].
Qed.

Lemma audit_kept_by_detect cursor email_data email_hash :
  preserves K (detect_duplicates cursor email_data email_hash).
Proof.
  apply preserves_detect;
    [apply keeps_refl | apply keeps_trans | apply keeps_audit_log].
Qed.

Lemma audit_kept_by_store cursor email_data intent context email_hash :
  preserves K (store_email_data cursor email_data intent context email_hash).
Proof.
  apply preserves_store;
    [apply keeps_refl | apply keeps_trans | apply keeps_audit_log
    | apply audit_kept_by_insert].
Qed.

Lemma audit_kept_by_route result : preserves K (route_request result).
Proof.
  apply preserves_route;
    [apply keeps_refl | apply keeps_trans | apply keeps_audit_log].
Qed.

End AuditKept.

Lemma audit_step env result filename intent c confidence w w' o :
  getitem result "filename" = Some filename ->
  getitem result "intent" = Some intent ->
  getitem intent "request_type" = Some c ->
  getitem intent "confidence" = Some confidence ->
  log_classification_decision env result w = (w', o) ->
  classification_log w'
  = classification_log w
    ++ (if classification_log_writable env
        then [(filename, c, confidence)] else []).
Proof.
  intros Hf Hi Hc Hq.
  unfold log_classification_decision, open_classification_log,
    write_classification_log. run.
  rewrite Hf. cbn.
  destruct (classification_log_writable env); cbn.
  - rewrite Hi. cbn. rewrite Hc. cbn. rewrite Hq. cbn.
    now intros [= <- _].
  - intros [= <- _]. cbn. now rewrite app_nil_r.
Qed.

Section PhaseTwoEffects.

Variable env : Env.
Variables (filepath filename subject body c : string).
Variables (attachments : list pyval).
Variables (confidence sub_request_type sub_confidence : pyval).
Variables (context primary_intent all_intents : pyval).

Let email_data := mk_email_data filename subject body attachments.
Let intent := mk_intent c confidence sub_request_type sub_confidence.
Let args :=
  mkArgs filepath email_data intent context primary_intent all_intents.

Lemma process_single_email_effects w :
  let w' := after (process_single_email env args) w in
  connections w' = List.tl (connections w)
  /\ classification_log w'
     = classification_log w
       ++ match next_connection w with
          | Some _ =>
              if classification_log_writable env
              then [(PStr filename, PStr c, confidence)] else []
          | None => []
          end.
Proof.
  intros w'. subst w'. unfold after, process_single_email. run. unfold args.
  cbn [arg_filepath arg_email_data arg_intent arg_context arg_all_intents].
  match goal with |- context [assign_priority_and_confidence _ _ ?w0] =>
    destruct (assign_priority_run intent email_data (PStr filename) c
                confidence body w0 eq_refl eq_refl eq_refl eq_refl)
      as (w1 & E1 & _ & Hc1);
    pose proof (keeps_of_run classification_log _ _ _ _
                  (audit_kept_by_assign intent email_data) E1) as Hk1;
    rewrite E1
  end.
  cbn [truthy scored_intent_of negb].
  destruct (compute_email_hash_run email_data (PStr filename) subject body
              w1 eq_refl eq_refl eq_refl) as (w2 & E2 & _ & Hc2).
  pose proof (keeps_of_run classification_log _ _ _ _
                (audit_kept_by_hash email_data) E2) as Hk2.
  rewrite E2. cbn [truthy negb]. rewrite fingerprint_not_empty. cbn [negb].
  destruct (setup_h2_database_run w2) as (w3 & E3 & _ & Hc3).
  pose proof (keeps_of_run classification_log _ _ _ _
                audit_kept_by_setup E3) as Hk3.
  rewrite E3.
  cbn [logs emails connections classification_log] in Hc1, Hk1.
  assert (Hn2 : next_connection w2 = next_connection w).
  { unfold next_connection. now rewrite Hc2, Hc1. }
  rewrite Hn2. destruct (next_connection w) as [conn|].
  2:{ cbn. rewrite app_nil_r. split; congruence. }
  destruct (detect_duplicates_run conn email_data (PStr filename)
              (fingerprint subject body) w3 eq_refl) as (w4 & E4 & _ & Hc4).
  pose proof (keeps_of_run classification_log _ _ _ _
                (audit_kept_by_detect conn email_data _) E4) as Hk4.
  rewrite E4.
  destruct (store_email_data_run conn email_data intent context
              (PStr (fingerprint subject body)) (PStr filename) (PStr c)
              sub_request_type confidence w4
              eq_refl eq_refl eq_refl eq_refl) as (w5 & E5 & _ & Hc5 & _).
  pose proof (keeps_of_run classification_log _ _ _ _
                (audit_kept_by_store conn email_data intent context _) E5)
    as Hk5.
  rewrite E5.
  change (getitem email_data "filename") with (Some (PStr filename)).
  cbv beta iota.
  match goal with |- context [route_request (PDict ?f) ?w0] =>
    destruct (route_request_run f (PStr filename)
                (scored_intent_of c confidence body) c w0
                eq_refl eq_refl eq_refl) as (w6 & E6 & _ & Hc6 & _);
    pose proof (keeps_of_run classification_log _ _ _ _
                  (audit_kept_by_route (PDict f)) E6) as Hk6;
    rewrite E6
  end.
  match goal with |- context [log_classification_decision env ?r ?w0] =>
    destruct (log_classification_decision_run env r (PStr filename) w0
                eq_refl) as (w7 & E7 & _ & Hc7 & _);
    pose proof (audit_step env r (PStr filename)
                  (scored_intent_of c confidence body) (PStr c) confidence
                  w0 w7 _ eq_refl eq_refl eq_refl eq_refl E7) as Hk7;
    rewrite E7
  end.
  assert (Hcn : connections w7 = List.tl (connections w)) by congruence.
  assert (Hk : classification_log w7
               = classification_log w
                 ++ (if classification_log_writable env
                     then [(PStr filename, PStr c, confidence)] else []))
    by congruence.
  unfold commit, close. run.
  destruct (commit_raises conn), (close_raises conn); cbn; split; assumption.
Qed.

(** X25.  Each message that passed phase 1 uses up one pending connection
    in phase 2, whether the database opens or not and whatever raises
    afterwards.  When the database opens and the audit file is writable,
    the audit line of the message is written, before the commit: it is
    there also when the commit or the close raises and the message is
    dropped from the batch. *)
Theorem one_connection_and_one_audit_line w :
  let w' := after (process_single_email env args) w in
  connections w' = List.tl (connections w)
  /\ (forall conn,
        next_connection w = Some conn ->
        classification_log_writable env = true ->
        classification_log w'
        = classification_log w ++ [(PStr filename, PStr c, confidence)])
  /\ (next_connection w = None ->
      classification_log w' = classification_log w).
Proof.
  intros w'. destruct (process_single_email_effects w) as [Hc Hk].
  fold w' in Hc, Hk. split; [exact Hc|]. split.
  - intros conn Hn Hw. now rewrite Hk, Hn, Hw.
  - intros Hn. rewrite Hk, Hn. apply app_nil_r.
Qed.

End PhaseTwoEffects.

Example audit_line_of_a_dropped_message :
  let w := world_with [] (mkConn false false true false) in
  value (process_single_email quiet_env sample_args) w = Some PNone
  /\ classification_log (after (process_single_email quiet_env sample_args) w)
     = [(PStr "a.eml", PStr "Payment Inquiry", PFloat (9 # 10))].
Proof. split; reflexivity. Qed.

(** ** The form of the fingerprint *)

Lemma hex_digit_is_hex x :
  (0 <= x < 16)%Z -> is_hex_digit (MD5.hex_digit x) = true.
Proof.
  intros H.
  assert (Hx : In x [0; 1; 2; 3; 4; 5; 6; 7; 8; 9; 10; 11; 12; 13; 14; 15]%Z)
    by (cbn; lia).
  cbn in Hx.
  repeat (destruct Hx as [<-|Hx]; [reflexivity|]). destruct Hx.
Qed.

Lemma land_255_bounds y : (0 <= Z.land y 255 < 256)%Z.
Proof.
  change 255%Z with (Z.ones 8). rewrite Z.land_ones by lia.
  apply Z.mod_pos_bound. reflexivity.
Qed.

Lemma hex_byte_is_hex y rest :
  forallb is_hex_digit
    (list_ascii_of_string (MD5.hex_byte (Z.land y 255) rest))
  = forallb is_hex_digit (list_ascii_of_string rest).
Proof.
  unfold MD5.hex_byte. cbn [list_ascii_of_string forallb].
  pose proof (land_255_bounds y) as Hb.
  rewrite !hex_digit_is_hex; [reflexivity| |].
  - change 15%Z with (Z.ones 4). rewrite Z.land_ones by lia.
    apply Z.mod_pos_bound. reflexivity.
  - rewrite Z.shiftr_div_pow2 by lia. change (2 ^ 4)%Z with 16%Z.
    split; [apply Z.div_pos; lia | apply Z.div_lt_upper_bound; lia].
Qed.

Lemma hexdigest_is_hex msg :
  forallb is_hex_digit (list_ascii_of_string (MD5.hexdigest msg)) = true.
Proof.
  unfold MD5.hexdigest. destruct (MD5.digest_state msg) as [a b c d].
  unfold MD5.hex_word. now rewrite !hex_byte_is_hex.
Qed.

(** X26.  The fingerprint of a record is a string of 32 characters, each a
    digit or a letter from [a] to [f] in lower case, whatever the subject
    and the body. *)
Theorem fingerprint_is_lowercase_hex email_data filename subject body w :
  getitem email_data "filename" = Some filename ->
  getitem email_data "subject" = Some (PStr subject) ->
  getitem email_data "body" = Some (PStr body) ->
  exists h,
    value (compute_email_hash email_data) w = Some (PStr h)
    /\ String.length h = 32
    /\ forallb is_hex_digit (list_ascii_of_string h) = true.
Proof.
  intros Hf Hs Hb.
  exists (MD5.hexdigest (str_encode (subject ++ body)%string)). split.
  - apply compute_email_hash_value with filename; assumption.
  - split; [apply hexdigest_length | apply hexdigest_is_hex].
Qed.

Lemma fingerprint_is_lowercase_hex_witness :
  exists h,
    value (compute_email_hash (arg_email_data sample_args)) empty_world
    = Some (PStr h)
    /\ String.length h = 32
    /\ forallb is_hex_digit (list_ascii_of_string h) = true.
Proof.
  apply (fingerprint_is_lowercase_hex (arg_email_data sample_args)
           (PStr "a.eml") sample_subject sample_body empty_world);
    reflexivity.
Defined.
